(** * Weekly schedule assignment of the marathon plan generator

    A shallow embedding of the week generator
    (generator/generators/week-generator.ts), the strength scheduler
    (generator/generators/strength-scheduler.ts), the workout constructors
    (generator/generators/workout-generator.ts), the blocked-date lookup
    (parsers: isDateBlocked), the plan calendar (calculators/date-math.ts)
    and the week templates (templates/*.ts), with the properties of the
    weekly schedule stated and proved over it.

    Conventions of the embedding:
    - string unions (DayOfWeek, RunType, Phase, ...) are inductive types;
    - a JavaScript [Map] is an insertion-ordered association list with
      distinct keys ([JsMap]); [set] replaces in place or appends;
    - JavaScript numbers that carry distances and durations are kept
      abstract: every definition is parametric in an interface [JsNumber]
      of the operations the source applies to them, so that the results hold
      for IEEE doubles as for any other interpretation.  Counts of sessions
      (integers, exact in a double) are [Z];
    - an optional field or argument is an [option]; an exception is [None]
      in the result of the function that can raise it. *)

From Stdlib Require Import ZArith QArith Qround String Ascii Lia.
From stdpp Require Import base decidable list strings option sorting.

Open Scope Z_scope.

(** ** JavaScript numbers *)

Class JsNumber (num : Type) := {
  num_lit : Q -> num;                 (* a numeric literal of the source *)
  num_add : num -> num -> num;
  num_sub : num -> num -> num;
  num_mul : num -> num -> num;
  num_div : num -> num -> num;
  num_round : num -> num;             (* Math.round *)
  num_gtb : num -> num -> bool;       (* x > y *)
  num_truthy : num -> bool;           (* ToBoolean: false on 0 and NaN *)
  num_parseInt : string -> num;       (* parseInt(s, 10) *)
  (* a number above zero is neither 0 nor NaN *)
  num_gtb_0_truthy : forall x, num_gtb x (num_lit 0) = true -> num_truthy x = true;
  (* no number is above itself *)
  num_gtb_irrefl : forall x, num_gtb x x = false
}.

Declare Scope num_scope.
Delimit Scope num_scope with num.
Infix "+^" := num_add (at level 50, left associativity) : num_scope.
Infix "-^" := num_sub (at level 50, left associativity) : num_scope.
Infix "*^" := num_mul (at level 40, left associativity) : num_scope.
Infix "/^" := num_div (at level 40, left associativity) : num_scope.

(** [x || d] on an optional number: [d] when [x] is undefined, 0 or NaN. *)
Definition num_or {num : Type} `{!JsNumber num} (x : option num) (d : num) : num :=
  match x with
  | Some v => if num_truthy v then v else d
  | None => d
  end.

(** The rationals as an interpretation, exact where doubles round; it serves
    to run the model on concrete weeks.  [parseInt] reads a run of decimal
    digits (the form of the pace strings "M:SS"). *)
Definition digit_of_ascii (c : ascii) : option Z :=
  let n := Z.of_nat (nat_of_ascii c) in
  if (48 <=? n) && (n <=? 57) then Some (n - 48) else None.

Fixpoint parse_digits (s : string) (acc : Z) : Z :=
  match s with
  | EmptyString => acc
  | String c s' =>
      match digit_of_ascii c with
      | Some d => parse_digits s' (10 * acc + d)
      | None => acc
      end
  end.

Definition Q_round (x : Q) : Q := inject_Z (Qfloor (x + (1 # 2))).
Definition Q_gtb (x y : Q) : bool := negb (Qle_bool x y).
Definition Q_truthy (x : Q) : bool := negb (Qeq_bool x 0).

#[global] Instance Q_JsNumber : JsNumber Q.
Proof.
  refine {| num_lit := fun q => q;
            num_add := Qplus;
            num_sub := Qminus;
            num_mul := Qmult;
            num_div := Qdiv;
            num_round := Q_round;
            num_gtb := Q_gtb;
            num_truthy := Q_truthy;
            num_parseInt := fun s => inject_Z (parse_digits s 0) |}.
  - unfold Q_gtb, Q_truthy. intros x Hgt.
    apply negb_true_iff in Hgt. apply negb_true_iff.
    destruct (Qeq_bool x 0) eqn:Heq; [|reflexivity].
    apply Qeq_bool_iff in Heq.
    assert (Hle : Qle_bool x 0 = true).
    { apply Qle_bool_iff. rewrite Heq. apply Qle_refl. }
    congruence.
  - unfold Q_gtb. intros x. apply negb_false_iff, Qle_bool_iff, Qle_refl.
Defined.

(** ** Enumerations (types/intake.ts, types/plan.ts) *)

Inductive DayOfWeek :=
  | monday | tuesday | wednesday | thursday | friday | saturday | sunday.

Inductive RunType :=
  | rest | easy | long | tempo | intervals | fartlek | race_pace
  | recovery | cross_training | hill_repeats | progression.

Inductive StrengthType := full_body | upper_body | lower_body | core | mobility.

Inductive Phase := base | build | peak | taper | race.

Inductive PlanLevel := conservative | moderate | ambitious.

#[global] Instance DayOfWeek_eq_dec : EqDecision DayOfWeek.
Proof. solve_decision. Defined.
#[global] Instance RunType_eq_dec : EqDecision RunType.
Proof. solve_decision. Defined.
#[global] Instance StrengthType_eq_dec : EqDecision StrengthType.
Proof. solve_decision. Defined.
#[global] Instance Phase_eq_dec : EqDecision Phase.
Proof. solve_decision. Defined.
#[global] Instance PlanLevel_eq_dec : EqDecision PlanLevel.
Proof. solve_decision. Defined.

(** ** Map: insertion-ordered, keyed by weekday *)

Module JsMap.
Section Ops.
Context {V : Type}.

Definition t := list (DayOfWeek * V).

Definition empty : t := [].

Fixpoint get (k : DayOfWeek) (m : t) : option V :=
  match m with
  | [] => None
  | (k', v) :: m' => if decide (k = k') then Some v else get k m'
  end.

Definition has (k : DayOfWeek) (m : t) : bool :=
  match get k m with Some _ => true | None => false end.

(** [set] keeps the position of a key that is present and appends a new one. *)
Fixpoint set (k : DayOfWeek) (v : V) (m : t) : t :=
  match m with
  | [] => [(k, v)]
  | (k', v') :: m' =>
      if decide (k = k') then (k, v) :: m' else (k', v') :: set k v m'
  end.

Definition keys (m : t) : list DayOfWeek := map fst m.
Definition values (m : t) : list V := map snd m.
Definition size (m : t) : nat := length m.

End Ops.
Arguments t : clear implicits.
End JsMap.

(** ** Day ring (strength-scheduler.ts) *)

Definition DAYS_IN_ORDER : list DayOfWeek :=
  [monday; tuesday; wednesday; thursday; friday; saturday; sunday].

(** Array.prototype.indexOf: -1 when the element is absent. *)
Fixpoint indexOf {A} `{EqDecision A} (x : A) (l : list A) : Z :=
  match l with
  | [] => -1
  | y :: l' =>
      if decide (x = y) then 0
      else let i := indexOf x l' in if i <? 0 then -1 else i + 1
  end.

(** [DAYS_IN_ORDER[i]]; the index is always within 0..6 (see
    [getPreviousDay_table] and [getNextDay_table]), the default is never
    taken. *)
Definition day_at (i : Z) : DayOfWeek :=
  default monday (DAYS_IN_ORDER !! Z.to_nat i).

Definition getPreviousDay (day : DayOfWeek) : DayOfWeek :=
  let idx := indexOf day DAYS_IN_ORDER in
  day_at (Z.rem (idx - 1 + 7) 7).

Definition getNextDay (day : DayOfWeek) : DayOfWeek :=
  let idx := indexOf day DAYS_IN_ORDER in
  day_at (Z.rem (idx + 1) 7).

(** ** Strength scheduler (strength-scheduler.ts) *)

Record StrengthPreferences := {
  daysPerWeek : Z;
  preferredDays : list DayOfWeek;
  avoidBeforeLongRun : bool;
  pref_notes : option string
}.

Definition isSpeedWorkout (runType : RunType) : bool :=
  bool_decide (runType ∈ [tempo; intervals; hill_repeats; fartlek; race_pace]).

Definition isLongRun (runType : RunType) : bool :=
  bool_decide (runType ∈ [long; progression]).

(** [w && p(w)] for an optional run type; a run type is a non-empty string,
    hence truthy whenever it is defined. *)
Definition defined_and (w : option RunType) (p : RunType -> bool) : bool :=
  match w with
  | Some runType => p runType
  | None => false
  end.

Definition canDoHeavyLegs (day : DayOfWeek) (weekWorkouts : JsMap.t RunType) : bool :=
  let prevDay := getPreviousDay day in
  let nextDay := getNextDay day in
  let dayAfterNext := getNextDay nextDay in
  let prevWorkout := JsMap.get prevDay weekWorkouts in
  let nextWorkout := JsMap.get nextDay weekWorkouts in
  let dayAfterWorkout := JsMap.get dayAfterNext weekWorkouts in
  if defined_and prevWorkout isSpeedWorkout then false
  else if defined_and nextWorkout isSpeedWorkout then false
  else if defined_and nextWorkout isLongRun then false
  else true.

Definition canLiftOnDay (day : DayOfWeek) (weekWorkouts : JsMap.t RunType) : bool :=
  let nextDay := getNextDay day in
  let nextWorkout := JsMap.get nextDay weekWorkouts in
  if defined_and nextWorkout isLongRun then false else true.

(** [Math.ceil(preferredDays / 2)]: half an integer is exact in a double. *)
Definition getStrengthDaysForPhase (preferred : Z) (phase : Phase) (isRecoveryWeek : bool) : Z :=
  if isRecoveryWeek then 1
  else match phase with
       | base => preferred
       | build => Z.max 1 (preferred - 1)
       | peak => Z.min 2 (Qceiling (inject_Z preferred / 2))
       | taper | race => 0
       end.

(** Array.prototype.sort with a comparator: a stable sort, here by insertion.
    [cmp a b <= 0] keeps [a] before [b]. *)
Fixpoint sort_insert {A} (cmp : A -> A -> Z) (x : A) (l : list A) : list A :=
  match l with
  | [] => [x]
  | y :: l' => if cmp y x <=? 0 then y :: sort_insert cmp x l' else x :: y :: l'
  end.

Definition sort {A} (cmp : A -> A -> Z) (l : list A) : list A :=
  fold_left (fun acc x => sort_insert cmp x acc) l [].

Section Strength.
Context {num : Type} `{!JsNumber num}.
Local Open Scope num_scope.

Record StrengthAllocation := {
  alloc_day : DayOfWeek;
  alloc_type : StrengthType;
  alloc_timing : string;
  alloc_duration : num;
  alloc_notes : option string
}.

Definition baseDurations (type : StrengthType) : num :=
  match type with
  | full_body => num_lit 35
  | lower_body => num_lit 40
  | upper_body => num_lit 30
  | core => num_lit 20
  | mobility => num_lit 15
  end.

Definition getStrengthDuration (type : StrengthType) (phase : Phase)
    (isRecoveryWeek : bool) : num :=
  if isRecoveryWeek then
    (if decide (type = core) then num_lit 15 else num_lit 25)
  else
    let base := baseDurations type in
    if decide (phase = peak) then num_round (base *^ num_lit 0.7)
    else if decide (phase = taper) then num_round (base *^ num_lit 0.5)
    else base.

(** The variables of the allocation loop. *)
Record AllocState := {
  allocations : JsMap.t StrengthAllocation;
  legsScheduled : bool;
  upperScheduled : bool;
  sessionsScheduled : Z
}.

(** [dayRun ? 'After run' : 'Any time'] *)
Definition timing_of (dayRun : option RunType) : string :=
  match dayRun with
  | Some _ => "After run"
  | None => "Any time"
  end.

(** One pass of the body of the allocation loop (after the [break] test). *)
Definition allocate_day (weekWorkouts : JsMap.t RunType) (phase : Phase)
    (isRecoveryWeek : bool) (day : DayOfWeek) (st : AllocState) : AllocState :=
  let dayRun := JsMap.get day weekWorkouts in
  let canDoLegs := canDoHeavyLegs day weekWorkouts in
  let '(type, timing, notes, legs, upper) :=
    if isRecoveryWeek then
      (full_body, "Light session",
       Some "Recovery week - lighter weight, fewer sets",
       legsScheduled st, upperScheduled st)
    else if decide (phase = peak) then
      ((if sessionsScheduled st =? 0 then lower_body else core),
       "Light - maintenance only", None,
       legsScheduled st, upperScheduled st)
    else if canDoLegs && negb (legsScheduled st) then
      (lower_body, timing_of dayRun,
       (if decide (phase = build)
        then Some "Build phase - reduced volume from base" else None),
       true, upperScheduled st)
    else if negb (upperScheduled st) then
      (upper_body, timing_of dayRun, None, legsScheduled st, true)
    else
      (core, timing_of dayRun, None, legsScheduled st, upperScheduled st) in
  {| allocations :=
       JsMap.set day
         {| alloc_day := day;
            alloc_type := type;
            alloc_timing := timing;
            alloc_duration := getStrengthDuration type phase isRecoveryWeek;
            alloc_notes := notes |}
         (allocations st);
     legsScheduled := legs;
     upperScheduled := upper;
     sessionsScheduled := sessionsScheduled st + 1 |}.

(** [for (const day of sortedDays) { if (sessionsScheduled >= targetDays) break; ... }] *)
Fixpoint allocate_loop (weekWorkouts : JsMap.t RunType) (phase : Phase)
    (isRecoveryWeek : bool) (targetDays : Z) (days : list DayOfWeek)
    (st : AllocState) : AllocState :=
  match days with
  | [] => st
  | day :: days' =>
      if targetDays <=? sessionsScheduled st then st
      else allocate_loop weekWorkouts phase isRecoveryWeek targetDays days'
             (allocate_day weekWorkouts phase isRecoveryWeek day st)
  end.

Definition availableDays (weekWorkouts : JsMap.t RunType) : list DayOfWeek :=
  filter (fun day => canLiftOnDay day weekWorkouts = true) DAYS_IN_ORDER.

Definition preferred_rank (preferred : list DayOfWeek) (day : DayOfWeek) : Z :=
  if bool_decide (day ∈ preferred) then 0 else 1.

Definition sortedDays (weekWorkouts : JsMap.t RunType)
    (preferences : StrengthPreferences) : list DayOfWeek :=
  sort (fun a b => preferred_rank (preferredDays preferences) a
                   - preferred_rank (preferredDays preferences) b)
       (availableDays weekWorkouts).

Definition scheduleStrengthForWeek (weekWorkouts : JsMap.t RunType)
    (preferences : StrengthPreferences) (phase : Phase) (isRecoveryWeek : bool)
    : JsMap.t StrengthAllocation :=
  let targetDays :=
    getStrengthDaysForPhase (daysPerWeek preferences) phase isRecoveryWeek in
  if targetDays =? 0 then JsMap.empty
  else
    allocations
      (allocate_loop weekWorkouts phase isRecoveryWeek targetDays
         (sortedDays weekWorkouts preferences)
         {| allocations := JsMap.empty;
            legsScheduled := false;
            upperScheduled := false;
            sessionsScheduled := 0 |}).

End Strength.
Arguments StrengthAllocation : clear implicits.
Arguments AllocState : clear implicits.

(** ** Calendar days (calculators/date-math.ts, over date-fns)

    A [Date] is modelled by the calendar day it denotes; the time of day
    and the time zone are not modelled. *)

Record Date := { year : Z; month : Z; dayOfMonth : Z }.

Definition isLeapYear (y : Z) : bool :=
  (y mod 4 =? 0) && (negb (y mod 100 =? 0) || (y mod 400 =? 0)).

Definition daysInMonth (y m : Z) : Z :=
  if m =? 2 then (if isLeapYear y then 29 else 28)
  else if (m =? 4) || (m =? 6) || (m =? 9) || (m =? 11) then 30
  else 31.

(** A day of the calendar with a four-digit year; any other record stands
    for an Invalid Date. *)
Definition validDate (d : Date) : bool :=
  (0 <=? year d) && (year d <=? 9999)
  && (1 <=? month d) && (month d <=? 12)
  && (1 <=? dayOfMonth d) && (dayOfMonth d <=? daysInMonth (year d) (month d)).

Definition nextDate (d : Date) : Date :=
  if dayOfMonth d <? daysInMonth (year d) (month d)
  then {| year := year d; month := month d; dayOfMonth := dayOfMonth d + 1 |}
  else if month d <? 12
  then {| year := year d; month := month d + 1; dayOfMonth := 1 |}
  else {| year := year d + 1; month := 1; dayOfMonth := 1 |}.

(** date-fns [addDays], for the amounts 0..6 the source passes. *)
Definition addDays (d : Date) (amount : Z) : Date :=
  Nat.iter (Z.to_nat amount) nextDate d.

Definition dayOffsets (day : DayOfWeek) : Z :=
  match day with
  | monday => 0 | tuesday => 1 | wednesday => 2 | thursday => 3
  | friday => 4 | saturday => 5 | sunday => 6
  end.

Definition getDateForDay (weekStart : Date) (day : DayOfWeek) : Date :=
  addDays weekStart (dayOffsets day).

Definition ascii_of_digit (d : Z) : ascii := ascii_of_nat (Z.to_nat (48 + d)).

Definition pad2 (n : Z) : string :=
  String (ascii_of_digit (n / 10)) (String (ascii_of_digit (n mod 10)) EmptyString).

Definition pad4 (n : Z) : string :=
  String (ascii_of_digit (n / 1000))
    (String (ascii_of_digit (n / 100 mod 10)) (pad2 (n mod 100))).

(** [format(date, 'yyyy-MM-dd')] *)
Definition formatDateISO (date : Date) : string :=
  (pad4 (year date) ++ "-" ++ pad2 (month date) ++ "-" ++ pad2 (dayOfMonth date))%string.

(** ** Blocked dates (types/intake.ts, parsers: isDateBlocked) *)

Record BlockedDateRange := {
  range_start : string;   (* YYYY-MM-DD *)
  range_end : string;     (* YYYY-MM-DD *)
  range_reason : option string
}.

Record BlockedResult := {
  blocked : bool;
  reason : option string
}.

(** [new Date(s)] on a date-only string "YYYY-MM-DD".  [None] stands for any
    other string: there the source raises a RangeError in [toISOString]
    (Invalid Date) or relies on the lenient parsing of the engine, which is
    not modelled. *)
Definition parseISODate (s : string) : option Date :=
  match list_ascii_of_string s with
  | [y1; y2; y3; y4; h1; m1; m2; h2; d1; d2] =>
      if decide (h1 = "-"%char /\ h2 = "-"%char) then
        y1 ← digit_of_ascii y1; y2 ← digit_of_ascii y2;
        y3 ← digit_of_ascii y3; y4 ← digit_of_ascii y4;
        m1 ← digit_of_ascii m1; m2 ← digit_of_ascii m2;
        d1 ← digit_of_ascii d1; d2 ← digit_of_ascii d2;
        let d := {| year := 1000 * y1 + 100 * y2 + 10 * y3 + y4;
                    month := 10 * m1 + m2;
                    dayOfMonth := 10 * d1 + d2 |} in
        if validDate d then Some d else None
      else None
  | _ => None
  end.

(** The argument of [isDateBlocked] is a string or a Date. *)
Definition toDate (date : string + Date) : option Date :=
  match date with
  | inl s => parseISODate s
  | inr d => if validDate d then Some d else None
  end.

(** [a <= b] on strings: lexicographic on the characters. *)
Definition str_le (a b : string) : bool := String.leb a b.

(** [checkStr >= range.start && checkStr <= range.end] *)
Definition range_contains (range : BlockedDateRange) (checkStr : string) : bool :=
  str_le (range_start range) checkStr && str_le checkStr (range_end range).

(** The scan of the ranges, first match returns. *)
Fixpoint scan_ranges (checkStr : string) (blockedDates : list BlockedDateRange)
    : BlockedResult :=
  match blockedDates with
  | [] => {| blocked := false; reason := None |}
  | range :: blockedDates' =>
      if range_contains range checkStr
      then {| blocked := true; reason := range_reason range |}
      else scan_ranges checkStr blockedDates'
  end.

Definition isDateBlocked (date : string + Date)
    (blockedDates : list BlockedDateRange) : option BlockedResult :=
  checkDate ← toDate date;
  (* checkDate.toISOString().split('T')[0] *)
  let checkStr := formatDateISO checkDate in
  Some (scan_ranges checkStr blockedDates).

(** week-generator.ts *)
Definition isDayBlocked (day : DayOfWeek) (weekStart : Date)
    (blockedDates : list BlockedDateRange) : option BlockedResult :=
  let date := getDateForDay weekStart day in
  isDateBlocked (inl (formatDateISO date)) blockedDates.

(** ** Workouts (types/plan.ts, workout-generator.ts)

    [RunningWorkout] keeps the fields the week generator reads or writes;
    [description] and [structure], texts and tables derived from the same
    numbers, are left out. *)

Record PaceRange := { pace_min : string; pace_max : string; pace_description : string }.

Record PaceZones := {
  zone_easy : PaceRange;
  zone_marathon : PaceRange;
  zone_tempo : PaceRange;
  zone_fiveK : PaceRange;
  zone_interval : PaceRange;
  zone_recovery : PaceRange
}.

Inductive IntervalDistance := m400 | m800 | m1000 | m1200 | m1600 | strides.

#[global] Instance IntervalDistance_eq_dec : EqDecision IntervalDistance.
Proof. solve_decision. Defined.

(** String.prototype.split on one separator character. *)
Fixpoint split_on (sep : ascii) (s : string) : list string :=
  match s with
  | EmptyString => [EmptyString]
  | String c s' =>
      if decide (c = sep) then EmptyString :: split_on sep s'
      else match split_on sep s' with
           | part :: parts => String c part :: parts
           | [] => [String c EmptyString]
           end
  end.

Section Workouts.
Context {num : Type} `{!JsNumber num}.
Local Open Scope num_scope.

Record RunningWorkout := {
  run_type : RunType;
  title : string;
  totalDistance : option num;
  estimatedDuration : option num;   (* minutes *)
  hrZone : option string;
  notes : option string
}.

Definition with_title (w : RunningWorkout) (t : string) : RunningWorkout :=
  {| run_type := run_type w; title := t; totalDistance := totalDistance w;
     estimatedDuration := estimatedDuration w; hrZone := hrZone w;
     notes := notes w |}.

Definition with_run_type (w : RunningWorkout) (t : RunType) (z : string)
    : RunningWorkout :=
  {| run_type := t; title := title w; totalDistance := totalDistance w;
     estimatedDuration := estimatedDuration w; hrZone := Some z;
     notes := notes w |}.

(** calculators/pace-zones.ts *)
Definition paceToSeconds (pace : string) : num :=
  match map num_parseInt (split_on ":" pace) with
  | [minutes; seconds] => minutes *^ num_lit 60 +^ seconds
  | _ => num_lit 0
  end.

Definition createRestDay (notes : option string) : RunningWorkout :=
  {| run_type := rest; title := "Rest Day"; totalDistance := None;
     estimatedDuration := None; hrZone := None; notes := notes |}.

Definition createEasyRun (distance : num) (paceZones : PaceZones)
    (title : option string) : RunningWorkout :=
  let easyPaceMin := paceToSeconds (pace_min (zone_easy paceZones)) in
  let estimatedDuration := num_round ((distance *^ easyPaceMin) /^ num_lit 60) in
  {| run_type := easy; title := default "Easy Run"%string title;
     totalDistance := Some distance;
     estimatedDuration := Some estimatedDuration;
     hrZone := Some "Zone 2"%string; notes := None |}.

Record LongRunOptions := {
  withProgression : bool;
  withMarathonPaceFinish : bool;
  opt_title : option string
}.

Definition createLongRun (distance : num) (paceZones : PaceZones) (phase : Phase)
    (options : LongRunOptions) : RunningWorkout :=
  let easyPaceMin := paceToSeconds (pace_min (zone_easy paceZones)) in
  let estimatedDuration := num_round ((distance *^ easyPaceMin) /^ num_lit 60) in
  let workout :=
    {| run_type := long;
       title := match opt_title options with
                | Some t => if decide (t = EmptyString) then "Long Run"%string else t
                | None => "Long Run"%string
                end;
       totalDistance := Some distance;
       estimatedDuration := Some estimatedDuration;
       hrZone := Some "Zone 2"%string; notes := None |} in
  let workout :=
    if withProgression options && negb (bool_decide (phase = base))
    then with_run_type workout progression "Zone 2→3→MP" else workout in
  let workout :=
    if withMarathonPaceFinish options
       && (bool_decide (phase = peak) || bool_decide (phase = build))
    then with_run_type workout race_pace "Zone 2→MP" else workout in
  workout.

Definition createTempoRun (tempoMiles : num) (paceZones : PaceZones)
    (reduced : bool) : RunningWorkout :=
  let warmupMiles := if reduced then num_lit 1 else num_lit 1.5 in
  let cooldownMiles := if reduced then num_lit 1 else num_lit 1.5 in
  let totalDistance := warmupMiles +^ tempoMiles +^ cooldownMiles in
  let tempoPaceMin := paceToSeconds (pace_min (zone_tempo paceZones)) in
  let easyPaceMin := paceToSeconds (pace_min (zone_easy paceZones)) in
  let tempoTime := (tempoMiles *^ tempoPaceMin) /^ num_lit 60 in
  let warmupCooldownTime :=
    ((warmupMiles +^ cooldownMiles) *^ easyPaceMin) /^ num_lit 60 in
  let estimatedDuration := num_round (tempoTime +^ warmupCooldownTime) in
  {| run_type := tempo;
     title := if reduced then "Short Tempo" else "Tempo Run";
     totalDistance := Some totalDistance;
     estimatedDuration := Some estimatedDuration;
     hrZone := Some "Zone 3-4"%string; notes := None |}.

Definition intervalMeters (intervalType : IntervalDistance) : num :=
  match intervalType with
  | m400 => num_lit 400 | m800 => num_lit 800 | m1000 => num_lit 1000
  | m1200 => num_lit 1200 | m1600 => num_lit 1600 | strides => num_lit 100
  end.

Definition intervalTitle (intervalType : IntervalDistance) : string :=
  match intervalType with
  | m400 => "400m Repeats" | m800 => "800m Repeats" | m1000 => "1000m Repeats"
  | m1200 => "1200m Repeats" | m1600 => "1600m Repeats"
  | strides => "strides Repeats"
  end.

Definition createIntervals (intervalType : IntervalDistance) (repeats : num)
    (paceZones : PaceZones) : RunningWorkout :=
  let is_strides := bool_decide (intervalType = strides) in
  let warmupMiles := if is_strides then num_lit 0 else num_lit 2 in
  let cooldownMiles := if is_strides then num_lit 0 else num_lit 1 in
  let meters := intervalMeters intervalType in
  let intervalMiles := (meters /^ num_lit 1609.34) *^ repeats in
  let recoveryMiles :=
    if is_strides then num_lit 0
    else (intervalMeters intervalType /^ num_lit 2 /^ num_lit 1609.34)
         *^ (repeats -^ num_lit 1) in
  let totalDistance := warmupMiles +^ intervalMiles +^ recoveryMiles +^ cooldownMiles in
  let baseMiles := if is_strides then num_lit 3 else num_lit 0 in
  let easyPaceMin := paceToSeconds (pace_min (zone_easy paceZones)) in
  let intervalPaceMin := paceToSeconds (pace_min (zone_interval paceZones)) in
  let estimatedDuration :=
    num_round ((warmupMiles +^ cooldownMiles +^ baseMiles) *^ easyPaceMin /^ num_lit 60
               +^ intervalMiles *^ intervalPaceMin /^ num_lit 60
               +^ (repeats -^ num_lit 1) *^ num_lit 1.5) in
  if is_strides then
    {| run_type := intervals; title := "Strides";
       totalDistance := Some (totalDistance +^ baseMiles);
       estimatedDuration := Some estimatedDuration;
       hrZone := Some "Zone 2 (Zone 4-5 strides)"%string; notes := None |}
  else
    {| run_type := intervals; title := intervalTitle intervalType;
       totalDistance := Some (num_round (totalDistance *^ num_lit 10) /^ num_lit 10);
       estimatedDuration := Some estimatedDuration;
       hrZone := Some "Zone 4-5 during intervals"%string; notes := None |}.

Definition createHillRepeats (repeats durationSeconds : num)
    (paceZones : PaceZones) : RunningWorkout :=
  let warmupMiles := num_lit 1.5 in
  let cooldownMiles := num_lit 1.5 in
  let hillMiles := (repeats *^ durationSeconds /^ num_lit 60) *^ num_lit 0.2 in
  let totalDistance := warmupMiles +^ hillMiles +^ cooldownMiles in
  let easyPaceMin := paceToSeconds (pace_min (zone_easy paceZones)) in
  let estimatedDuration :=
    num_round ((warmupMiles +^ cooldownMiles) *^ easyPaceMin /^ num_lit 60
               +^ repeats *^ (durationSeconds /^ num_lit 60 +^ num_lit 1.5)) in
  {| run_type := hill_repeats; title := "Hill Repeats";
     totalDistance := Some (num_round (totalDistance *^ num_lit 10) /^ num_lit 10);
     estimatedDuration := Some estimatedDuration;
     hrZone := Some "Zone 4-5 on hills"%string; notes := None |}.

Definition createFartlek (totalMiles pickups pickupDurationSeconds : num)
    (paceZones : PaceZones) : RunningWorkout :=
  let easyPaceMin := paceToSeconds (pace_min (zone_easy paceZones)) in
  let estimatedDuration := num_round (totalMiles *^ easyPaceMin /^ num_lit 60) in
  {| run_type := fartlek; title := "Fartlek";
     totalDistance := Some totalMiles;
     estimatedDuration := Some estimatedDuration;
     hrZone := Some "Zone 2-3"%string; notes := None |}.

Definition createCrossTraining (duration : option num) : RunningWorkout :=
  {| run_type := cross_training; title := "Cross Training";
     totalDistance := None;
     estimatedDuration := Some (default (num_lit 40) duration);
     hrZone := None; notes := None |}.

Definition createRecoveryRun (distance : num) (paceZones : PaceZones)
    : RunningWorkout :=
  let recoveryPaceMin := paceToSeconds (pace_min (zone_recovery paceZones)) in
  let estimatedDuration := num_round ((distance *^ recoveryPaceMin) /^ num_lit 60) in
  {| run_type := recovery; title := "Recovery Run";
     totalDistance := Some distance;
     estimatedDuration := Some estimatedDuration;
     hrZone := Some "Zone 1-2"%string; notes := None |}.

Record WorkoutParams := {
  param_type : RunType;
  param_distance : option num;
  param_phase : Phase;
  param_isRecovery : bool;
  param_paceZones : PaceZones;
  param_level : PlanLevel
}.

Definition generateWorkout (params : WorkoutParams) : RunningWorkout :=
  let type := param_type params in
  let distance := param_distance params in
  let phase := param_phase params in
  let isRecovery := param_isRecovery params in
  let paceZones := param_paceZones params in
  match type with
  | rest => createRestDay None
  | easy => createEasyRun (num_or distance (num_lit 4)) paceZones None
  | long =>
      let longDistance := num_or distance (num_lit 12) in
      let useProgression := negb (bool_decide (phase = base)) && negb isRecovery in
      createLongRun longDistance paceZones phase
        {| withProgression := useProgression && bool_decide (phase = build);
           withMarathonPaceFinish := false; opt_title := None |}
  | tempo =>
      let tempoMiles :=
        if isRecovery then num_lit 2
        else if bool_decide (phase = base) then num_lit 3 else num_lit 4 in
      createTempoRun tempoMiles paceZones isRecovery
  | intervals =>
      let repeats := if isRecovery then num_lit 6 else num_lit 8 in
      createIntervals m800 repeats paceZones
  | hill_repeats =>
      let hillRepeats := if isRecovery then num_lit 4 else num_lit 6 in
      createHillRepeats hillRepeats (num_lit 60) paceZones
  | fartlek =>
      createFartlek (num_or distance (num_lit 6)) (num_lit 8) (num_lit 60) paceZones
  | cross_training => createCrossTraining None
  | recovery => createRecoveryRun (num_or distance (num_lit 4)) paceZones
  | progression =>
      createLongRun (num_or distance (num_lit 16)) paceZones phase
        {| withProgression := true; withMarathonPaceFinish := false;
           opt_title := None |}
  | race_pace =>
      createLongRun (num_or distance (num_lit 16)) paceZones phase
        {| withProgression := false; withMarathonPaceFinish := true;
           opt_title := None |}
  end.

End Workouts.
Arguments RunningWorkout : clear implicits.
Arguments WorkoutParams : clear implicits.

(** ** Week generator (week-generator.ts) *)

Section Week.
Context {num : Type} `{!JsNumber num}.
Local Open Scope num_scope.

Record QualityDay := {
  quality_day : DayOfWeek;
  quality_type : RunType;
  quality_distance : option num
}.

Record WeekTemplate := {
  focus : string;
  longRunDay : DayOfWeek;
  longRunDistance : num;
  qualityDays : list QualityDay;
  easyRunDays : list DayOfWeek;
  restDays : list DayOfWeek;
  crossTrainingDay : option DayOfWeek;
  template_totalMileage : num
}.

Definition with_longRunDay (t : WeekTemplate) (day : DayOfWeek) : WeekTemplate :=
  {| focus := focus t; longRunDay := day; longRunDistance := longRunDistance t;
     qualityDays := qualityDays t; easyRunDays := easyRunDays t;
     restDays := restDays t; crossTrainingDay := crossTrainingDay t;
     template_totalMileage := template_totalMileage t |}.

Definition with_longRunDistance (t : WeekTemplate) (distance : num) : WeekTemplate :=
  {| focus := focus t; longRunDay := longRunDay t; longRunDistance := distance;
     qualityDays := qualityDays t; easyRunDays := easyRunDays t;
     restDays := restDays t; crossTrainingDay := crossTrainingDay t;
     template_totalMileage := template_totalMileage t |}.

Definition getDefaultEasyDistance (level : PlanLevel) (phase : Phase) : num :=
  let base :=
    match level with
    | conservative => num_lit 3
    | moderate => num_lit 4
    | ambitious => num_lit 5
    end in
  if decide (phase = peak) then base +^ num_lit 1
  else if decide (phase = taper) then base -^ num_lit 1
  else base.

(** The weekend alternate of the long-run day. *)
Definition altDay (template : WeekTemplate) : DayOfWeek :=
  if decide (longRunDay template = sunday) then saturday else sunday.

(** The template after the check of the long-run day
    ([adjustedTemplate], a copy of the template). *)
Definition adjustTemplate (template : WeekTemplate) (longRunBlocked : BlockedResult)
    (weekStart : Date) (blockedDates : list BlockedDateRange)
    : option WeekTemplate :=
  if blocked longRunBlocked then
    altBlocked ← isDayBlocked (altDay template) weekStart blockedDates;
    if negb (blocked altBlocked)
    then Some (with_longRunDay template (altDay template))
    else Some (with_longRunDistance template (num_lit 0))
  else Some template.

(** The text of a template literal for an optional string. *)
Definition text_of (s : option string) : string := default "undefined"%string s.

Section Steps.
Context (template : WeekTemplate) (paceZones : PaceZones) (phase : Phase)
  (isRecovery : bool) (level : PlanLevel) (blockedDates : list BlockedDateRange)
  (weekStart : Date).

Definition long_run_step (adjustedTemplate : WeekTemplate)
    (longRunBlocked : BlockedResult) (schedule : JsMap.t (RunningWorkout num))
    : JsMap.t (RunningWorkout num) :=
  if num_gtb (longRunDistance adjustedTemplate) (num_lit 0) then
    let longRun :=
      generateWorkout
        {| param_type := long;
           param_distance := Some (longRunDistance adjustedTemplate);
           param_phase := phase; param_isRecovery := isRecovery;
           param_paceZones := paceZones; param_level := level |} in
    let longRun :=
      if isRecovery then with_title longRun "Reduced Long Run" else longRun in
    JsMap.set (longRunDay adjustedTemplate) longRun schedule
  else
    JsMap.set (longRunDay template) (createRestDay (reason longRunBlocked)) schedule.

Definition quality_workout (quality : QualityDay) (blk : BlockedResult)
    : RunningWorkout num :=
  if blocked blk then
    createEasyRun (getDefaultEasyDistance level phase -^ num_lit 1) paceZones
      (Some ("Easy Run (adjusted: " ++ text_of (reason blk) ++ ")")%string)
  else
    generateWorkout
      {| param_type := quality_type quality;
         param_distance := quality_distance quality;
         param_phase := phase; param_isRecovery := isRecovery;
         param_paceZones := paceZones; param_level := level |}.

Fixpoint quality_loop (qualities : list QualityDay)
    (schedule : JsMap.t (RunningWorkout num)) : option (JsMap.t (RunningWorkout num)) :=
  match qualities with
  | [] => Some schedule
  | quality :: qualities' =>
      blk ← isDayBlocked (quality_day quality) weekStart blockedDates;
      quality_loop qualities'
        (JsMap.set (quality_day quality) (quality_workout quality blk) schedule)
  end.

Definition easy_workout (blk : BlockedResult) : RunningWorkout num :=
  if blocked blk then createRestDay (reason blk)
  else createEasyRun (getDefaultEasyDistance level phase) paceZones None.

Fixpoint easy_loop (days : list DayOfWeek)
    (schedule : JsMap.t (RunningWorkout num)) : option (JsMap.t (RunningWorkout num)) :=
  match days with
  | [] => Some schedule
  | day :: days' =>
      if JsMap.has day schedule then easy_loop days' schedule
      else
        blk ← isDayBlocked day weekStart blockedDates;
        easy_loop days' (JsMap.set day (easy_workout blk) schedule)
  end.

Fixpoint rest_loop (days : list DayOfWeek)
    (schedule : JsMap.t (RunningWorkout num)) : JsMap.t (RunningWorkout num) :=
  match days with
  | [] => schedule
  | day :: days' =>
      if JsMap.has day schedule then rest_loop days' schedule
      else rest_loop days' (JsMap.set day (createRestDay None) schedule)
  end.

Definition cross_workout (blk : BlockedResult) : RunningWorkout num :=
  if blocked blk then createRestDay (reason blk) else createCrossTraining None.

Definition cross_training_step (schedule : JsMap.t (RunningWorkout num))
    : option (JsMap.t (RunningWorkout num)) :=
  match crossTrainingDay template with
  | Some day =>
      if negb (JsMap.has day schedule) then
        blk ← isDayBlocked day weekStart blockedDates;
        Some (JsMap.set day (cross_workout blk) schedule)
      else Some schedule
  | None => Some schedule
  end.

Definition generateRunningSchedule : option (JsMap.t (RunningWorkout num)) :=
  longRunBlocked ← isDayBlocked (longRunDay template) weekStart blockedDates;
  adjustedTemplate ← adjustTemplate template longRunBlocked weekStart blockedDates;
  let schedule := long_run_step adjustedTemplate longRunBlocked JsMap.empty in
  schedule ← quality_loop (qualityDays template) schedule;
  schedule ← easy_loop (easyRunDays template) schedule;
  let schedule := rest_loop (restDays template) schedule in
  cross_training_step schedule.

End Steps.

Record WeekTotals := { totalMileage : num; totalHours : num }.

(** One pass of the loop over [runningSchedule.values()]. *)
Definition totals_step (acc : num * num) (workout : RunningWorkout num) : num * num :=
  let '(totalMileage, totalMinutes) := acc in
  let totalMileage :=
    match totalDistance workout with
    | Some d => if num_truthy d then totalMileage +^ d else totalMileage
    | None => totalMileage
    end in
  let totalMinutes :=
    match estimatedDuration workout with
    | Some m => if num_truthy m then totalMinutes +^ m else totalMinutes
    | None => totalMinutes
    end in
  (totalMileage, totalMinutes).

Definition calculateWeekTotals (runningSchedule : JsMap.t (RunningWorkout num))
    (strengthDays : num) (paceZones : PaceZones) : WeekTotals :=
  let '(totalMileage, totalMinutes) :=
    fold_left totals_step (JsMap.values runningSchedule) (num_lit 0, num_lit 0) in
  let totalMinutes := totalMinutes +^ strengthDays *^ num_lit 30 in
  {| totalMileage := num_round (totalMileage *^ num_lit 10) /^ num_lit 10;
     totalHours := num_round ((totalMinutes /^ num_lit 60) *^ num_lit 10) /^ num_lit 10 |}.

(** generateWeek: the run types handed to the strength scheduler. *)
Definition workoutTypes (runningSchedule : JsMap.t (RunningWorkout num))
    : JsMap.t RunType :=
  fold_left (fun types '(day, workout) => JsMap.set day (run_type workout) types)
    runningSchedule JsMap.empty.

(** generateWeek: the strength allocations of the week, from the running
    schedule and the preferences of the athlete. *)
Definition weekStrengthAllocations (runningSchedule : JsMap.t (RunningWorkout num))
    (preferences : StrengthPreferences) (phase : Phase) (isRecoveryWeek : bool)
    : JsMap.t (StrengthAllocation num) :=
  scheduleStrengthForWeek (workoutTypes runningSchedule) preferences phase isRecoveryWeek.

End Week.
Arguments QualityDay : clear implicits.
Arguments WeekTemplate : clear implicits.
Arguments WeekTotals : clear implicits.

(** ** Conflict check and session record (strength-scheduler.ts) *)

Record ConflictResult := {
  conflict : bool;
  conflict_reason : option string
}.

Definition checkStrengthConflict (strengthDay : DayOfWeek)
    (strengthType : StrengthType) (weekWorkouts : JsMap.t RunType) : ConflictResult :=
  let nextDay := getNextDay strengthDay in
  let nextWorkout := JsMap.get nextDay weekWorkouts in
  if defined_and nextWorkout isLongRun then
    {| conflict := true;
       conflict_reason := Some "Lifting scheduled day before long run"%string |}
  else if bool_decide (strengthType = lower_body)
          && negb (canDoHeavyLegs strengthDay weekWorkouts) then
    {| conflict := true;
       conflict_reason := Some "Heavy legs too close to speed work"%string |}
  else {| conflict := false; conflict_reason := None |}.

Section Session.
Context {num : Type} `{!JsNumber num}.

Record StrengthSession := {
  scheduled : bool;
  session_type : option StrengthType;
  session_timing : option string;
  session_duration : option num;
  session_caloriesBurned : option num;
  session_notes : option string
}.

Definition createStrengthSession (allocation : option (StrengthAllocation num))
    : option StrengthSession :=
  match allocation with
  | None => None
  | Some allocation =>
      Some {| scheduled := true;
              session_type := Some (alloc_type allocation);
              session_timing := Some (alloc_timing allocation);
              session_duration := Some (alloc_duration allocation);
              session_caloriesBurned := None;
              session_notes := alloc_notes allocation |}
  end.

End Session.
Arguments StrengthSession : clear implicits.

(** ** Plan calendar (calculators/date-math.ts) *)

(** [Math.ceil(totalWeeks * (a / 15))], in exact arithmetic.  For the plan
    lengths of the code, 8 to 20 weeks, the exact product is an integer only
    at 15 weeks, where the double product rounds to that integer, and is
    otherwise at least 1/15 away from an integer, far more than the rounding
    of a double; so the ceiling of the double is this one. *)
Definition phaseEnd (totalWeeks : Z) (fraction : Q) : Z :=
  Qceiling (inject_Z totalWeeks * fraction).

Definition getPhaseForWeek (weekNumber totalWeeks : Z) : Phase :=
  if weekNumber =? totalWeeks then race
  else
    let baseEnd := phaseEnd totalWeeks (4 / 15) in
    let buildEnd := phaseEnd totalWeeks (10 / 15) in
    let peakEnd := phaseEnd totalWeeks (13 / 15) in
    if weekNumber <=? baseEnd then base
    else if weekNumber <=? buildEnd then build
    else if weekNumber <=? peakEnd then peak
    else taper.

Definition isRecoveryWeek (weekNumber totalWeeks : Z) : bool :=
  if weekNumber =? 1 then false
  else
    let phase := getPhaseForWeek weekNumber totalWeeks in
    if bool_decide (phase = taper) || bool_decide (phase = race) then false
    else if totalWeeks =? 15 then
      (weekNumber =? 4) || (weekNumber =? 7) || (weekNumber =? 10)
    else
      let baseEnd := phaseEnd totalWeeks (4 / 15) in
      let buildEnd := phaseEnd totalWeeks (10 / 15) in
      if weekNumber =? baseEnd then true
      else if bool_decide (phase = build) then
        let buildStart := baseEnd + 1 in
        let weeksIntoBuild := weekNumber - buildStart in
        (0 <? weeksIntoBuild) && (Z.rem weeksIntoBuild 3 =? 2)
      else false.



Section PlanCalendar.
(** date-fns [differenceInDays] and [startOfWeek] with [weekStartsOn: 1]
    depend on the time of day and on the zone; they are parameters. *)
Context (differenceInDays : Date -> Date -> Z) (startOfWeekMonday : Date -> Date).





End PlanCalendar.

Definition isDateInRange (date : Date) (startStr endStr : string) : bool :=
  let dateStr := formatDateISO date in
  str_le startStr dateStr && str_le dateStr endStr.

(** The dates of a week, keyed by weekday: the loop over the seven days. *)
Definition getWeekDates (weekStart : Date) : JsMap.t Date :=
  let days := [monday; tuesday; wednesday; thursday; friday; saturday; sunday] in
  fold_left (fun result '(i, day) => JsMap.set day (addDays weekStart (Z.of_nat i)) result)
    (imap (fun i day => (i, day)) days) JsMap.empty.

(** ** Dates of the blocked-date parser (parsers) *)

Fixpoint digits_of (fuel : nat) (n : Z) (acc : string) : string :=
  match fuel with
  | O => acc
  | S fuel' =>
      let acc' := String (ascii_of_digit (n mod 10)) acc in
      if n <? 10 then acc' else digits_of fuel' (n / 10) acc'
  end.

(** Number.prototype.toString on an integer (below 10^21): the decimal
    digits, after a minus sign when negative. *)
Definition string_of_Z (n : Z) : string :=
  if n <? 0 then String "-" (digits_of (S (Z.to_nat (Z.log2 (- n)))) (- n) "")
  else digits_of (S (Z.to_nat (Z.log2 n))) n "".

(** [s.padStart(2, '0')] *)
Definition padStart2 (s : string) : string :=
  match String.length s with
  | 0%nat => "00"
  | 1%nat => String "0" s
  | _ => s
  end.

(** parsers: the date format of the blocked-date parser. *)
Definition formatDate (yearNumber monthNumber dayNumber : Z) : string :=
  (string_of_Z yearNumber ++ "-" ++ padStart2 (string_of_Z monthNumber)
   ++ "-" ++ padStart2 (string_of_Z dayNumber))%string.

Definition determineYear (monthNumber : Z) (raceDate : Date) : Z :=
  let raceMonth := month raceDate in
  let raceYear := year raceDate in
  if raceMonth <? monthNumber then raceYear - 1 else raceYear.

(** ** Week templates (week-generator.ts, templates/*.ts) *)

Definition phase_name (phase : Phase) : string :=
  match phase with
  | base => "base" | build => "build" | peak => "peak"
  | taper => "taper" | race => "race"
  end.

Definition getFocusForPhase (phase : Phase) (isRecovery : bool) (weekNumber : Z)
    : string :=
  if isRecovery then ("RECOVERY WEEK - Absorb " ++ phase_name phase ++ " training")%string
  else match phase with
       | base => "Building aerobic foundation"
       | build => "Increasing intensity and volume"
       | peak => "Race-specific fitness"
       | taper => "Rest and sharpen"
       | race => "RACE WEEK"
       end.

Section Templates.
Context {num : Type} `{!JsNumber num}.
Local Open Scope num_scope.

Record TemplateOptions := {
  option_focus : option string;
  option_longRunDistance : option num;
  option_qualityType : option RunType;
  option_secondQuality : option RunType
}.

Definition longRunDistances (level : PlanLevel) (phase : Phase) : num :=
  match level, phase with
  | conservative, base => num_lit 9 | conservative, build => num_lit 12
  | conservative, peak => num_lit 18 | conservative, taper => num_lit 10
  | moderate, base => num_lit 10 | moderate, build => num_lit 14
  | moderate, peak => num_lit 20 | moderate, taper => num_lit 10
  | ambitious, base => num_lit 12 | ambitious, build => num_lit 16
  | ambitious, peak => num_lit 22 | ambitious, taper => num_lit 12
  | _, race => num_lit 26.2
  end.

Definition weeklyMileage (level : PlanLevel) (phase : Phase) : num :=
  match level, phase with
  | conservative, base => num_lit 25 | conservative, build => num_lit 30
  | conservative, peak => num_lit 35 | conservative, taper => num_lit 20
  | conservative, race => num_lit 35
  | moderate, base => num_lit 30 | moderate, build => num_lit 40
  | moderate, peak => num_lit 45 | moderate, taper => num_lit 25
  | moderate, race => num_lit 40
  | ambitious, base => num_lit 40 | ambitious, build => num_lit 50
  | ambitious, peak => num_lit 55 | ambitious, taper => num_lit 30
  | ambitious, race => num_lit 55
  end.

Definition defaultQuality (phase : Phase) : RunType :=
  match phase with
  | base => tempo | build => intervals | peak => tempo
  | taper => intervals | race => easy
  end.

(** [options] is [None] when the argument is left out. *)
Definition createWeekTemplate (phase : Phase) (level : PlanLevel) (isRecovery : bool)
    (weekNumber : Z) (options : option TemplateOptions) : WeekTemplate num :=
  let longRunDistance :=
    default (longRunDistances level phase) (options ≫= option_longRunDistance) in
  let totalMileage := weeklyMileage level phase in
  let longRunDistance :=
    if isRecovery then num_round (longRunDistance *^ num_lit 0.7) else longRunDistance in
  let totalMileage :=
    if isRecovery then num_round (totalMileage *^ num_lit 0.75) else totalMileage in
  let qualityType := default (defaultQuality phase) (options ≫= option_qualityType) in
  let template :=
    {| focus := default (getFocusForPhase phase isRecovery weekNumber)
                  (options ≫= option_focus);
       longRunDay := sunday;
       longRunDistance := longRunDistance;
       qualityDays := [ {| quality_day := tuesday; quality_type := qualityType;
                           quality_distance := None |} ];
       easyRunDays := [monday; wednesday; friday];
       restDays := [thursday];
       crossTrainingDay := Some saturday;
       template_totalMileage := totalMileage |} in
  if negb isRecovery && (bool_decide (phase = build) || bool_decide (phase = peak)) then
    match options ≫= option_secondQuality with
    | Some secondQuality =>
        {| focus := focus template;
           longRunDay := longRunDay template;
           longRunDistance := longRunDistance;
           qualityDays := qualityDays template
                          ++ [ {| quality_day := thursday; quality_type := secondQuality;
                                  quality_distance := None |} ];
           easyRunDays := easyRunDays template;
           restDays := [];
           crossTrainingDay := crossTrainingDay template;
           template_totalMileage := template_totalMileage template |}
    | None => template
    end
  else template.

(** A table of the phase files, read at an index that the callers keep
    within the table ([Math.min(i, length - 1)]); [num_lit 0] stands for the
    value out of the table, never read. *)
Definition table_at (table : list num) (i : Z) : num :=
  default (num_lit 0) (table !! Z.to_nat i).

Definition table_length (table : list num) : Z := Z.of_nat (length table).

(** The template literal that the phase files repeat: a quality session on
    Tuesday, easy runs on Monday, Wednesday and Friday, the long run on
    Sunday. *)
Definition week_template (focus : string) (longRunDistance : num)
    (quality : RunType) (distance : option num) (restDays : list DayOfWeek)
    (crossTrainingDay : option DayOfWeek) (totalMileage : num) : WeekTemplate num :=
  {| focus := focus;
     longRunDay := sunday;
     longRunDistance := longRunDistance;
     qualityDays := [ {| quality_day := tuesday; quality_type := quality;
                         quality_distance := distance |} ];
     easyRunDays := [monday; wednesday; friday];
     restDays := restDays;
     crossTrainingDay := crossTrainingDay;
     template_totalMileage := totalMileage |}.

(** templates/base-phase.ts *)
Definition BASE_LONG_RUNS (level : PlanLevel) : list num :=
  match level with
  | conservative => [num_lit 8; num_lit 9; num_lit 10; num_lit 7]
  | moderate => [num_lit 9; num_lit 10; num_lit 12; num_lit 8]
  | ambitious => [num_lit 10; num_lit 12; num_lit 14; num_lit 10]
  end.

Definition BASE_WEEKLY_MILEAGE (level : PlanLevel) : list num :=
  match level with
  | conservative => [num_lit 22; num_lit 25; num_lit 28; num_lit 20]
  | moderate => [num_lit 25; num_lit 28; num_lit 32; num_lit 24]
  | ambitious => [num_lit 30; num_lit 35; num_lit 40; num_lit 30]
  end.

(** The templates that one pass of the loop pushes. *)
Definition base_week (numWeeks : Z) (level : PlanLevel) (i : Z)
    : list (WeekTemplate num) :=
  let longRuns := BASE_LONG_RUNS level in
  let mileages := BASE_WEEKLY_MILEAGE level in
  let isRecovery := (i =? numWeeks - 1) && (4 <=? numWeeks) in
  let weekIndex := Z.min i (table_length longRuns - 1) in
  let longRunDistance :=
    if isRecovery then table_at longRuns (table_length longRuns - 1)
    else table_at longRuns weekIndex in
  let totalMileage :=
    if isRecovery then table_at mileages (table_length mileages - 1)
    else table_at mileages weekIndex in
  if i =? 0 then
    [week_template "Building aerobic foundation, establishing routine"
       longRunDistance intervals (Some (num_lit 5)) [thursday] (Some saturday)
       totalMileage]
  else if i =? 1 then
    [week_template "Continue building base, introduce tempo"
       longRunDistance tempo None [thursday] (Some saturday) totalMileage]
  else if (i =? 2) || ((2 <? i) && negb isRecovery) then
    [week_template "Peak base week, longest base phase volume"
       longRunDistance fartlek (Some (num_lit 6)) [thursday] (Some saturday)
       totalMileage]
  else if isRecovery then
    [week_template "RECOVERY WEEK - Absorb base training, prepare for build phase"
       longRunDistance tempo None [thursday; saturday] None totalMileage]
  else [].

Definition generateBasePhase (numWeeks : Z) (level : PlanLevel)
    : list (WeekTemplate num) :=
  concat (map (base_week numWeeks level) (seqZ 0 numWeeks)).

(** templates/build-phase.ts *)
Definition BUILD_LONG_RUNS (level : PlanLevel) : list num :=
  match level with
  | conservative => [num_lit 12; num_lit 12; num_lit 10; num_lit 14; num_lit 15; num_lit 12]
  | moderate => [num_lit 13; num_lit 13; num_lit 10; num_lit 14; num_lit 18; num_lit 12]
  | ambitious => [num_lit 15; num_lit 15; num_lit 12; num_lit 16; num_lit 20; num_lit 14]
  end.

Definition BUILD_WEEKLY_MILEAGE (level : PlanLevel) : list num :=
  match level with
  | conservative => [num_lit 28; num_lit 28; num_lit 22; num_lit 32; num_lit 35; num_lit 26]
  | moderate => [num_lit 30; num_lit 35; num_lit 26; num_lit 35; num_lit 40; num_lit 30]
  | ambitious => [num_lit 38; num_lit 42; num_lit 32; num_lit 45; num_lit 50; num_lit 38]
  end.

Definition build_week (numWeeks : Z) (level : PlanLevel) (i : Z) : WeekTemplate num :=
  let longRuns := BUILD_LONG_RUNS level in
  let mileages := BUILD_WEEKLY_MILEAGE level in
  let isRecovery := (i =? 2) || (i =? numWeeks - 1) in
  let weekIndex := Z.min i (table_length longRuns - 1) in
  let longRunDistance := table_at longRuns weekIndex in
  let totalMileage := table_at mileages weekIndex in
  if i =? 0 then
    week_template "Start build phase, introduce hill repeats"
      longRunDistance hill_repeats None [thursday; saturday] None totalMileage
  else if i =? 1 then
    week_template "Continue building intensity"
      longRunDistance tempo None [thursday] (Some saturday) totalMileage
  else if i =? 2 then
    week_template "RECOVERY WEEK - Absorb build training"
      longRunDistance intervals None [thursday; saturday] None totalMileage
  else if (i =? 3) || (i =? 4) then
    week_template
      (if i =? 4 then "Peak build week - highest build phase volume"
       else "Resume build - increase volume")
      longRunDistance (if i =? 4 then intervals else tempo) None
      [thursday] (Some saturday) totalMileage
  else if (i =? 5) || isRecovery then
    week_template "RECOVERY WEEK - Final recovery before peak phase"
      longRunDistance tempo None [thursday; saturday] None totalMileage
  else
    week_template "Build phase - continue progression"
      longRunDistance tempo None [thursday] (Some saturday) totalMileage.

Definition generateBuildPhase (numWeeks : Z) (level : PlanLevel)
    : list (WeekTemplate num) :=
  map (build_week numWeeks level) (seqZ 0 numWeeks).

(** templates/peak-phase.ts *)
Definition PEAK_LONG_RUNS (level : PlanLevel) : list num :=
  match level with
  | conservative => [num_lit 18; num_lit 16; num_lit 12]
  | moderate => [num_lit 20; num_lit 16; num_lit 12]
  | ambitious => [num_lit 22; num_lit 18; num_lit 14]
  end.

Definition PEAK_WEEKLY_MILEAGE (level : PlanLevel) : list num :=
  match level with
  | conservative => [num_lit 35; num_lit 32; num_lit 28]
  | moderate => [num_lit 44; num_lit 40; num_lit 35]
  | ambitious => [num_lit 52; num_lit 48; num_lit 42]
  end.

Definition peak_week (level : PlanLevel) (i : Z) : WeekTemplate num :=
  let longRuns := PEAK_LONG_RUNS level in
  let mileages := PEAK_WEEKLY_MILEAGE level in
  let weekIndex := Z.min i (table_length longRuns - 1) in
  let longRunDistance := table_at longRuns weekIndex in
  let totalMileage := table_at mileages weekIndex in
  if i =? 0 then
    week_template "PEAK WEEK - Highest volume, longest long run"
      longRunDistance tempo None [thursday] (Some saturday) totalMileage
  else if i =? 1 then
    week_template "Race simulation long run with marathon pace finish"
      longRunDistance intervals None [thursday; saturday] None totalMileage
  else if i =? 2 then
    week_template "Final hard week before taper begins"
      longRunDistance tempo None [thursday; saturday] None totalMileage
  else
    week_template "Peak phase - race-specific fitness"
      longRunDistance tempo None [thursday] (Some saturday) totalMileage.

Definition generatePeakPhase (numWeeks : Z) (level : PlanLevel)
    : list (WeekTemplate num) :=
  map (peak_week level) (seqZ 0 numWeeks).

(** templates/taper-phase.ts *)
Definition TAPER_LONG_RUNS (level : PlanLevel) : list num :=
  match level with
  | conservative => [num_lit 8; num_lit 0]
  | moderate => [num_lit 10; num_lit 0]
  | ambitious => [num_lit 12; num_lit 0]
  end.

Definition TAPER_WEEKLY_MILEAGE (level : PlanLevel) : list num :=
  match level with
  | conservative => [num_lit 18; num_lit 12]
  | moderate => [num_lit 25; num_lit 15]
  | ambitious => [num_lit 30; num_lit 18]
  end.

Definition createRaceWeekTemplate (level : PlanLevel) : WeekTemplate num :=
  let totalMileage := table_at (TAPER_WEEKLY_MILEAGE level) 1 in
  {| focus := "RACE WEEK - Rest, hydrate, trust your training";
     longRunDay := saturday;
     longRunDistance := num_lit 26.2;
     qualityDays := [ {| quality_day := tuesday; quality_type := intervals;
                         quality_distance := Some (num_lit 3) |} ];
     easyRunDays := [monday; wednesday; friday];
     restDays := [thursday; sunday];
     crossTrainingDay := None;
     template_totalMileage := totalMileage +^ num_lit 26.2 |}.

Definition taper_week (numWeeks : Z) (level : PlanLevel) (i : Z) : WeekTemplate num :=
  let longRuns := TAPER_LONG_RUNS level in
  let mileages := TAPER_WEEKLY_MILEAGE level in
  let isRaceWeek := i =? numWeeks - 1 in
  let weekIndex := Z.min i (table_length longRuns - 1) in
  if isRaceWeek then createRaceWeekTemplate level
  else
    let longRunDistance := table_at longRuns weekIndex in
    let totalMileage := table_at mileages weekIndex in
    if i =? 0 then
      week_template "TAPER BEGINS - Reduce volume, maintain sharpness"
        longRunDistance intervals (Some (num_lit 4)) [thursday; saturday] None
        totalMileage
    else
      week_template "TAPER - Rest and recover"
        longRunDistance intervals (Some (num_lit 3)) [thursday; saturday] None
        totalMileage.

Definition generateTaperPhase (numWeeks : Z) (level : PlanLevel)
    : list (WeekTemplate num) :=
  map (taper_week numWeeks level) (seqZ 0 numWeeks).

End Templates.
Arguments TemplateOptions : clear implicits.

(** ** Vocabulary of the properties *)

(** The day carries a run whose type satisfies [p]. *)
Definition carries (weekWorkouts : JsMap.t RunType) (day : DayOfWeek)
    (p : RunType -> bool) : Prop :=
  exists runType, JsMap.get day weekWorkouts = Some runType /\ p runType = true.

(** A string that is the ISO form "YYYY-MM-DD" of a day of the calendar. *)
Definition validISODate (s : string) : Prop :=
  exists d, validDate d = true /\ formatDateISO d = s.

(** The order of the calendar on dates. *)
Definition date_leb (d1 d2 : Date) : bool :=
  (year d1 <? year d2)
  || ((year d1 =? year d2)
      && ((month d1 <? month d2)
          || ((month d1 =? month d2) && (dayOfMonth d1 <=? dayOfMonth d2)))).

(** A week start from which the seven days of the week keep a four-digit
    year. *)
Definition validWeekStart (weekStart : Date) : bool :=
  validDate weekStart && (year weekStart <=? 9993).

(** The verdict of the ranges on a day of the week that starts at
    [weekStart]. *)
Definition blockedOn (weekStart : Date) (blockedDates : list BlockedDateRange)
    (day : DayOfWeek) : BlockedResult :=
  scan_ranges (formatDateISO (getDateForDay weekStart day)) blockedDates.

(** The number of entries of a map whose value satisfies [P]. *)
Definition count_values {V} (P : V -> Prop) `{forall v, Decision (P v)}
    (m : JsMap.t V) : nat :=
  length (filter P (JsMap.values m)).

(** The last quality slot of the template on a day, if any. *)
Fixpoint last_quality {num : Type} (day : DayOfWeek) (qualities : list (QualityDay num))
    : option (QualityDay num) :=
  match qualities with
  | [] => None
  | quality :: qualities' =>
      match last_quality day qualities' with
      | Some q => Some q
      | None => if decide (quality_day quality = day) then Some quality else None
      end
  end.

Section WeekVocabulary.
Context {num : Type} `{!JsNumber num}.
Local Open Scope num_scope.

(** The template after the check of the long-run day, on a week whose days
    are valid dates. *)
Definition adjustedTemplate (template : WeekTemplate num) (weekStart : Date)
    (blockedDates : list BlockedDateRange) : WeekTemplate num :=
  if blocked (blockedOn weekStart blockedDates (longRunDay template)) then
    if negb (blocked (blockedOn weekStart blockedDates (altDay template)))
    then with_longRunDay template (altDay template)
    else with_longRunDistance template (num_lit 0)
  else template.

(** The day that receives the long run or, without a long run, the Rest
    that stands for it. *)
Definition longRunSlot (template : WeekTemplate num) (weekStart : Date)
    (blockedDates : list BlockedDateRange) : DayOfWeek :=
  let adjusted := adjustedTemplate template weekStart blockedDates in
  if num_gtb (longRunDistance adjusted) (num_lit 0)
  then longRunDay adjusted else longRunDay template.

(** The days the template names. *)
Definition template_lists (template : WeekTemplate num) (day : DayOfWeek) : Prop :=
  day ∈ map quality_day (qualityDays template)
  \/ day ∈ easyRunDays template
  \/ day ∈ restDays template
  \/ crossTrainingDay template = Some day.

(** The sum of numbers in list order, from 0. *)
Definition sum_num (l : list num) : num := fold_left num_add l (num_lit 0).

(** Rounding to one decimal: [Math.round(x * 10) / 10]. *)
Definition round1 (x : num) : num := num_round (x *^ num_lit 10) /^ num_lit 10.

(** An optional number that counts in a total: defined, not 0, not NaN. *)
Definition counted (x : option num) : option num :=
  match x with
  | Some v => if num_truthy v then Some v else None
  | None => None
  end.

End WeekVocabulary.

(** ** Vocabulary of the further properties *)

(** The place of a phase in the course of the plan. *)
Definition phase_rank (phase : Phase) : Z :=
  match phase with
  | base => 0 | build => 1 | peak => 2 | taper => 3 | race => 4
  end.

(** A blocked range between two days of the calendar. *)
Definition range_between (first last : Date) (why : option string) : BlockedDateRange :=
  {| range_start := formatDateISO first;
     range_end := formatDateISO last;
     range_reason := why |}.

Section FurtherVocabulary.
Context {num : Type} `{!JsNumber num}.

(** The template names every weekday: in one of its lists or as the day of
    the long run, which is in none of the lists. *)
Definition names_whole_week (template : WeekTemplate num) : Prop :=
  (forall day, template_lists template day \/ day = longRunDay template)
  /\ ~ template_lists template (longRunDay template).

(** A template of one of the phase files or of [createWeekTemplate]. *)
Definition phase_template (template : WeekTemplate num) : Prop :=
  (exists numWeeks level,
      template ∈ generateBasePhase numWeeks level
      \/ template ∈ generateBuildPhase numWeeks level
      \/ template ∈ generatePeakPhase numWeeks level
      \/ template ∈ generateTaperPhase numWeeks level)
  \/ (exists phase level isRecovery weekNumber options,
        template = createWeekTemplate phase level isRecovery weekNumber options).

(** The long run is moved to the weekend alternate. *)
Definition long_run_moved (template : WeekTemplate num) (weekStart : Date)
    (blockedDates : list BlockedDateRange) : bool :=
  blocked (blockedOn weekStart blockedDates (longRunDay template))
  && negb (blocked (blockedOn weekStart blockedDates (altDay template)))
  && num_gtb (longRunDistance template) (num_lit 0).

(** generateWeek: the strength session of a day of the week. *)
Definition weekStrengthSession (runningSchedule : JsMap.t (RunningWorkout num))
    (preferences : StrengthPreferences) (phase : Phase) (isRecoveryWeek : bool)
    (day : DayOfWeek) : option (StrengthSession num) :=
  createStrengthSession
    (JsMap.get day (weekStrengthAllocations runningSchedule preferences phase isRecoveryWeek)).

End FurtherVocabulary.

(** ** Concrete weeks, over the rationals *)

Module Examples.

Definition pace (fast slow : string) : PaceRange :=
  {| pace_min := fast; pace_max := slow; pace_description := "" |}.

Definition paces : PaceZones :=
  {| zone_easy := pace "9:30" "10:30";
     zone_marathon := pace "8:40" "8:50";
     zone_tempo := pace "8:00" "8:15";
     zone_fiveK := pace "7:20" "7:30";
     zone_interval := pace "7:00" "7:15";
     zone_recovery := pace "10:30" "11:30" |}.

(** templates/base-phase.ts: the second week of [generateBasePhase] at the
    moderate level. *)
Definition base_week2 : WeekTemplate Q :=
  {| focus := "Continue building base, introduce tempo";
     longRunDay := sunday;
     longRunDistance := 10%Q;
     qualityDays :=
       [ {| quality_day := tuesday; quality_type := tempo; quality_distance := None |} ];
     easyRunDays := [monday; wednesday; friday];
     restDays := [thursday];
     crossTrainingDay := Some saturday;
     template_totalMileage := 28%Q |}.

(** A template that names the long-run day only. *)
Definition long_run_only : WeekTemplate Q :=
  {| focus := "Long run only";
     longRunDay := sunday;
     longRunDistance := 10%Q;
     qualityDays := [];
     easyRunDays := [];
     restDays := [];
     crossTrainingDay := None;
     template_totalMileage := 10%Q |}.

(** Monday 2 March 2026. *)
Definition monday_2026_03_02 : Date := {| year := 2026; month := 3; dayOfMonth := 2 |}.

(** Sunday 8 March blocked. *)
Definition sunday_blocked : list BlockedDateRange :=
  [ {| range_start := "2026-03-08"; range_end := "2026-03-08";
       range_reason := Some "Family event"%string |} ].

(** Saturday 7 and Sunday 8 March blocked for a skiing trip. *)
Definition skiing_trip : list BlockedDateRange :=
  [ {| range_start := "2026-03-07"; range_end := "2026-03-08";
       range_reason := Some "Skiing"%string |} ].

(** The whole week, Monday 2 to Sunday 8 March, blocked for travel. *)
Definition travel_week : list BlockedDateRange :=
  [ {| range_start := "2026-03-02"; range_end := "2026-03-08";
       range_reason := Some "Travel"%string |} ].

Definition tue_thu_sat (days : Z) : StrengthPreferences :=
  {| daysPerWeek := days; preferredDays := [tuesday; thursday; saturday];
     avoidBeforeLongRun := true; pref_notes := None |}.

Definition prefers (day : DayOfWeek) (days : Z) : StrengthPreferences :=
  {| daysPerWeek := days; preferredDays := [day];
     avoidBeforeLongRun := true; pref_notes := None |}.

(** The run types of [base_week2] in a week without blocked dates (see
    [base_week2_types_generated]). *)
Definition base_week2_types : JsMap.t RunType :=
  [(sunday, long); (tuesday, tempo); (monday, easy); (wednesday, easy);
   (friday, easy); (thursday, rest); (saturday, cross_training)].

(** Long runs from Tuesday to Saturday: only Saturday and Sunday pass
    [canLiftOnDay]. *)
Definition five_long_runs : JsMap.t RunType :=
  [(tuesday, long); (wednesday, long); (thursday, long); (friday, long);
   (saturday, long)].

End Examples.

(** ** Tactics of the proofs *)

Ltac allocate_cases day st :=
  unfold allocate_day;
  match goal with
  | |- context [if ?rec then _ else if decide (?phase = peak) then _ else _] =>
      destruct rec;
      [|destruct (decide (phase = peak));
        [|destruct (canDoHeavyLegs day _ && negb (legsScheduled st)) eqn:?;
          [|destruct (negb (upperScheduled st)) eqn:?]]]
  end; cbn [allocations legsScheduled upperScheduled sessionsScheduled].

Ltac leb_cases :=
  repeat match goal with
         | |- context [?a =? ?b] =>
             let H := fresh "Heq" in
             destruct (a =? b) eqn:H;
             [apply Z.eqb_eq in H | apply Z.eqb_neq in H]
         | |- context [?a <=? ?b] =>
             let H := fresh "Hle" in
             destruct (a <=? b) eqn:H;
             [apply Z.leb_le in H | apply Z.leb_gt in H]
         | |- context [?a <? ?b] =>
             let H := fresh "Hlt" in
             destruct (a <? b) eqn:H;
             [apply Z.ltb_lt in H | apply Z.ltb_ge in H]
         end.

Ltac whole_week :=
  split;
  [intros day; unfold template_lists;
   cbn [qualityDays easyRunDays restDays crossTrainingDay longRunDay map quality_day
        app];
   destruct day;
   first [right; reflexivity
         |left; apply (bool_decide_unpack _); vm_compute; exact I]
  |unfold template_lists;
   cbn [qualityDays easyRunDays restDays crossTrainingDay longRunDay map quality_day
        app];
   apply (bool_decide_unpack _); vm_compute; exact I].

(** * Properties *)

(** ** Maps *)

Section MapFacts.
Context {V : Type}.
Implicit Types (m : JsMap.t V) (k : DayOfWeek) (v : V).

Lemma get_set k k' v m :
  JsMap.get k (JsMap.set k' v m) = if decide (k = k') then Some v else JsMap.get k m.
Proof.
  induction m as [|[k0 v0] m IH]; simpl.
  - destruct (decide (k = k')); reflexivity.
  - destruct (decide (k' = k0)) as [->|Hne]; simpl.
    + destruct (decide (k = k0)); reflexivity.
    + destruct (decide (k = k0)) as [->|Hne'].
      * destruct (decide (k0 = k')); congruence.
      * exact IH.
Qed.

Lemma get_set_eq k v m : JsMap.get k (JsMap.set k v m) = Some v.
Proof. rewrite get_set. destruct (decide (k = k)); congruence. Qed.

Lemma get_set_ne k k' v m :
  k <> k' -> JsMap.get k (JsMap.set k' v m) = JsMap.get k m.
Proof. intros Hne. rewrite get_set. destruct (decide (k = k')); congruence. Qed.

Lemma get_None_keys k m : JsMap.get k m = None <-> k ∉ JsMap.keys m.
Proof.
  induction m as [|[k0 v0] m IH]; simpl.
  - split; [intros _; apply not_elem_of_nil | reflexivity].
  - rewrite not_elem_of_cons. destruct (decide (k = k0)) as [->|Hne].
    + split; [discriminate | intros [Hk _]; congruence].
    + rewrite IH. tauto.
Qed.

Lemma get_Some_keys k m : is_Some (JsMap.get k m) <-> k ∈ JsMap.keys m.
Proof.
  destruct (JsMap.get k m) as [v|] eqn:Hget.
  - split; [intros _ | eauto].
    destruct (decide (k ∈ JsMap.keys m)) as [|Hn]; [assumption|].
    apply get_None_keys in Hn. congruence.
  - split; [intros [? ?]; discriminate|].
    intros Hin. apply get_None_keys in Hget. contradiction.
Qed.

Lemma has_true k m : JsMap.has k m = true <-> k ∈ JsMap.keys m.
Proof.
  unfold JsMap.has. rewrite <- get_Some_keys.
  destruct (JsMap.get k m); split; eauto; try discriminate.
  intros [? ?]; discriminate.
Qed.

Lemma has_false k m : JsMap.has k m = false <-> JsMap.get k m = None.
Proof. unfold JsMap.has. destruct (JsMap.get k m); split; congruence. Qed.


Lemma keys_set k v m :
  JsMap.keys (JsMap.set k v m)
  = if JsMap.has k m then JsMap.keys m else JsMap.keys m ++ [k].
Proof.
  unfold JsMap.has, JsMap.keys. induction m as [|[k0 v0] m IH]; simpl; [reflexivity|].
  destruct (decide (k = k0)) as [->|Hne]; simpl; [reflexivity|].
  rewrite IH. destruct (JsMap.get k m); reflexivity.
Qed.

Lemma elem_of_keys_set k k' v m :
  k ∈ JsMap.keys (JsMap.set k' v m) <-> k = k' \/ k ∈ JsMap.keys m.
Proof.
  rewrite <- !get_Some_keys, get_set.
  destruct (decide (k = k')); split; eauto; intros [?|?]; [contradiction|assumption].
Qed.

Lemma NoDup_keys_set k v m :
  NoDup (JsMap.keys m) -> NoDup (JsMap.keys (JsMap.set k v m)).
Proof.
  intros Hnd. rewrite keys_set.
  destruct (JsMap.has k m) eqn:Hhas; [assumption|].
  apply has_false, get_None_keys in Hhas.
  apply list.NoDup_app. split; [assumption|]. split.
  - intros x Hx Hin. apply list_elem_of_singleton in Hin. congruence.
  - apply NoDup_singleton.
Qed.


End MapFacts.

(** ** Day ring *)

Lemma getNextDay_table :
  map getNextDay DAYS_IN_ORDER
  = [tuesday; wednesday; thursday; friday; saturday; sunday; monday].
Proof. reflexivity. Qed.

Lemma getPreviousDay_table :
  map getPreviousDay DAYS_IN_ORDER
  = [sunday; monday; tuesday; wednesday; thursday; friday; saturday].
Proof. reflexivity. Qed.

Lemma getPreviousDay_getNextDay day : getPreviousDay (getNextDay day) = day.
Proof. destruct day; reflexivity. Qed.

Lemma elem_of_DAYS_IN_ORDER day : day ∈ DAYS_IN_ORDER.
Proof. destruct day; apply (bool_decide_unpack _); vm_compute; exact I. Qed.

Lemma NoDup_DAYS_IN_ORDER : NoDup DAYS_IN_ORDER.
Proof. apply (bool_decide_unpack _). vm_compute. exact I. Qed.

(** ** Sorting *)

Lemma sort_insert_Permutation {A} (cmp : A -> A -> Z) (x : A) (l : list A) :
  sort_insert cmp x l ≡ₚ x :: l.
Proof.
  induction l as [|y l IH]; simpl; [reflexivity|].
  destruct (cmp y x <=? 0); [|reflexivity].
  rewrite IH. apply perm_swap.
Qed.

Lemma sort_Permutation {A} (cmp : A -> A -> Z) (l : list A) : sort cmp l ≡ₚ l.
Proof.
  unfold sort.
  assert (Hgen : forall acc, fold_left (fun acc x => sort_insert cmp x acc) l acc ≡ₚ l ++ acc).
  { induction l as [|x l IH]; intros acc; simpl; [reflexivity|].
    rewrite IH, sort_insert_Permutation. symmetry. apply Permutation_middle. }
  rewrite Hgen. rewrite app_nil_r. reflexivity.
Qed.

(** ** Strength scheduler *)

Lemma canLiftOnDay_false day (ww : JsMap.t RunType) :
  canLiftOnDay day ww = false <-> carries ww (getNextDay day) isLongRun.
Proof.
  unfold canLiftOnDay, carries, defined_and.
  destruct (JsMap.get (getNextDay day) ww) as [rt|].
  - destruct (isLongRun rt) eqn:Hlong; split; eauto; try discriminate.
    intros (rt' & Heq & Hrt'). congruence.
  - split; [discriminate|]. intros (rt' & Heq & _). discriminate.
Qed.

Lemma isLongRun_true rt : isLongRun rt = true <-> rt = long \/ rt = progression.
Proof.
  destruct rt; split; intros H; try (vm_compute in H; discriminate);
    try reflexivity; try tauto; destruct H; discriminate.
Qed.

Lemma isSpeedWorkout_true rt :
  isSpeedWorkout rt = true
  <-> rt = tempo \/ rt = intervals \/ rt = hill_repeats \/ rt = fartlek \/ rt = race_pace.
Proof.
  destruct rt; split; intros H; try (vm_compute in H; discriminate);
    try reflexivity; try tauto;
    repeat (destruct H as [H|H]; try discriminate).
Qed.

Lemma canDoHeavyLegs_true day (ww : JsMap.t RunType) :
  canDoHeavyLegs day ww = true ->
  ~ carries ww (getPreviousDay day) isSpeedWorkout
  /\ ~ carries ww (getNextDay day) isSpeedWorkout
  /\ ~ carries ww (getNextDay day) isLongRun.
Proof.
  unfold canDoHeavyLegs, carries, defined_and.
  destruct (JsMap.get (getPreviousDay day) ww) as [p|];
    destruct (JsMap.get (getNextDay day) ww) as [n|];
    try destruct (isSpeedWorkout p) eqn:Hp; try destruct (isSpeedWorkout n) eqn:Hn;
    try destruct (isLongRun n) eqn:Hl; try discriminate; intros _;
    repeat split; intros (rt & Heq & Hrt); congruence.
Qed.

Lemma availableDays_spec (ww : JsMap.t RunType) day :
  day ∈ availableDays ww <-> canLiftOnDay day ww = true.
Proof.
  unfold availableDays. rewrite list_elem_of_filter.
  split; [tauto|]. intros Hc. split; [assumption | apply elem_of_DAYS_IN_ORDER].
Qed.

Lemma sortedDays_Permutation (ww : JsMap.t RunType) prefs :
  sortedDays ww prefs ≡ₚ availableDays ww.
Proof. apply sort_Permutation. Qed.

Lemma NoDup_sortedDays (ww : JsMap.t RunType) prefs : NoDup (sortedDays ww prefs).
Proof.
  rewrite sortedDays_Permutation. unfold availableDays. apply list.NoDup_filter, NoDup_DAYS_IN_ORDER.
Qed.

Section StrengthFacts.
Context {num : Type} `{!JsNumber num}.
Implicit Types (ww : JsMap.t RunType) (st : AllocState num).

Lemma allocate_loop_invariant (P : AllocState num -> Prop) ww phase rec target days st :
  P st ->
  (forall day st', day ∈ days -> P st' -> sessionsScheduled st' < target ->
     P (allocate_day ww phase rec day st')) ->
  P (allocate_loop ww phase rec target days st).
Proof.
  revert st. induction days as [|day days IH]; intros st Hst Hstep; simpl; [assumption|].
  destruct (target <=? sessionsScheduled st) eqn:Hle; [assumption|].
  apply Z.leb_gt in Hle. apply IH.
  - apply Hstep; [apply list_elem_of_here | assumption | assumption].
  - intros d st' Hd. apply Hstep. apply list_elem_of_further. assumption.
Qed.

(** The entry that one pass of the loop writes. *)
Lemma allocate_day_allocations ww phase rec day st :
  exists a,
    allocations (allocate_day ww phase rec day st) = JsMap.set day a (allocations st)
    /\ sessionsScheduled (allocate_day ww phase rec day st) = sessionsScheduled st + 1
    /\ (rec = true -> alloc_type a = full_body)
    /\ (rec = false -> phase = peak ->
        alloc_type a = (if sessionsScheduled st =? 0 then lower_body else core))
    /\ (rec = false -> phase <> peak ->
        (alloc_type a = lower_body /\ canDoHeavyLegs day ww = true
         /\ legsScheduled st = false
         /\ legsScheduled (allocate_day ww phase rec day st) = true
         /\ upperScheduled (allocate_day ww phase rec day st) = upperScheduled st)
        \/ (alloc_type a = upper_body /\ upperScheduled st = false
            /\ upperScheduled (allocate_day ww phase rec day st) = true
            /\ legsScheduled (allocate_day ww phase rec day st) = legsScheduled st)
        \/ (alloc_type a = core
            /\ upperScheduled (allocate_day ww phase rec day st) = upperScheduled st
            /\ legsScheduled (allocate_day ww phase rec day st) = legsScheduled st))
    /\ (rec = true \/ phase = peak ->
        legsScheduled (allocate_day ww phase rec day st) = legsScheduled st
        /\ upperScheduled (allocate_day ww phase rec day st) = upperScheduled st).
Proof.
  unfold allocate_day.
  destruct rec; [|destruct (decide (phase = peak)) as [->|Hpeak]];
    [| |destruct (canDoHeavyLegs day ww) eqn:Hlegs;
        destruct (legsScheduled st) eqn:Hl; destruct (upperScheduled st) eqn:Hu];
    simpl; eexists; (split; [reflexivity|]); (split; [reflexivity|]); simpl;
    (split; [intros; congruence|]); (split; [intros; congruence|]);
    (split; [|intros [?|?]; first [congruence | split; reflexivity]]);
    intros; try congruence;
    first [ left; repeat split; congruence
          | right; left; repeat split; congruence
          | right; right; repeat split; congruence ].
Qed.

Lemma scheduled_day_sorted ww prefs phase rec day :
  is_Some (JsMap.get day (scheduleStrengthForWeek ww prefs phase rec)) ->
  day ∈ sortedDays ww prefs.
Proof.
  unfold scheduleStrengthForWeek.
  destruct (getStrengthDaysForPhase (daysPerWeek prefs) phase rec =? 0).
  { intros [a Ha]. discriminate. }
  revert day.
  apply (allocate_loop_invariant
           (fun st => forall day, is_Some (JsMap.get day (allocations st)) ->
                                  day ∈ sortedDays ww prefs)).
  - intros day [a Ha]. discriminate.
  - intros d st' Hd IH _ day.
    destruct (allocate_day_allocations ww phase rec d st') as (a & -> & _).
    rewrite get_set. destruct (decide (day = d)) as [->|Hne]; [intros _; assumption|].
    apply IH.
Qed.

Lemma lower_body_can_do_legs ww prefs phase rec day a :
  rec = true \/ phase <> peak ->
  JsMap.get day (scheduleStrengthForWeek ww prefs phase rec) = Some a ->
  alloc_type a = lower_body ->
  canDoHeavyLegs day ww = true.
Proof.
  intros Hmode. unfold scheduleStrengthForWeek.
  destruct (getStrengthDaysForPhase (daysPerWeek prefs) phase rec =? 0).
  { discriminate. }
  revert day a.
  apply (allocate_loop_invariant
           (fun st => forall day a, JsMap.get day (allocations st) = Some a ->
                                    alloc_type a = lower_body ->
                                    canDoHeavyLegs day ww = true)).
  - discriminate.
  - intros d st' _ IH _ day a.
    destruct (allocate_day_allocations ww phase rec d st')
      as (a0 & -> & _ & Hrec & _ & Hother & _).
    rewrite get_set. destruct (decide (day = d)) as [->|Hne]; [|apply IH].
    intros [= <-] Hlower. destruct rec.
    + rewrite Hrec in Hlower by reflexivity. discriminate.
    + destruct Hmode as [?|Hpeak]; [discriminate|].
      destruct (Hother eq_refl Hpeak) as [(_ & Hlegs & _)|[(Hty & _)|(Hty & _)]];
        [assumption | congruence | congruence].
Qed.

Lemma count_values_set_le {V} (P : V -> Prop) `{forall v, Decision (P v)}
    k v (m : JsMap.t V) :
  (count_values P (JsMap.set k v m)
   <= count_values P m + (if decide (P v) then 1 else 0))%nat.
Proof.
  unfold count_values, JsMap.values.
  induction m as [|[k0 v0] m IH]; simpl.
  - rewrite filter_cons, filter_nil. destruct (decide (P v)); simpl; lia.
  - destruct (decide (k = k0)) as [->|Hne]; simpl; rewrite !filter_cons.
    + destruct (decide (P v)), (decide (P v0)); simpl; lia.
    + destruct (decide (P v0)); simpl; lia.
Qed.

Lemma lower_body_count ww prefs phase rec :
  (count_values (fun a => alloc_type a = lower_body)
     (scheduleStrengthForWeek ww prefs phase rec) <= 1)%nat.
Proof.
  unfold scheduleStrengthForWeek.
  destruct (getStrengthDaysForPhase (daysPerWeek prefs) phase rec =? 0).
  { unfold count_values. simpl. lia. }
  set (Lc := fun st : AllocState num =>
               count_values (fun a => alloc_type a = lower_body) (allocations st)).
  enough (Hinv :
    let st := allocate_loop ww phase rec
                (getStrengthDaysForPhase (daysPerWeek prefs) phase rec)
                (sortedDays ww prefs)
                {| allocations := JsMap.empty; legsScheduled := false;
                   upperScheduled := false; sessionsScheduled := 0 |} in
    (Lc st <= 1)%nat
    /\ (rec = true -> Lc st = 0%nat)
    /\ (rec = false -> phase = peak -> sessionsScheduled st = 0 -> Lc st = 0%nat)
    /\ (rec = false -> phase <> peak -> legsScheduled st = false -> Lc st = 0%nat)
    /\ 0 <= sessionsScheduled st) by apply Hinv.
  apply (allocate_loop_invariant
           (fun st =>
              (Lc st <= 1)%nat
              /\ (rec = true -> Lc st = 0%nat)
              /\ (rec = false -> phase = peak -> sessionsScheduled st = 0 -> Lc st = 0%nat)
              /\ (rec = false -> phase <> peak -> legsScheduled st = false -> Lc st = 0%nat)
              /\ 0 <= sessionsScheduled st)).
  - unfold Lc, count_values. simpl. repeat split; intros; lia.
  - intros d st' _ (Hle & Hrec & Hpeak & Hother & Hpos) _.
    destruct (allocate_day_allocations ww phase rec d st')
      as (a & Ha & Hs & Ty1 & Ty2 & Ty3 & Flags).
    assert (Hstep := count_values_set_le (fun a => alloc_type a = lower_body)
                       d a (allocations st')).
    unfold Lc in *. rewrite Ha, Hs.
    destruct rec.
    + rewrite Ty1 in Hstep by reflexivity. specialize (Hrec eq_refl).
      destruct (decide (full_body = lower_body)); [discriminate|].
      repeat split; intros; try discriminate; lia.
    + destruct (decide (phase = peak)) as [Hp|Hp].
      * rewrite (Ty2 eq_refl Hp) in Hstep.
        destruct (sessionsScheduled st' =? 0) eqn:Hz.
        -- apply Z.eqb_eq in Hz. specialize (Hpeak eq_refl Hp Hz).
           destruct (decide (lower_body = lower_body)); [|congruence].
           repeat split; intros; try discriminate; try contradiction; lia.
        -- destruct (decide (core = lower_body)); [discriminate|].
           repeat split; intros; try discriminate; try contradiction; lia.
      * destruct (Ty3 eq_refl Hp)
          as [(Hty & _ & Hl & Hl' & _)|[(Hty & _ & _ & Hl')|(Hty & _ & Hl')]];
          rewrite Hty in Hstep; rewrite Hl'.
        -- specialize (Hother eq_refl Hp Hl).
           destruct (decide (lower_body = lower_body)); [|congruence].
           repeat split; intros; try discriminate; try contradiction; lia.
        -- destruct (decide (upper_body = lower_body)); [discriminate|].
           repeat split; intros; try discriminate; try contradiction;
             try (pose proof (Hother eq_refl Hp ltac:(assumption)); lia); lia.
        -- destruct (decide (core = lower_body)); [discriminate|].
           repeat split; intros; try discriminate; try contradiction;
             try (pose proof (Hother eq_refl Hp ltac:(assumption)); lia); lia.
Qed.

Lemma upper_body_count ww prefs phase rec :
  (count_values (fun a => alloc_type a = upper_body)
     (scheduleStrengthForWeek ww prefs phase rec) <= 1)%nat.
Proof.
  unfold scheduleStrengthForWeek.
  destruct (getStrengthDaysForPhase (daysPerWeek prefs) phase rec =? 0).
  { unfold count_values. simpl. lia. }
  set (Uc := fun st : AllocState num =>
               count_values (fun a => alloc_type a = upper_body) (allocations st)).
  enough (Hinv :
    let st := allocate_loop ww phase rec
                (getStrengthDaysForPhase (daysPerWeek prefs) phase rec)
                (sortedDays ww prefs)
                {| allocations := JsMap.empty; legsScheduled := false;
                   upperScheduled := false; sessionsScheduled := 0 |} in
    (Uc st <= 1)%nat /\ (upperScheduled st = false -> Uc st = 0%nat)) by apply Hinv.
  apply (allocate_loop_invariant
           (fun st => (Uc st <= 1)%nat /\ (upperScheduled st = false -> Uc st = 0%nat))).
  - unfold Uc, count_values. simpl. split; intros; lia.
  - intros d st' _ (Hle & Hflag) _.
    destruct (allocate_day_allocations ww phase rec d st')
      as (a & Ha & Hs & Ty1 & Ty2 & Ty3 & Flags).
    assert (Hstep := count_values_set_le (fun a => alloc_type a = upper_body)
                       d a (allocations st')).
    unfold Uc in *. rewrite Ha.
    destruct rec.
    + rewrite Ty1 in Hstep by reflexivity.
      destruct (Flags (or_introl eq_refl)) as [_ ->].
      destruct (decide (full_body = upper_body)); [discriminate|].
      split; intros; try (pose proof (Hflag ltac:(assumption))); lia.
    + destruct (decide (phase = peak)) as [Hp|Hp].
      * rewrite (Ty2 eq_refl Hp) in Hstep.
        destruct (Flags (or_intror Hp)) as [_ ->].
        destruct (sessionsScheduled st' =? 0);
          [destruct (decide (lower_body = upper_body)); [discriminate|]
          |destruct (decide (core = upper_body)); [discriminate|]];
          split; intros; try (pose proof (Hflag ltac:(assumption))); lia.
      * destruct (Ty3 eq_refl Hp)
          as [(Hty & _ & _ & _ & Hu')|[(Hty & Hu & Hu' & _)|(Hty & Hu' & _)]];
          rewrite Hty in Hstep; rewrite Hu'.
        -- destruct (decide (lower_body = upper_body)); [discriminate|].
           split; intros; try (pose proof (Hflag ltac:(assumption))); lia.
        -- specialize (Hflag Hu).
           destruct (decide (upper_body = upper_body)); [|congruence].
           split; intros; try discriminate; lia.
        -- destruct (decide (core = upper_body)); [discriminate|].
           split; intros; try (pose proof (Hflag ltac:(assumption))); lia.
Qed.


Lemma Qceiling_half (p : Z) : Qceiling (inject_Z p / 2) = (p + 1) / 2.
Proof.
  unfold Qceiling, Qfloor, Qdiv, Qmult, Qinv, inject_Z, Qopp. simpl.
  rewrite Z.mul_1_r. change (Z.pos (1 * 2)) with 2.
  pose proof (Z.div_mod (- p) 2 ltac:(lia)).
  pose proof (Z.mod_pos_bound (- p) 2 ltac:(lia)).
  pose proof (Z.div_mod (p + 1) 2 ltac:(lia)).
  pose proof (Z.mod_pos_bound (p + 1) 2 ltac:(lia)).
  lia.
Qed.


(** C3 (as amended): [canDoHeavyLegs] is false whenever the previous day or the
    next day carries a speed-type run (tempo, intervals, hill_repeats, fartlek,
    race_pace); consequently, in a recovery week or outside the peak phase, no
    day that [scheduleStrengthForWeek] assigns a lower_body session has a
    speed-type run on the immediately preceding or the immediately following
    day. *)
Theorem lower_body_clear_of_adjacent_speed :
  (forall day ww,
      carries ww (getPreviousDay day) isSpeedWorkout
      \/ carries ww (getNextDay day) isSpeedWorkout ->
      canDoHeavyLegs day ww = false)
  /\ (forall ww prefs phase rec day a,
        rec = true \/ phase <> peak ->
        JsMap.get day (scheduleStrengthForWeek ww prefs phase rec) = Some a ->
        alloc_type a = lower_body ->
        ~ carries ww (getPreviousDay day) isSpeedWorkout
        /\ ~ carries ww (getNextDay day) isSpeedWorkout).
Proof.
  split.
  - intros day ww Hspeed.
    destruct (canDoHeavyLegs day ww) eqn:Hlegs; [|reflexivity].
    apply canDoHeavyLegs_true in Hlegs. tauto.
  - intros ww prefs phase rec day a Hmode Hget Hlower.
    pose proof (lower_body_can_do_legs ww prefs phase rec day a Hmode Hget Hlower) as Hlegs.
    apply canDoHeavyLegs_true in Hlegs. tauto.
Qed.

(** C5: [canLiftOnDay] is false exactly when the next day of the weekday
    cycle carries a long or progression run; consequently
    [scheduleStrengthForWeek] never assigns a strength session to a day whose
    following day carries a long or progression run. *)
Theorem no_strength_before_long_run :
  (forall day ww,
      canLiftOnDay day ww = false
      <-> exists runType, JsMap.get (getNextDay day) ww = Some runType
                          /\ (runType = long \/ runType = progression))
  /\ (forall ww prefs phase rec day,
        is_Some (JsMap.get day (scheduleStrengthForWeek ww prefs phase rec)) ->
        ~ exists runType, JsMap.get (getNextDay day) ww = Some runType
                          /\ (runType = long \/ runType = progression)).
Proof.
  assert (Hcarries : forall day ww,
    carries ww (getNextDay day) isLongRun
    <-> exists runType, JsMap.get (getNextDay day) ww = Some runType
                        /\ (runType = long \/ runType = progression)).
  { intros day ww. unfold carries.
    split; intros (rt & Hget & Hrt); exists rt; (split; [assumption|]);
      apply isLongRun_true; assumption. }
  split.
  - intros day ww. rewrite canLiftOnDay_false. apply Hcarries.
  - intros ww prefs phase rec day Hsome Hlong.
    apply scheduled_day_sorted in Hsome.
    rewrite sortedDays_Permutation in Hsome. apply availableDays_spec in Hsome.
    apply Hcarries, canLiftOnDay_false in Hlong. congruence.
Qed.


(** C10: the allocations that [scheduleStrengthForWeek] returns hold at most
    one session of type lower_body and, outside recovery weeks and the peak
    phase, at most one of type upper_body. *)
Theorem at_most_one_lower_body ww prefs phase rec :
  (count_values (fun a => alloc_type a = lower_body)
     (scheduleStrengthForWeek ww prefs phase rec) <= 1)%nat
  /\ (rec = false -> phase <> peak ->
      (count_values (fun a => alloc_type a = upper_body)
         (scheduleStrengthForWeek ww prefs phase rec) <= 1)%nat).
Proof.
  split; [apply lower_body_count | intros _ _; apply upper_body_count].
Qed.

End StrengthFacts.

(** C6: the weekly strength target is 1 in a recovery week; otherwise the
    preferred count in the base phase, max(1, preferred - 1) in the build
    phase, min(2, ceil(preferred / 2)) in the peak phase, where the ceiling
    [c] is the integer with 2c - 2 < preferred <= 2c, and 0 in the taper and
    race phases. *)
Theorem strength_target_count (preferred : Z) (phase : Phase) (rec : bool) :
  (rec = true -> getStrengthDaysForPhase preferred phase rec = 1)
  /\ (rec = false ->
      match phase with
      | base => getStrengthDaysForPhase preferred phase rec = preferred
      | build => getStrengthDaysForPhase preferred phase rec = Z.max 1 (preferred - 1)
      | peak => exists c, 2 * c - 2 < preferred <= 2 * c
                          /\ getStrengthDaysForPhase preferred phase rec = Z.min 2 c
      | taper | race => getStrengthDaysForPhase preferred phase rec = 0
      end).
Proof.
  split; intros ->; [reflexivity|].
  destruct phase; try reflexivity.
  exists ((preferred + 1) / 2). split.
  - pose proof (Z.div_mod (preferred + 1) 2 ltac:(lia)).
    pose proof (Z.mod_pos_bound (preferred + 1) 2 ltac:(lia)). lia.
  - unfold getStrengthDaysForPhase. rewrite Qceiling_half. reflexivity.
Qed.

(** ** Calendar days *)

Lemma digit_of_ascii_of_digit (k : Z) :
  0 <= k <= 9 -> digit_of_ascii (ascii_of_digit k) = Some k.
Proof.
  intros Hk.
  assert (Hcases : k = 0 \/ k = 1 \/ k = 2 \/ k = 3 \/ k = 4 \/ k = 5
                   \/ k = 6 \/ k = 7 \/ k = 8 \/ k = 9) by lia.
  repeat (destruct Hcases as [->|Hcases]; [reflexivity|]).
  subst k. reflexivity.
Qed.

Lemma daysInMonth_bounds (y m : Z) : 28 <= daysInMonth y m <= 31.
Proof.
  unfold daysInMonth.
  destruct (m =? 2); [destruct (isLeapYear y); lia|].
  destruct ((m =? 4) || (m =? 6) || (m =? 9) || (m =? 11)); lia.
Qed.

Lemma validDate_spec (d : Date) :
  validDate d = true
  <-> 0 <= year d <= 9999 /\ 1 <= month d <= 12
      /\ 1 <= dayOfMonth d <= daysInMonth (year d) (month d).
Proof.
  unfold validDate. rewrite !andb_true_iff, !Z.leb_le. tauto.
Qed.

Lemma decimal4 (y : Z) :
  0 <= y <= 9999 ->
  0 <= y / 1000 <= 9 /\ 0 <= y / 100 mod 10 <= 9 /\ 0 <= y mod 100 / 10 <= 9
  /\ 0 <= y mod 100 mod 10 <= 9
  /\ 1000 * (y / 1000) + 100 * (y / 100 mod 10) + 10 * (y mod 100 / 10)
     + y mod 100 mod 10 = y.
Proof. intros Hy. Z.to_euclidean_division_equations. lia. Qed.

Lemma decimal2 (m : Z) :
  0 <= m <= 99 ->
  0 <= m / 10 <= 9 /\ 0 <= m mod 10 <= 9 /\ 10 * (m / 10) + m mod 10 = m.
Proof. intros Hm. Z.to_euclidean_division_equations. lia. Qed.

Lemma parseISODate_formatDateISO (d : Date) :
  validDate d = true -> parseISODate (formatDateISO d) = Some d.
Proof.
  intros Hvalid. pose proof Hvalid as Hv.
  apply validDate_spec in Hv. destruct Hv as (Hy & Hm & Hd).
  pose proof (daysInMonth_bounds (year d) (month d)) as Hdim.
  destruct d as [y m dd]. simpl in *.
  destruct (decimal4 y Hy) as (Hy1 & Hy2 & Hy3 & Hy4 & Hyeq).
  destruct (decimal2 m ltac:(lia)) as (Hm1 & Hm2 & Hmeq).
  destruct (decimal2 dd ltac:(lia)) as (Hd1 & Hd2 & Hdeq).
  unfold parseISODate, formatDateISO, pad4, pad2.
  cbv [String.append list_ascii_of_string year month dayOfMonth].
  destruct (decide ("-"%char = "-"%char /\ "-"%char = "-"%char)) as [_|Hn];
    [|exfalso; apply Hn; split; reflexivity].
  rewrite !digit_of_ascii_of_digit by assumption.
  cbn [mbind option_bind].
  rewrite Hyeq, Hmeq, Hdeq, Hvalid. reflexivity.
Qed.

Lemma nextDate_valid (d : Date) :
  validDate d = true -> year d < 9999 ->
  validDate (nextDate d) = true /\ year (nextDate d) <= year d + 1.
Proof.
  rewrite !validDate_spec. intros (Hy & Hm & Hd) Hlt.
  unfold nextDate.
  pose proof (daysInMonth_bounds (year d) (month d + 1)) as Hnext.
  pose proof (daysInMonth_bounds (year d + 1) 1) as Hjan.
  destruct (dayOfMonth d <? daysInMonth (year d) (month d)) eqn:Hday;
    [apply Z.ltb_lt in Hday|destruct (month d <? 12) eqn:Hmonth;
                            [apply Z.ltb_lt in Hmonth|]];
    cbn [year month dayOfMonth];
    generalize dependent (daysInMonth (year d) (month d));
    generalize dependent (daysInMonth (year d) (month d + 1));
    generalize dependent (daysInMonth (year d + 1) 1); intros; lia.
Qed.

Lemma addDays_valid (d : Date) (n : nat) :
  validDate d = true -> year d + Z.of_nat n <= 9999 ->
  validDate (Nat.iter n nextDate d) = true
  /\ year (Nat.iter n nextDate d) <= year d + Z.of_nat n.
Proof.
  intros Hvalid. induction n as [|n IH]; intros Hbound.
  - simpl. split; [assumption | lia].
  - destruct IH as [IHv IHy]; [lia|].
    change (Nat.iter (S n) nextDate d) with (nextDate (Nat.iter n nextDate d)).
    destruct (nextDate_valid (Nat.iter n nextDate d) IHv ltac:(lia)) as [Hv Hy].
    split; [assumption | lia].
Qed.

Lemma getDateForDay_valid (weekStart : Date) (day : DayOfWeek) :
  validWeekStart weekStart = true -> validDate (getDateForDay weekStart day) = true.
Proof.
  unfold validWeekStart. rewrite andb_true_iff, Z.leb_le. intros [Hvalid Hyear].
  unfold getDateForDay, addDays.
  apply addDays_valid; [assumption|]. destruct day; simpl; lia.
Qed.

(** The day of the week that is scanned against the ranges. *)
Lemma isDayBlocked_valid (day : DayOfWeek) (weekStart : Date)
    (blockedDates : list BlockedDateRange) :
  validWeekStart weekStart = true ->
  isDayBlocked day weekStart blockedDates
  = Some (blockedOn weekStart blockedDates day).
Proof.
  intros Hvalid. unfold isDayBlocked, isDateBlocked, toDate.
  rewrite parseISODate_formatDateISO by (apply getDateForDay_valid; assumption).
  reflexivity.
Qed.

(** ** Blocked dates *)

Lemma ascii_compare_digit (a b : Z) :
  0 <= a <= 9 -> 0 <= b <= 9 ->
  Ascii.compare (ascii_of_digit a) (ascii_of_digit b) = (a ?= b).
Proof.
  intros Ha Hb.
  assert (Hcases : forall k, 0 <= k <= 9 ->
            k = 0 \/ k = 1 \/ k = 2 \/ k = 3 \/ k = 4 \/ k = 5
            \/ k = 6 \/ k = 7 \/ k = 8 \/ k = 9) by (intros; lia).
  destruct (Hcases a Ha) as [->|[->|[->|[->|[->|[->|[->|[->|[->| ->]]]]]]]]];
    destruct (Hcases b Hb) as [->|[->|[->|[->|[->|[->|[->|[->|[->| ->]]]]]]]]];
    reflexivity.
Qed.

(** On days of the calendar the order of the ISO strings is the order of
    the days. *)
Lemma str_le_formatDateISO (d1 d2 : Date) :
  validDate d1 = true -> validDate d2 = true ->
  str_le (formatDateISO d1) (formatDateISO d2) = date_leb d1 d2.
Proof.
  intros Hv1 Hv2.
  apply validDate_spec in Hv1 as (Hy1 & Hm1 & Hd1).
  apply validDate_spec in Hv2 as (Hy2 & Hm2 & Hd2).
  pose proof (daysInMonth_bounds (year d1) (month d1)) as Hb1.
  pose proof (daysInMonth_bounds (year d2) (month d2)) as Hb2.
  destruct d1 as [y1 m1 dd1], d2 as [y2 m2 dd2]. cbn [year month dayOfMonth] in *.
  generalize dependent (daysInMonth y1 m1). generalize dependent (daysInMonth y2 m2).
  intros dim2 Hd2 Hb2 dim1 Hd1 Hb1.
  destruct (decimal4 y1 Hy1) as (A1 & A2 & A3 & A4 & Ay).
  destruct (decimal4 y2 Hy2) as (B1 & B2 & B3 & B4 & By).
  destruct (decimal2 m1 ltac:(lia)) as (A5 & A6 & Am).
  destruct (decimal2 m2 ltac:(lia)) as (B5 & B6 & Bm).
  destruct (decimal2 dd1 ltac:(lia)) as (A7 & A8 & Ad).
  destruct (decimal2 dd2 ltac:(lia)) as (B7 & B8 & Bd).
  unfold str_le, String.leb, formatDateISO, pad4, pad2, date_leb.
  cbv [String.append String.compare year month dayOfMonth].
  rewrite !ascii_compare_digit by assumption.
  change (Ascii.compare "-" "-") with Eq. cbv iota.
  repeat match goal with
         | |- context [?a ?= ?b] =>
             let H := fresh "Hc" in
             destruct (Z.compare_spec a b) as [H|H|H]
         end;
    symmetry;
    first [ apply orb_true_iff | apply orb_false_iff ];
    rewrite ?andb_true_iff, ?andb_false_iff, ?orb_true_iff, ?orb_false_iff,
      ?Z.ltb_lt, ?Z.ltb_ge, ?Z.eqb_eq, ?Z.eqb_neq, ?Z.leb_le, ?Z.leb_gt; lia.
Qed.

(** A range between two days of the calendar contains the ISO form of a day
    exactly when the day lies between them. *)
Lemma range_contains_calendar (first last d : Date) (why : option string) :
  validDate first = true -> validDate last = true -> validDate d = true ->
  range_contains {| range_start := formatDateISO first;
                    range_end := formatDateISO last;
                    range_reason := why |} (formatDateISO d)
  = date_leb first d && date_leb d last.
Proof.
  intros Hfirst Hlast Hd. unfold range_contains. cbn [range_start range_end].
  rewrite !str_le_formatDateISO by assumption. reflexivity.
Qed.

Lemma scan_ranges_none (checkStr : string) (blockedDates : list BlockedDateRange) :
  blocked (scan_ranges checkStr blockedDates) = false
  <-> forall range, range ∈ blockedDates -> range_contains range checkStr = false.
Proof.
  induction blockedDates as [|r rs IH]; simpl.
  - split; [intros _ range Hin; inversion Hin | reflexivity].
  - destruct (range_contains r checkStr) eqn:Hr; simpl.
    + split; [discriminate|]. intros Hall.
      rewrite Hall in Hr by apply list_elem_of_here. discriminate.
    + rewrite IH. split.
      * intros Hall range Hin. apply elem_of_cons in Hin as [->|Hin]; auto.
      * intros Hall range Hin. apply Hall, list_elem_of_further, Hin.
Qed.

Lemma scan_ranges_first (checkStr : string) (blockedDates : list BlockedDateRange)
    (i : nat) (range : BlockedDateRange) :
  blockedDates !! i = Some range ->
  range_contains range checkStr = true ->
  (forall j r, (j < i)%nat -> blockedDates !! j = Some r ->
               range_contains r checkStr = false) ->
  scan_ranges checkStr blockedDates
  = {| blocked := true; reason := range_reason range |}.
Proof.
  revert i. induction blockedDates as [|r rs IH]; intros i Hi Hin Hbefore.
  - discriminate.
  - destruct i as [|i]; simpl in *.
    + injection Hi as ->. rewrite Hin. reflexivity.
    + rewrite (Hbefore 0%nat r) by (reflexivity || lia).
      apply (IH i); [assumption | assumption |].
      intros j r' Hj Hr'. apply (Hbefore (S j) r'); [lia | assumption].
Qed.

(** C8: on a valid ISO date and any list of ranges, [isDateBlocked] returns
    (it raises nothing) blocked = true with the reason of the first range in
    list order that contains the date, when a range contains it, and
    blocked = false when no range contains it. *)
Theorem first_containing_range_wins (date : string)
    (blockedDates : list BlockedDateRange) :
  validISODate date ->
  exists result,
    isDateBlocked (inl date) blockedDates = Some result
    /\ (forall i range,
          blockedDates !! i = Some range ->
          range_contains range date = true ->
          (forall j r, (j < i)%nat -> blockedDates !! j = Some r ->
                       range_contains r date = false) ->
          blocked result = true /\ reason result = range_reason range)
    /\ ((exists range, range ∈ blockedDates /\ range_contains range date = true) ->
        blocked result = true)
    /\ ((forall range, range ∈ blockedDates -> range_contains range date = false) ->
        blocked result = false).
Proof.
  intros (d & Hvalid & <-).
  exists (scan_ranges (formatDateISO d) blockedDates). split; [|split; [|split]].
  - unfold isDateBlocked, toDate.
    rewrite parseISODate_formatDateISO by assumption. reflexivity.
  - intros i range Hi Hin Hbefore.
    rewrite (scan_ranges_first _ _ i range Hi Hin Hbefore). split; reflexivity.
  - intros (range & Hin & Hcontains).
    destruct (blocked (scan_ranges (formatDateISO d) blockedDates)) eqn:Hb;
      [reflexivity|].
    rewrite scan_ranges_none in Hb. rewrite Hb in Hcontains by assumption.
    discriminate.
  - apply scan_ranges_none.
Qed.

(** ** Week generator *)

Section WorkoutFacts.
Context {num : Type} `{!JsNumber num}.

Lemma long_workout_run_type (distance : num) paceZones phase isRecovery level :
  isLongRun
    (run_type
       (generateWorkout
          {| param_type := long; param_distance := Some distance;
             param_phase := phase; param_isRecovery := isRecovery;
             param_paceZones := paceZones; param_level := level |})) = true.
Proof. destruct phase, isRecovery; reflexivity. Qed.

Lemma long_workout_distance (distance : num) paceZones phase isRecovery level :
  num_gtb distance (num_lit 0) = true ->
  totalDistance
    (generateWorkout
       {| param_type := long; param_distance := Some distance;
          param_phase := phase; param_isRecovery := isRecovery;
          param_paceZones := paceZones; param_level := level |}) = Some distance.
Proof.
  intros Hgt. apply num_gtb_0_truthy in Hgt.
  unfold generateWorkout, createLongRun, num_or. simpl. rewrite Hgt.
  destruct phase, isRecovery; reflexivity.
Qed.

End WorkoutFacts.

Section WeekFacts.
Context {num : Type} `{!JsNumber num}.
Context (template : WeekTemplate num) (paceZones : PaceZones) (phase : Phase)
  (isRecovery : bool) (level : PlanLevel) (blockedDates : list BlockedDateRange)
  (weekStart : Date).
Context (Hvalid : validWeekStart weekStart = true).

Local Abbreviation B := (blockedOn weekStart blockedDates).
Local Abbreviation sched_t := (JsMap.t (RunningWorkout num)).

Lemma adjustTemplate_valid :
  adjustTemplate template (B (longRunDay template)) weekStart blockedDates
  = Some (adjustedTemplate template weekStart blockedDates).
Proof.
  unfold adjustTemplate, adjustedTemplate.
  destruct (blocked (B (longRunDay template))); [|reflexivity].
  rewrite isDayBlocked_valid by assumption. simpl.
  destruct (blocked (B (altDay template))); reflexivity.
Qed.

Lemma quality_loop_get (qualities : list (QualityDay num)) (s : sched_t) :
  exists s',
    quality_loop paceZones phase isRecovery level blockedDates weekStart qualities s
    = Some s'
    /\ (forall d,
          JsMap.get d s'
          = match last_quality d qualities with
            | Some q => Some (quality_workout paceZones phase isRecovery level q (B d))
            | None => JsMap.get d s
            end)
    /\ (NoDup (JsMap.keys s) -> NoDup (JsMap.keys s')).
Proof.
  revert s. induction qualities as [|q qs IH]; intros s; simpl.
  - exists s. repeat split; auto.
  - rewrite isDayBlocked_valid by assumption. simpl.
    destruct (IH (JsMap.set (quality_day q)
                    (quality_workout paceZones phase isRecovery level q (B (quality_day q))) s))
      as (s' & Hloop & Hget & Hnd).
    exists s'. split; [assumption|]. split.
    + intros d. rewrite Hget.
      destruct (last_quality d qs); [reflexivity|].
      rewrite get_set.
      destruct (decide (quality_day q = d)) as [<-|Hne].
      * destruct (decide (quality_day q = quality_day q)); congruence.
      * destruct (decide (d = quality_day q)); congruence.
    + intros Hs. apply Hnd, NoDup_keys_set, Hs.
Qed.

Lemma easy_loop_get (days : list DayOfWeek) (s : sched_t) :
  exists s',
    easy_loop paceZones phase level blockedDates weekStart days s = Some s'
    /\ (forall d,
          JsMap.get d s'
          = match JsMap.get d s with
            | Some w => Some w
            | None => if decide (d ∈ days)
                      then Some (easy_workout paceZones phase level (B d))
                      else None
            end)
    /\ (NoDup (JsMap.keys s) -> NoDup (JsMap.keys s')).
Proof.
  revert s. induction days as [|day days IH]; intros s; simpl.
  - exists s. repeat split; auto. intros d.
    destruct (JsMap.get d s); [reflexivity|].
    destruct (decide (d ∈ [])) as [Hin|]; [inversion Hin | reflexivity].
  - destruct (JsMap.has day s) eqn:Hhas.
    + destruct (IH s) as (s' & Hloop & Hget & Hnd).
      exists s'. split; [assumption|]. split; [|assumption].
      intros d. rewrite Hget. destruct (JsMap.get d s) eqn:Hd; [reflexivity|].
      assert (d <> day).
      { intros ->. apply has_true, get_Some_keys in Hhas. destruct Hhas. congruence. }
      destruct (decide (d ∈ days)) as [Hin|Hnin];
        destruct (decide (d ∈ day :: days)) as [Hin'|Hnin']; try reflexivity.
      * exfalso. apply Hnin'. apply list_elem_of_further. assumption.
      * apply elem_of_cons in Hin' as [?|?]; contradiction.
    + rewrite isDayBlocked_valid by assumption. simpl.
      destruct (IH (JsMap.set day (easy_workout paceZones phase level (B day)) s))
        as (s' & Hloop & Hget & Hnd).
      exists s'. split; [assumption|]. split.
      * intros d. rewrite Hget, get_set.
        apply has_false in Hhas.
        destruct (decide (d = day)) as [->|Hne].
        -- rewrite Hhas.
           destruct (decide (day ∈ day :: days)) as [|Hn]; [reflexivity|].
           exfalso. apply Hn, list_elem_of_here.
        -- destruct (JsMap.get d s); [reflexivity|].
           destruct (decide (d ∈ days)) as [Hin|Hnin];
             destruct (decide (d ∈ day :: days)) as [Hin'|Hnin']; try reflexivity.
           ++ exfalso. apply Hnin'. apply list_elem_of_further. assumption.
           ++ apply elem_of_cons in Hin' as [?|?]; contradiction.
      * intros Hs. apply Hnd, NoDup_keys_set, Hs.
Qed.

Lemma rest_loop_get (days : list DayOfWeek) (s : sched_t) :
  (forall d,
      JsMap.get d (rest_loop days s)
      = match JsMap.get d s with
        | Some w => Some w
        | None => if decide (d ∈ days) then Some (createRestDay None) else None
        end)
  /\ (NoDup (JsMap.keys s) -> NoDup (JsMap.keys (rest_loop days s))).
Proof.
  revert s. induction days as [|day days IH]; intros s; simpl.
  - split; [|auto]. intros d.
    destruct (JsMap.get d s); [reflexivity|].
    destruct (decide (d ∈ [])) as [Hin|]; [inversion Hin | reflexivity].
  - destruct (JsMap.has day s) eqn:Hhas.
    + destruct (IH s) as (Hget & Hnd). split; [|assumption].
      intros d. rewrite Hget. destruct (JsMap.get d s) eqn:Hd; [reflexivity|].
      assert (d <> day).
      { intros ->. apply has_true, get_Some_keys in Hhas. destruct Hhas. congruence. }
      destruct (decide (d ∈ days)) as [Hin|Hnin];
        destruct (decide (d ∈ day :: days)) as [Hin'|Hnin']; try reflexivity.
      * exfalso. apply Hnin'. apply list_elem_of_further. assumption.
      * apply elem_of_cons in Hin' as [?|?]; contradiction.
    + destruct (IH (JsMap.set day (createRestDay None) s)) as (Hget & Hnd). split.
      * intros d. rewrite Hget, get_set.
        apply has_false in Hhas.
        destruct (decide (d = day)) as [->|Hne].
        -- rewrite Hhas.
           destruct (decide (day ∈ day :: days)) as [|Hn]; [reflexivity|].
           exfalso. apply Hn, list_elem_of_here.
        -- destruct (JsMap.get d s); [reflexivity|].
           destruct (decide (d ∈ days)) as [Hin|Hnin];
             destruct (decide (d ∈ day :: days)) as [Hin'|Hnin']; try reflexivity.
           ++ exfalso. apply Hnin'. apply list_elem_of_further. assumption.
           ++ apply elem_of_cons in Hin' as [?|?]; contradiction.
      * intros Hs. apply Hnd, NoDup_keys_set, Hs.
Qed.

Lemma cross_training_step_get (s : sched_t) :
  exists s',
    cross_training_step template blockedDates weekStart s = Some s'
    /\ (forall d,
          JsMap.get d s'
          = match JsMap.get d s with
            | Some w => Some w
            | None => if decide (crossTrainingDay template = Some d)
                      then Some (cross_workout (B d))
                      else None
            end)
    /\ (NoDup (JsMap.keys s) -> NoDup (JsMap.keys s')).
Proof.
  unfold cross_training_step.
  destruct (crossTrainingDay template) as [day|].
  - destruct (JsMap.has day s) eqn:Hhas; simpl.
    + exists s. split; [reflexivity|]. split; [|auto]. intros d.
      destruct (JsMap.get d s) eqn:Hd; [reflexivity|].
      destruct (decide (Some day = Some d)) as [[= ->]|]; [|reflexivity].
      apply has_true, get_Some_keys in Hhas. destruct Hhas. congruence.
    + rewrite isDayBlocked_valid by assumption. simpl.
      eexists. split; [reflexivity|]. split.
      * intros d. rewrite get_set. apply has_false in Hhas.
        destruct (decide (d = day)) as [->|Hne].
        -- rewrite Hhas. destruct (decide (Some day = Some day)); congruence.
        -- destruct (JsMap.get d s); [reflexivity|].
           destruct (decide (Some day = Some d)); congruence.
      * apply NoDup_keys_set.
  - exists s. split; [reflexivity|]. split; [|auto]. intros d.
    destruct (JsMap.get d s); [reflexivity|].
    destruct (decide (None = Some d)); congruence.
Qed.

Local Abbreviation long_step :=
  (long_run_step template paceZones phase isRecovery level
     (adjustedTemplate template weekStart blockedDates)
     (B (longRunDay template)) JsMap.empty).

(** The schedule of the week: it is returned, it has one entry per key, and
    the entry of a day comes from the last quality slot on the day, else the
    long-run step, else the easy-run, rest and cross-training lists in turn. *)
Lemma generateRunningSchedule_get :
  exists sched,
    generateRunningSchedule template paceZones phase isRecovery level
      blockedDates weekStart = Some sched
    /\ NoDup (JsMap.keys sched)
    /\ forall d,
         JsMap.get d sched
         = match last_quality d (qualityDays template) with
           | Some q => Some (quality_workout paceZones phase isRecovery level q (B d))
           | None =>
               match JsMap.get d long_step with
               | Some w => Some w
               | None =>
                   if decide (d ∈ easyRunDays template)
                   then Some (easy_workout paceZones phase level (B d))
                   else if decide (d ∈ restDays template)
                   then Some (createRestDay None)
                   else if decide (crossTrainingDay template = Some d)
                   then Some (cross_workout (B d))
                   else None
               end
           end.
Proof.
  unfold generateRunningSchedule.
  rewrite isDayBlocked_valid by assumption. simpl.
  rewrite adjustTemplate_valid. simpl.
  destruct (quality_loop_get (qualityDays template) long_step) as (s1 & -> & Hg1 & Hn1).
  simpl.
  destruct (easy_loop_get (easyRunDays template) s1) as (s2 & -> & Hg2 & Hn2).
  simpl.
  destruct (rest_loop_get (restDays template) s2) as (Hg3 & Hn3).
  destruct (cross_training_step_get (rest_loop (restDays template) s2))
    as (s4 & -> & Hg4 & Hn4).
  exists s4. split; [reflexivity|]. split.
  - apply Hn4, Hn3, Hn2, Hn1.
    unfold long_run_step.
    destruct (num_gtb _ _); apply NoDup_keys_set; constructor.
  - intros d. rewrite Hg4, Hg3, Hg2, Hg1.
    destruct (last_quality d (qualityDays template)); [reflexivity|].
    destruct (JsMap.get d long_step); [reflexivity|].
    destruct (decide (d ∈ easyRunDays template)); [reflexivity|].
    destruct (decide (d ∈ restDays template)); reflexivity.
Qed.

Lemma last_quality_Some d (qualities : list (QualityDay num)) :
  is_Some (last_quality d qualities) <-> d ∈ map quality_day qualities.
Proof.
  induction qualities as [|q qs IH]; simpl.
  - split; [intros [? ?]; discriminate | intros Hin; inversion Hin].
  - rewrite elem_of_cons, <- IH.
    destruct (last_quality d qs) as [q'|].
    + split; eauto.
    + destruct (decide (quality_day q = d)) as [<-|Hne].
      * split; eauto.
      * split; [intros [? ?]; discriminate|].
        intros [?|[? ?]]; [congruence | discriminate].
Qed.

Lemma last_quality_day d (qualities : list (QualityDay num)) q :
  last_quality d qualities = Some q -> quality_day q = d.
Proof.
  induction qualities as [|q0 qs IH]; simpl; [discriminate|].
  destruct (last_quality d qs) as [q'|].
  - intros [= ->]. apply IH. reflexivity.
  - destruct (decide (quality_day q0 = d)); [intros [= <-]; assumption | discriminate].
Qed.

Lemma long_step_get d :
  JsMap.get d long_step
  = if decide (d = longRunSlot template weekStart blockedDates)
    then
      if num_gtb (longRunDistance (adjustedTemplate template weekStart blockedDates))
           (num_lit 0)
      then
        let longRun :=
          generateWorkout
            {| param_type := long;
               param_distance :=
                 Some (longRunDistance (adjustedTemplate template weekStart blockedDates));
               param_phase := phase; param_isRecovery := isRecovery;
               param_paceZones := paceZones; param_level := level |} in
        Some (if isRecovery then with_title longRun "Reduced Long Run" else longRun)
      else Some (createRestDay (reason (B (longRunDay template))))
    else None.
Proof.
  unfold long_run_step, longRunSlot.
  destruct (num_gtb _ _); simpl;
    match goal with |- context [decide (d = ?x)] => destruct (decide (d = x)) end;
    try reflexivity.
Qed.

(** C1 (as amended): the schedule is returned with no weekday twice; every
    weekday that the template lists as a quality, easy-run, rest or
    cross-training day, and the day that receives the long run (or the Rest in
    its place), has its workout; so when these days make up the week, the
    schedule holds the seven weekdays, each once. *)
Theorem running_schedule_covers_template_days :
  exists sched,
    generateRunningSchedule template paceZones phase isRecovery level
      blockedDates weekStart = Some sched
    /\ NoDup (JsMap.keys sched)
    /\ (forall d,
          template_lists template d
          \/ d = longRunSlot template weekStart blockedDates ->
          is_Some (JsMap.get d sched))
    /\ ((forall d, template_lists template d
                   \/ d = longRunSlot template weekStart blockedDates) ->
        JsMap.keys sched ≡ₚ DAYS_IN_ORDER).
Proof.
  destruct generateRunningSchedule_get as (sched & Hrun & Hnd & Hget).
  assert (Hcover : forall d,
    template_lists template d \/ d = longRunSlot template weekStart blockedDates ->
    is_Some (JsMap.get d sched)).
  { intros d Hd. rewrite Hget.
    destruct (last_quality d (qualityDays template)) eqn:Hq; [eauto|].
    rewrite long_step_get.
    destruct (decide (d = longRunSlot template weekStart blockedDates)) as [|Hslot].
    { destruct (num_gtb _ _); eauto. }
    destruct Hd as [[Hquality|[Heasy|[Hrest|Hcross]]]|?]; [| | | |contradiction].
    - apply last_quality_Some in Hquality. rewrite Hq in Hquality.
      destruct Hquality. discriminate.
    - destruct (decide (d ∈ easyRunDays template)); [eauto | contradiction].
    - destruct (decide (d ∈ easyRunDays template)); [eauto|].
      destruct (decide (d ∈ restDays template)); [eauto | contradiction].
    - destruct (decide (d ∈ easyRunDays template)); [eauto|].
      destruct (decide (d ∈ restDays template)); [eauto|].
      destruct (decide (crossTrainingDay template = Some d)); [eauto | contradiction]. }
  exists sched. repeat split; try assumption.
  intros Hall. apply NoDup_Permutation; [assumption | apply NoDup_DAYS_IN_ORDER |].
  intros d. split; intros _; [apply elem_of_DAYS_IN_ORDER|].
  apply get_Some_keys, Hcover, Hall.
Qed.

(** C2 (as amended): if the long-run day of the template is blocked, the
    paired weekend alternate (Saturday for a Sunday long run, Sunday
    otherwise) is not blocked, the long-run distance is above zero and no
    quality session sits on the alternate day, then the schedule has the long
    run (type long or progression) on the alternate day at the distance of
    the template.  A workout carries no adjustment record. *)
Theorem blocked_long_run_moves_to_alternate (r1 r2 : BlockedResult) :
  isDayBlocked (longRunDay template) weekStart blockedDates = Some r1 ->
  blocked r1 = true ->
  isDayBlocked (altDay template) weekStart blockedDates = Some r2 ->
  blocked r2 = false ->
  num_gtb (longRunDistance template) (num_lit 0) = true ->
  altDay template ∉ map quality_day (qualityDays template) ->
  exists sched longRun,
    generateRunningSchedule template paceZones phase isRecovery level
      blockedDates weekStart = Some sched
    /\ JsMap.get (altDay template) sched = Some longRun
    /\ isLongRun (run_type longRun) = true
    /\ totalDistance longRun = Some (longRunDistance template).
Proof.
  rewrite !isDayBlocked_valid by assumption.
  intros [= <-] Hlong [= <-] Halt Hgt Hquality.
  destruct generateRunningSchedule_get as (sched & Hrun & _ & Hget).
  assert (Hadj : adjustedTemplate template weekStart blockedDates
                 = with_longRunDay template (altDay template)).
  { unfold adjustedTemplate. rewrite Hlong, Halt. reflexivity. }
  assert (Hslot : longRunSlot template weekStart blockedDates = altDay template).
  { unfold longRunSlot. rewrite Hadj. simpl. rewrite Hgt. reflexivity. }
  specialize (Hget (altDay template)).
  destruct (last_quality (altDay template) (qualityDays template)) eqn:Hq.
  { exfalso. apply Hquality, last_quality_Some. eauto. }
  rewrite long_step_get, Hslot, Hadj in Hget. simpl in Hget. rewrite Hgt in Hget.
  destruct (decide (altDay template = altDay template)); [|congruence].
  eexists sched, _. split; [assumption|]. split; [exact Hget|].
  destruct isRecovery; simpl;
    (split; [apply long_workout_run_type | apply long_workout_distance, Hgt]).
Qed.

(** A blocked day that is the slot of the long run is the long-run day of
    the template, and the week has no long run. *)
Lemma blocked_slot d :
  blocked (B d) = true ->
  d = longRunSlot template weekStart blockedDates ->
  d = longRunDay template
  /\ num_gtb (longRunDistance (adjustedTemplate template weekStart blockedDates))
       (num_lit 0) = false.
Proof.
  intros Hblocked ->. revert Hblocked. unfold longRunSlot, adjustedTemplate.
  destruct (blocked (B (longRunDay template))) eqn:Hlong.
  - destruct (blocked (B (altDay template))) eqn:Halt; simpl.
    + rewrite num_gtb_irrefl. auto.
    + destruct (num_gtb (longRunDistance template) (num_lit 0)); simpl; [|auto].
      congruence.
  - destruct (num_gtb (longRunDistance template) (num_lit 0)); [congruence | auto].
Qed.

(** A blocked quality day holds the easy run that is one unit shorter than the
    default easy run, titled with the reason of the range. *)
Lemma blocked_quality_day sched d :
  generateRunningSchedule template paceZones phase isRecovery level
    blockedDates weekStart = Some sched ->
  blocked (B d) = true ->
  d ∈ map quality_day (qualityDays template) ->
  JsMap.get d sched
  = Some (createEasyRun (getDefaultEasyDistance level phase -^ num_lit 1)%num paceZones
            (Some ("Easy Run (adjusted: " ++ text_of (reason (B d)) ++ ")")%string)).
Proof.
  destruct generateRunningSchedule_get as (sched' & -> & _ & Hget).
  intros [= <-] Hblocked Hquality. rewrite Hget.
  apply last_quality_Some in Hquality as [q ->].
  unfold quality_workout. rewrite Hblocked. reflexivity.
Qed.

(** A blocked day holds a Rest or, on a quality day only, an easy run. *)
Lemma blocked_day_rest_or_easy sched d w :
  generateRunningSchedule template paceZones phase isRecovery level
    blockedDates weekStart = Some sched ->
  blocked (B d) = true ->
  JsMap.get d sched = Some w ->
  run_type w = rest
  \/ (run_type w = easy /\ d ∈ map quality_day (qualityDays template)).
Proof.
  destruct generateRunningSchedule_get as (sched' & -> & _ & Hget).
  intros [= <-] Hblocked. rewrite Hget.
  destruct (last_quality d (qualityDays template)) as [q|] eqn:Hq.
  { unfold quality_workout. rewrite Hblocked. intros [= <-]. right.
    split; [reflexivity|]. apply last_quality_Some. eauto. }
  rewrite long_step_get.
  destruct (decide (d = longRunSlot template weekStart blockedDates)) as [Hslot|_].
  { destruct (blocked_slot d Hblocked Hslot) as [_ ->].
    intros [= <-]. left. reflexivity. }
  unfold easy_workout, cross_workout. rewrite Hblocked.
  destruct (decide (d ∈ easyRunDays template)); [intros [= <-]; left; reflexivity|].
  destruct (decide (d ∈ restDays template)); [intros [= <-]; left; reflexivity|].
  destruct (decide (crossTrainingDay template = Some d));
    [intros [= <-]; left; reflexivity | discriminate].
Qed.

(** A blocked easy-run or cross-training day that is not a quality day holds
    the Rest that carries the reason of the range, also when it is the
    long-run day or its weekend alternate. *)
Lemma blocked_day_rest_reason sched d :
  generateRunningSchedule template paceZones phase isRecovery level
    blockedDates weekStart = Some sched ->
  blocked (B d) = true ->
  d ∉ map quality_day (qualityDays template) ->
  d ∈ easyRunDays template
  \/ ((d ∉ restDays template) /\ crossTrainingDay template = Some d) ->
  JsMap.get d sched = Some (createRestDay (reason (B d))).
Proof.
  destruct generateRunningSchedule_get as (sched' & -> & _ & Hget).
  intros [= <-] Hblocked Hquality Hlisted. rewrite Hget.
  destruct (last_quality d (qualityDays template)) eqn:Hq.
  { exfalso. apply Hquality, last_quality_Some. eauto. }
  rewrite long_step_get.
  destruct (decide (d = longRunSlot template weekStart blockedDates)) as [Hslot|_].
  { destruct (blocked_slot d Hblocked Hslot) as [Hday ->].
    rewrite <- Hday. reflexivity. }
  unfold easy_workout, cross_workout. rewrite Hblocked.
  destruct (decide (d ∈ easyRunDays template)); [reflexivity|].
  destruct Hlisted as [?|[Hrest Hcross]]; [contradiction|].
  destruct (decide (d ∈ restDays template)); [contradiction|].
  destruct (decide (crossTrainingDay template = Some d)); [reflexivity | contradiction].
Qed.

End WeekFacts.

(** ** Week totals *)

Section TotalsFacts.
Context {num : Type} `{!JsNumber num}.
Local Open Scope num_scope.

Lemma totals_fold (workouts : list (RunningWorkout num)) (mileage minutes : num) :
  fold_left totals_step workouts (mileage, minutes)
  = (fold_left num_add (omap (fun w => counted (totalDistance w)) workouts) mileage,
     fold_left num_add (omap (fun w => counted (estimatedDuration w)) workouts) minutes).
Proof.
  revert mileage minutes.
  induction workouts as [|w ws IH]; intros mileage minutes; [reflexivity|].
  cbn [fold_left omap].
  assert (Hstep : totals_step (mileage, minutes) w
                  = (match counted (totalDistance w) with
                     | Some d => mileage +^ d | None => mileage end,
                     match counted (estimatedDuration w) with
                     | Some m => minutes +^ m | None => minutes end)).
  { unfold totals_step, counted.
    destruct (totalDistance w) as [d|], (estimatedDuration w) as [m|];
      try destruct (num_truthy d); try destruct (num_truthy m); reflexivity. }
  rewrite Hstep, IH.
  destruct (counted (totalDistance w)) eqn:Hd, (counted (estimatedDuration w)) eqn:Hm;
    simpl; rewrite ?Hd, ?Hm; reflexivity.
Qed.

(** C9: the total mileage is the sum of the distances of the running
    workouts, rounded to one decimal, and the total hours are the sum of the
    estimated minutes plus 30 minutes per strength session, divided by 60 and
    rounded to one decimal.  The sums run over the workouts in the order of
    the schedule; a distance or duration that is undefined, 0 or NaN does
    not count. *)
Theorem week_totals (runningSchedule : JsMap.t (RunningWorkout num))
    (strengthDays : num) (paceZones : PaceZones) :
  totalMileage (calculateWeekTotals runningSchedule strengthDays paceZones)
  = round1 (sum_num (omap (fun w => counted (totalDistance w))
                       (JsMap.values runningSchedule)))
  /\ totalHours (calculateWeekTotals runningSchedule strengthDays paceZones)
     = round1 ((sum_num (omap (fun w => counted (estimatedDuration w))
                           (JsMap.values runningSchedule))
                +^ strengthDays *^ num_lit 30) /^ num_lit 60).
Proof.
  unfold calculateWeekTotals. rewrite totals_fold. split; reflexivity.
Qed.

End TotalsFacts.

(** ** The properties on concrete weeks *)

Import Examples.

(** C4 (as amended): a blocked range has a start, an end and a reason, no
    kind and no activity.  On a day that a range covers, the running
    assignment is never CrossTraining: it is a Rest or, on a quality day only,
    an easy run.  On a quality day it is the easy run one unit shorter than
    the default easy run of the level and phase, titled
    "Easy Run (adjusted: <reason>)".  On an easy-run day, or on the
    cross-training day when it is not a rest day, that is not a quality day,
    it is the Rest that carries the reason of the range.  The strength
    scheduler is not given the ranges, and a strength session may be produced
    for such a day, as on the Saturday of the skiing week. *)
Theorem blocked_day_is_rest_or_easy_run :
  (forall (num : Type) (N : JsNumber num) (template : WeekTemplate num)
          paceZones phase isRecovery level blockedDates weekStart d r,
      validWeekStart weekStart = true ->
      isDayBlocked d weekStart blockedDates = Some r ->
      blocked r = true ->
      exists sched,
        generateRunningSchedule template paceZones phase isRecovery level
          blockedDates weekStart = Some sched
        /\ (forall w, JsMap.get d sched = Some w ->
                      run_type w <> cross_training
                      /\ (run_type w = rest
                          \/ (run_type w = easy
                              /\ d ∈ map quality_day (qualityDays template))))
        /\ (d ∈ map quality_day (qualityDays template) ->
            JsMap.get d sched
            = Some (createEasyRun
                      (getDefaultEasyDistance level phase -^ num_lit 1)%num paceZones
                      (Some ("Easy Run (adjusted: " ++ text_of (reason r) ++ ")")%string)))
        /\ (d ∉ map quality_day (qualityDays template) ->
            d ∈ easyRunDays template
            \/ ((d ∉ restDays template) /\ crossTrainingDay template = Some d) ->
            JsMap.get d sched = Some (createRestDay (reason r))))
  /\ (exists sched r alloc,
        generateRunningSchedule base_week2 paces base false moderate
          skiing_trip monday_2026_03_02 = Some sched
        /\ isDayBlocked saturday monday_2026_03_02 skiing_trip = Some r
        /\ blocked r = true
        /\ JsMap.get saturday (weekStrengthAllocations sched (tue_thu_sat 3) base false)
           = Some alloc).
Proof.
  split.
  - intros num N template paceZones phase isRecovery level blockedDates weekStart
      d r Hvalid Hday Hblocked.
    rewrite isDayBlocked_valid in Hday by assumption. injection Hday as <-.
    destruct (generateRunningSchedule_get template paceZones phase isRecovery level
                blockedDates weekStart Hvalid) as (sched & Hrun & _).
    exists sched. split; [assumption|]. split; [|split].
    + intros w Hw.
      destruct (blocked_day_rest_or_easy template paceZones phase isRecovery level
                  blockedDates weekStart Hvalid sched d w Hrun Hblocked Hw)
        as [Hrest|[Heasy Hquality]].
      * split; [congruence | left; assumption].
      * split; [congruence | right; split; assumption].
    + intros. eapply blocked_quality_day; eassumption.
    + intros. eapply blocked_day_rest_reason; eassumption.
  - eexists _, _, _. split; [vm_compute; reflexivity|].
    split; [vm_compute; reflexivity|]. split; vm_compute; reflexivity.
Qed.

(** C1 fails as stated: a template that names the long-run day only leaves
    Monday without a workout, and the second base week with its Sunday blocked
    has six entries and none for Sunday. *)
Lemma running_schedule_coverage_counterexample :
  (exists sched,
      generateRunningSchedule long_run_only paces base false moderate []
        monday_2026_03_02 = Some sched
      /\ JsMap.get monday sched = None)
  /\ (exists sched,
        generateRunningSchedule base_week2 paces base false moderate
          sunday_blocked monday_2026_03_02 = Some sched
        /\ JsMap.size sched = 6%nat
        /\ JsMap.get sunday sched = None).
Proof.
  split; eexists; (split; [vm_compute; reflexivity|]); vm_compute; auto.
Qed.

Lemma running_schedule_covers_template_days_witness :
  exists sched,
    generateRunningSchedule base_week2 paces base false moderate
      sunday_blocked monday_2026_03_02 = Some sched
    /\ NoDup (JsMap.keys sched)
    /\ (forall d,
          template_lists base_week2 d
          \/ d = longRunSlot base_week2 monday_2026_03_02 sunday_blocked ->
          is_Some (JsMap.get d sched))
    /\ ((forall d, template_lists base_week2 d
                   \/ d = longRunSlot base_week2 monday_2026_03_02 sunday_blocked) ->
        JsMap.keys sched ≡ₚ DAYS_IN_ORDER).
Proof.
  apply (running_schedule_covers_template_days base_week2 paces base false moderate
           sunday_blocked monday_2026_03_02).
  reflexivity.
Defined.

(** C2 fails as stated: with the Sunday of the second base week blocked and
    its Saturday free, the long run moves to Saturday, but Sunday, the
    original long-run day, has no entry in the schedule, where the claim has
    a Rest that carries the reason. *)
Lemma blocked_long_run_counterexample :
  isDayBlocked (longRunDay base_week2) monday_2026_03_02 sunday_blocked
  = Some {| blocked := true; reason := Some "Family event"%string |}
  /\ isDayBlocked (altDay base_week2) monday_2026_03_02 sunday_blocked
     = Some {| blocked := false; reason := None |}
  /\ exists sched longRun,
       generateRunningSchedule base_week2 paces base false moderate
         sunday_blocked monday_2026_03_02 = Some sched
       /\ JsMap.get saturday sched = Some longRun
       /\ run_type longRun = long
       /\ JsMap.get sunday sched = None.
Proof.
  split; [vm_compute; reflexivity|]. split; [vm_compute; reflexivity|].
  eexists _, _. split; [vm_compute; reflexivity|].
  split; [vm_compute; reflexivity|]. split; vm_compute; reflexivity.
Qed.

Lemma blocked_long_run_moves_to_alternate_witness :
  exists sched longRun,
    generateRunningSchedule base_week2 paces base false moderate
      sunday_blocked monday_2026_03_02 = Some sched
    /\ JsMap.get (altDay base_week2) sched = Some longRun
    /\ isLongRun (run_type longRun) = true
    /\ totalDistance longRun = Some (longRunDistance base_week2).
Proof.
  apply (blocked_long_run_moves_to_alternate base_week2 paces base false moderate
           sunday_blocked monday_2026_03_02 eq_refl
           {| blocked := true; reason := Some "Family event"%string |}
           {| blocked := false; reason := None |});
    try reflexivity.
  apply (bool_decide_unpack _). vm_compute. exact I.
Defined.

(** The run types of the second base week, as the week generator hands them
    to the strength scheduler. *)
Lemma base_week2_types_generated :
  option_map workoutTypes
    (generateRunningSchedule base_week2 paces base false moderate []
       monday_2026_03_02)
  = Some base_week2_types.
Proof. vm_compute. reflexivity. Qed.

(** C3 fails as stated: [canDoHeavyLegs] accepts a day whose day after next
    carries a speed-type run (Sunday of the standard week, tempo on
    Tuesday), so a lower_body session lands there; and in the peak phase the
    first session is lower_body whatever the neighbouring days carry (Monday,
    the eve of the tempo run). *)
Lemma heavy_legs_buffer_counterexample :
  (carries base_week2_types (getNextDay (getNextDay sunday)) isSpeedWorkout
   /\ canDoHeavyLegs sunday base_week2_types = true
   /\ exists a,
        JsMap.get sunday
          (scheduleStrengthForWeek (num:=Q) base_week2_types (prefers sunday 1) base false)
        = Some a
        /\ alloc_type a = lower_body)
  /\ (carries base_week2_types (getNextDay monday) isSpeedWorkout
      /\ exists a,
           JsMap.get monday
             (scheduleStrengthForWeek (num:=Q) base_week2_types (prefers monday 2) peak false)
           = Some a
           /\ alloc_type a = lower_body).
Proof.
  split.
  - split; [exists tempo; split; reflexivity|].
    split; [reflexivity|]. eexists. split; vm_compute; reflexivity.
  - split; [exists tempo; split; reflexivity|].
    eexists. split; vm_compute; reflexivity.
Qed.

Lemma lower_body_clear_of_adjacent_speed_witness :
  ~ carries base_week2_types (getPreviousDay tuesday) isSpeedWorkout
  /\ ~ carries base_week2_types (getNextDay tuesday) isSpeedWorkout.
Proof.
  apply (proj2 (lower_body_clear_of_adjacent_speed (num:=Q))
           base_week2_types (tue_thu_sat 3) base false tuesday
           {| alloc_day := tuesday; alloc_type := lower_body;
              alloc_timing := "After run"; alloc_duration := 40%Q;
              alloc_notes := None |}).
  - right. discriminate.
  - vm_compute. reflexivity.
  - reflexivity.
Defined.

(** C4 fails as stated: the Saturday of the skiing trip, the cross-training
    day of the template, gets a Rest with the reason of the range, not a
    CrossTraining assignment. *)
Lemma blocked_cross_training_counterexample :
  exists sched,
    generateRunningSchedule base_week2 paces base false moderate
      skiing_trip monday_2026_03_02 = Some sched
    /\ JsMap.get saturday sched = Some (createRestDay (Some "Skiing"%string))
    /\ run_type (createRestDay (num:=Q) (Some "Skiing"%string)) <> cross_training.
Proof.
  eexists. split; [vm_compute; reflexivity|]. split; [reflexivity | discriminate].
Qed.

(** On the week of travel the tempo Tuesday holds the adjusted easy run of
    three miles, and the Saturday, the cross-training day and the weekend
    alternate of the long run, holds the Rest with the reason. *)
Lemma blocked_day_is_rest_or_easy_run_witness :
  (exists sched,
      generateRunningSchedule base_week2 paces base false moderate
        travel_week monday_2026_03_02 = Some sched
      /\ JsMap.get tuesday sched
         = Some (createEasyRun (4 - 1)%Q paces
                   (Some "Easy Run (adjusted: Travel)"%string)))
  /\ (exists sched,
        generateRunningSchedule base_week2 paces base false moderate
          travel_week monday_2026_03_02 = Some sched
        /\ JsMap.get saturday sched = Some (createRestDay (Some "Travel"%string))).
Proof.
  split.
  - destruct (proj1 blocked_day_is_rest_or_easy_run Q _ base_week2 paces base false
                moderate travel_week monday_2026_03_02 tuesday
                {| blocked := true; reason := Some "Travel"%string |}
                eq_refl eq_refl eq_refl)
      as (sched & Hrun & _ & Hquality & _).
    exists sched. split; [exact Hrun|].
    apply Hquality. apply (bool_decide_unpack _). vm_compute. exact I.
  - destruct (proj1 blocked_day_is_rest_or_easy_run Q _ base_week2 paces base false
                moderate travel_week monday_2026_03_02 saturday
                {| blocked := true; reason := Some "Travel"%string |}
                eq_refl eq_refl eq_refl)
      as (sched & Hrun & _ & _ & Hrest).
    exists sched. split; [exact Hrun|].
    apply Hrest.
    + apply (bool_decide_unpack _). vm_compute. exact I.
    + right. split; [|reflexivity]. apply (bool_decide_unpack _). vm_compute. exact I.
Defined.


(** Scenario 4: a target of three sessions and two eligible days give two
    allocations. *)
Lemma three_sessions_two_days :
  getStrengthDaysForPhase 3 base false = 3
  /\ length (filter (fun day => canLiftOnDay day five_long_runs = true) DAYS_IN_ORDER)
     = 2%nat
  /\ JsMap.size (scheduleStrengthForWeek (num:=Q) five_long_runs (tue_thu_sat 3)
                   base false) = 2%nat.
Proof. repeat split; vm_compute; reflexivity. Qed.

Lemma first_containing_range_wins_witness :
  exists result,
    isDateBlocked (inl "2026-03-07"%string) (sunday_blocked ++ skiing_trip) = Some result
    /\ (forall i range,
          (sunday_blocked ++ skiing_trip) !! i = Some range ->
          range_contains range "2026-03-07" = true ->
          (forall j r, (j < i)%nat -> (sunday_blocked ++ skiing_trip) !! j = Some r ->
                       range_contains r "2026-03-07" = false) ->
          blocked result = true /\ reason result = range_reason range)
    /\ ((exists range, range ∈ sunday_blocked ++ skiing_trip
                       /\ range_contains range "2026-03-07" = true) ->
        blocked result = true)
    /\ ((forall range, range ∈ sunday_blocked ++ skiing_trip ->
                       range_contains range "2026-03-07" = false) ->
        blocked result = false).
Proof.
  apply (first_containing_range_wins "2026-03-07" (sunday_blocked ++ skiing_trip)).
  exists {| year := 2026; month := 3; dayOfMonth := 7 |}. split; reflexivity.
Defined.

Lemma no_strength_before_long_run_witness :
  ~ exists runType,
      JsMap.get (getNextDay tuesday) base_week2_types = Some runType
      /\ (runType = long \/ runType = progression).
Proof.
  apply (proj2 (no_strength_before_long_run (num:=Q))
           base_week2_types (tue_thu_sat 3) base false tuesday).
  vm_compute. eauto.
Defined.

Lemma strength_target_count_witness :
  getStrengthDaysForPhase 3 build false = Z.max 1 (3 - 1)
  /\ exists c, 2 * c - 2 < 3 <= 2 * c
               /\ getStrengthDaysForPhase 3 peak false = Z.min 2 c.
Proof.
  split.
  - apply (proj2 (strength_target_count 3 build false) eq_refl).
  - apply (proj2 (strength_target_count 3 peak false) eq_refl).
Defined.

Lemma at_most_one_lower_body_witness :
  (count_values (fun a => alloc_type a = upper_body)
     (scheduleStrengthForWeek (num:=Q) base_week2_types (tue_thu_sat 3) base false)
   <= 1)%nat.
Proof.
  apply (proj2 (at_most_one_lower_body (num:=Q) base_week2_types (tue_thu_sat 3)
                  base false) eq_refl).
  discriminate.
Defined.

(** * Further properties *)

(** ** Day ring *)

(** X1: [getNextDay] undoes [getPreviousDay], and the days form one cycle of
    length seven: seven steps forward come back to the day, fewer do not. *)
Theorem day_ring_cycle (day : DayOfWeek) :
  getNextDay (getPreviousDay day) = day
  /\ Nat.iter 7 getNextDay day = day
  /\ forall k, (0 < k < 7)%nat -> Nat.iter k getNextDay day <> day.
Proof.
  split; [destruct day; vm_compute; reflexivity|].
  split; [destruct day; vm_compute; reflexivity|].
  intros k Hk.
  assert (Hcases : k = 1%nat \/ k = 2%nat \/ k = 3%nat \/ k = 4%nat
                   \/ k = 5%nat \/ k = 6%nat) by lia.
  destruct Hcases as [->|[->|[->|[->|[->| ->]]]]]; destruct day; vm_compute;
    discriminate.
Qed.

(** ** Strength scheduler *)

Lemma sort_insert_sorted {A} (key : A -> Z) (x : A) (l : list A) :
  StronglySorted (fun a b => key a <= key b) l ->
  StronglySorted (fun a b => key a <= key b)
    (sort_insert (fun a b => key a - key b) x l).
Proof.
  induction l as [|y l IH]; intros Hsorted; simpl.
  - repeat constructor.
  - apply StronglySorted_inv in Hsorted as [Hl Hy].
    destruct (key y - key x <=? 0) eqn:Hcmp.
    + apply Z.leb_le in Hcmp. constructor; [apply IH, Hl|].
      apply Forall_forall. intros z Hz.
      rewrite (sort_insert_Permutation _ x l) in Hz.
      apply elem_of_cons in Hz as [->|Hz]; [lia|].
      rewrite Forall_forall in Hy. apply Hy, Hz.
    + apply Z.leb_gt in Hcmp. constructor; [constructor; assumption|].
      constructor; [lia|]. rewrite Forall_forall in Hy |- *.
      intros z Hz. specialize (Hy z Hz). lia.
Qed.

Lemma StronglySorted_lookup {A} (R : relation A) (l : list A) i j x y :
  StronglySorted R l -> (i < j)%nat -> l !! i = Some x -> l !! j = Some y -> R x y.
Proof.
  intros Hsorted. revert i j. induction Hsorted as [|a l Hl IH Ha]; intros i j Hij Hi Hj.
  - discriminate.
  - destruct j as [|j]; [lia|]. simpl in Hj. destruct i as [|i]; simpl in Hi.
    + injection Hi as ->. rewrite Forall_forall in Ha.
      apply Ha. eapply list_elem_of_lookup_2, Hj.
    + apply (IH i j); [lia | assumption | assumption].
Qed.

Lemma sort_sorted {A} (key : A -> Z) (l : list A) :
  StronglySorted (fun a b => key a <= key b) (sort (fun a b => key a - key b) l).
Proof.
  unfold sort.
  assert (Hgen : forall acc,
    StronglySorted (fun a b => key a <= key b) acc ->
    StronglySorted (fun a b => key a <= key b)
      (fold_left (fun acc x => sort_insert (fun a b => key a - key b) x acc) l acc)).
  { induction l as [|x l IH]; intros acc Hacc; simpl; [assumption|].
    apply IH, sort_insert_sorted, Hacc. }
  apply Hgen. constructor.
Qed.

Section PreferredDays.
Context {num : Type} `{!JsNumber num}.
Implicit Types (ww : JsMap.t RunType) (st : AllocState num).

(** The loop allocates the leading days of the candidates. *)
Lemma allocate_loop_keys ww phase rec target days st :
  NoDup days ->
  (forall day, day ∈ days -> JsMap.get day (allocations st) = None) ->
  JsMap.keys (allocations (allocate_loop ww phase rec target days st))
  = JsMap.keys (allocations st)
    ++ take (Z.to_nat (target - sessionsScheduled st)) days.
Proof.
  revert st. induction days as [|day days IH]; intros st Hnd Hfresh; simpl allocate_loop.
  - rewrite take_nil, app_nil_r. reflexivity.
  - destruct (target <=? sessionsScheduled st) eqn:Hle.
    + apply Z.leb_le in Hle.
      replace (Z.to_nat (target - sessionsScheduled st)) with 0%nat by lia.
      simpl. rewrite app_nil_r. reflexivity.
    + apply Z.leb_gt in Hle. apply list.NoDup_cons in Hnd as [Hnotin Hnd].
      destruct (allocate_day_allocations ww phase rec day st) as (a & Ha & Hs & _).
      rewrite IH; [|assumption|].
      * rewrite Ha, Hs, keys_set.
        assert (Hhas : JsMap.has day (allocations st) = false)
          by (apply has_false, Hfresh, list_elem_of_here).
        rewrite Hhas.
        replace (Z.to_nat (target - sessionsScheduled st))
          with (S (Z.to_nat (target - (sessionsScheduled st + 1)))) by lia.
        simpl. rewrite <- app_assoc. reflexivity.
      * intros d Hd. rewrite Ha, get_set_ne.
        -- apply Hfresh, list_elem_of_further, Hd.
        -- intros ->. contradiction.
Qed.

Lemma scheduled_keys ww prefs phase rec :
  JsMap.keys (scheduleStrengthForWeek ww prefs phase rec)
  = take (Z.to_nat (getStrengthDaysForPhase (daysPerWeek prefs) phase rec))
      (sortedDays ww prefs).
Proof.
  unfold scheduleStrengthForWeek.
  destruct (getStrengthDaysForPhase (daysPerWeek prefs) phase rec =? 0) eqn:Hzero.
  - apply Z.eqb_eq in Hzero. rewrite Hzero. reflexivity.
  - rewrite allocate_loop_keys; [|apply NoDup_sortedDays|reflexivity].
    simpl. rewrite Z.sub_0_r. reflexivity.
Qed.

(** X2: the preferred days are served first: when a day outside the preferred
    days of the athlete gets a strength session, every preferred day that
    passes [canLiftOnDay] has one. *)
Theorem preferred_days_first ww prefs phase rec (day other : DayOfWeek) :
  day ∈ preferredDays prefs ->
  canLiftOnDay day ww = true ->
  other ∉ preferredDays prefs ->
  is_Some (JsMap.get other (scheduleStrengthForWeek ww prefs phase rec)) ->
  is_Some (JsMap.get day (scheduleStrengthForWeek ww prefs phase rec)).
Proof.
  intros Hpref Hlift Hother Hsome.
  apply get_Some_keys. apply get_Some_keys in Hsome.
  rewrite scheduled_keys in *.
  set (n := Z.to_nat (getStrengthDaysForPhase (daysPerWeek prefs) phase rec)) in *.
  assert (Hin : day ∈ sortedDays ww prefs).
  { rewrite sortedDays_Permutation. apply availableDays_spec, Hlift. }
  pose proof (sort_sorted (preferred_rank (preferredDays prefs)) (availableDays ww))
    as Hsorted.
  fold (sortedDays ww prefs) in Hsorted.
  apply list_elem_of_lookup in Hsome as [j Hj].
  apply lookup_take_Some in Hj as [Hj Hjn].
  apply list_elem_of_lookup in Hin as [i Hi].
  apply list_elem_of_lookup. exists i. apply lookup_take_Some. split; [assumption|].
  destruct (decide (i < j)%nat) as [|Hge]; [lia|].
  assert (Hrank : preferred_rank (preferredDays prefs) other
                  <= preferred_rank (preferredDays prefs) day).
  { destruct (decide (i = j)) as [->|Hne]; [congruence|].
    apply (StronglySorted_lookup _ _ j i other day Hsorted); [lia | assumption..]. }
  unfold preferred_rank in Hrank.
  rewrite (bool_decide_eq_true_2 _ Hpref), (bool_decide_eq_false_2 _ Hother) in Hrank.
  lia.
Qed.

End PreferredDays.

Section StrengthInvariants.
Context {num : Type} `{!JsNumber num}.
Implicit Types (ww : JsMap.t RunType) (st : AllocState num).

(** The loop invariant, with the knowledge that a day is new to the map when
    the loop reaches it. *)
Lemma allocate_loop_invariant_fresh (P : AllocState num -> Prop) ww phase rec target
    days st :
  NoDup days ->
  (forall day, day ∈ days -> JsMap.get day (allocations st) = None) ->
  P st ->
  (forall day st', day ∈ days -> JsMap.get day (allocations st') = None ->
     P st' -> sessionsScheduled st' < target ->
     P (allocate_day ww phase rec day st')) ->
  P (allocate_loop ww phase rec target days st).
Proof.
  revert st. induction days as [|day days IH]; intros st Hnd Hfresh Hst Hstep;
    simpl; [assumption|].
  destruct (target <=? sessionsScheduled st) eqn:Hle; [assumption|].
  apply Z.leb_gt in Hle. apply list.NoDup_cons in Hnd as [Hnotin Hnd].
  apply IH.
  - assumption.
  - intros d Hd.
    destruct (allocate_day_allocations ww phase rec day st) as (a & -> & _).
    rewrite get_set_ne; [apply Hfresh, list_elem_of_further, Hd|].
    intros ->. contradiction.
  - apply Hstep; [apply list_elem_of_here | apply Hfresh, list_elem_of_here | assumption..].
  - intros d st' Hd. apply Hstep. apply list_elem_of_further. assumption.
Qed.

(** The invariant on the result of [scheduleStrengthForWeek]. *)
Lemma schedule_invariant (P : AllocState num -> Prop) ww prefs phase rec :
  P {| allocations := JsMap.empty; legsScheduled := false;
       upperScheduled := false; sessionsScheduled := 0 |} ->
  (forall day st', day ∈ sortedDays ww prefs ->
     JsMap.get day (allocations st') = None ->
     P st' -> P (allocate_day ww phase rec day st')) ->
  exists st, scheduleStrengthForWeek ww prefs phase rec = allocations st /\ P st.
Proof.
  intros Hinit Hstep. unfold scheduleStrengthForWeek.
  destruct (getStrengthDaysForPhase (daysPerWeek prefs) phase rec =? 0).
  { eexists. split; [|exact Hinit]. reflexivity. }
  eexists. split; [reflexivity|].
  apply allocate_loop_invariant_fresh; auto using NoDup_sortedDays.
Qed.

(** X3: every allocation sits under its own day, lasts what
    [getStrengthDuration] gives for its type in the phase, and is never a
    mobility session. *)
Theorem allocation_well_formed ww prefs phase rec day a :
  JsMap.get day (scheduleStrengthForWeek ww prefs phase rec) = Some a ->
  alloc_day a = day
  /\ alloc_duration a = getStrengthDuration (alloc_type a) phase rec
  /\ alloc_type a <> mobility.
Proof.
  destruct (schedule_invariant
              (fun st => forall day a, JsMap.get day (allocations st) = Some a ->
                 alloc_day a = day
                 /\ alloc_duration a = getStrengthDuration (alloc_type a) phase rec
                 /\ alloc_type a <> mobility) ww prefs phase rec) as (st & -> & Hst).
  - discriminate.
  - intros d st' _ _ IH day' a'.
    allocate_cases d st'; rewrite get_set;
      (destruct (decide (day' = d)) as [->|Hne]; [|apply IH]);
      intros [= <-]; cbn; try destruct (sessionsScheduled st' =? 0);
      repeat split; try reflexivity; discriminate.
  - apply Hst.
Qed.

(** X4: in a recovery week every session is the light full-body session of 25
    minutes with the recovery note, whatever the phase and the runs of the
    week. *)
Theorem recovery_week_light_full_body ww prefs phase day a :
  JsMap.get day (scheduleStrengthForWeek ww prefs phase true) = Some a ->
  a = {| alloc_day := day; alloc_type := full_body;
         alloc_timing := "Light session"; alloc_duration := num_lit 25;
         alloc_notes := Some "Recovery week - lighter weight, fewer sets"%string |}.
Proof.
  destruct (schedule_invariant
              (fun st => forall day a, JsMap.get day (allocations st) = Some a ->
                 a = {| alloc_day := day; alloc_type := full_body;
                        alloc_timing := "Light session"; alloc_duration := num_lit 25;
                        alloc_notes :=
                          Some "Recovery week - lighter weight, fewer sets"%string |})
              ww prefs phase true) as (st & -> & Hst).
  - discriminate.
  - intros d st' _ _ IH day' a'. unfold allocate_day.
    cbn [allocations]. rewrite get_set.
    destruct (decide (day' = d)) as [->|Hne]; [|apply IH].
    intros [= <-]. reflexivity.
  - apply Hst.
Qed.

(** X5: outside recovery weeks and the peak phase the types follow the
    priority of the loop: when a day with a session passes [canDoHeavyLegs],
    the week has a lower_body session; a core session is given only in a week
    that has an upper_body session; and the timing of a session is
    "After run" on a day with a running entry, "Any time" on a day without. *)
Theorem strength_priority ww prefs phase day a :
  phase <> peak ->
  JsMap.get day (scheduleStrengthForWeek ww prefs phase false) = Some a ->
  (canDoHeavyLegs day ww = true ->
   exists day' a', JsMap.get day' (scheduleStrengthForWeek ww prefs phase false) = Some a'
                   /\ alloc_type a' = lower_body)
  /\ (alloc_type a = core ->
      exists day' a', JsMap.get day' (scheduleStrengthForWeek ww prefs phase false) = Some a'
                      /\ alloc_type a' = upper_body)
  /\ alloc_timing a = timing_of (JsMap.get day ww).
Proof.
  intros Hpeak.
  destruct (schedule_invariant
              (fun st =>
                 (forall day a, JsMap.get day (allocations st) = Some a ->
                    alloc_timing a = timing_of (JsMap.get day ww)
                    /\ (canDoHeavyLegs day ww = true -> legsScheduled st = true)
                    /\ (alloc_type a = core -> upperScheduled st = true))
                 /\ (legsScheduled st = true ->
                     exists day' a', JsMap.get day' (allocations st) = Some a'
                                     /\ alloc_type a' = lower_body)
                 /\ (upperScheduled st = true ->
                     exists day' a', JsMap.get day' (allocations st) = Some a'
                                     /\ alloc_type a' = upper_body))
              ww prefs phase false) as (st & -> & Hall & Hlegs & Hupper).
  - split; [discriminate|]. split; discriminate.
  - intros d st' _ Hfresh (IHall & IHlegs & IHupper).
    assert (Hkeep : forall P : StrengthAllocation num -> Prop, forall x,
      (exists day' a', JsMap.get day' (allocations st') = Some a' /\ P a') ->
      exists day' a', JsMap.get day' (JsMap.set d x (allocations st')) = Some a' /\ P a').
    { intros P x (day' & a' & Hget & HP). exists day', a'. split; [|assumption].
      rewrite get_set_ne; [assumption|]. intros ->. congruence. }
    unfold allocate_day. destruct (decide (phase = peak)); [contradiction|].
    destruct (canDoHeavyLegs d ww) eqn:Hcan;
      destruct (legsScheduled st') eqn:Hl; destruct (upperScheduled st') eqn:Hu;
      cbn [andb negb allocations legsScheduled upperScheduled];
      (split; [|split]);
      try (intros day' a'; rewrite get_set;
           destruct (decide (day' = d)) as [->|Hne];
           [intros [= <-]; cbn; repeat split; congruence
           |intros Hget; destruct (IHall day' a' Hget) as (? & ? & ?);
            repeat split; auto; congruence]);
      try discriminate;
      try (intros _; apply Hkeep; auto; fail);
      intros _; eexists d, _; (split; [apply get_set_eq|]); reflexivity.
  - intros Hget. destruct (Hall day a Hget) as (Htiming & Hcan & Hcore).
    repeat split; auto.
Qed.



(** X7: [checkStrengthConflict] never reports a session of
    [scheduleStrengthForWeek] as lifting before a long run; in a recovery
    week or outside the peak phase it reports no conflict at all. *)
Theorem scheduled_sessions_pass_conflict_check ww prefs phase rec day a :
  JsMap.get day (scheduleStrengthForWeek ww prefs phase rec) = Some a ->
  conflict_reason (checkStrengthConflict day (alloc_type a) ww)
  <> Some "Lifting scheduled day before long run"%string
  /\ (rec = true \/ phase <> peak ->
      checkStrengthConflict day (alloc_type a) ww
      = {| conflict := false; conflict_reason := None |}).
Proof.
  intros Hget.
  assert (Hlift : canLiftOnDay day ww = true).
  { apply availableDays_spec. rewrite <- sortedDays_Permutation.
    eapply scheduled_day_sorted. rewrite Hget. eauto. }
  unfold checkStrengthConflict. unfold canLiftOnDay in Hlift.
  destruct (defined_and (JsMap.get (getNextDay day) ww) isLongRun); [discriminate|].
  split.
  - destruct (bool_decide (alloc_type a = lower_body)
              && negb (canDoHeavyLegs day ww)); discriminate.
  - intros Hmode.
    destruct (bool_decide (alloc_type a = lower_body)) eqn:Hlower; [|reflexivity].
    apply bool_decide_eq_true in Hlower.
    rewrite (lower_body_can_do_legs ww prefs phase rec day a Hmode Hget Hlower).
    reflexivity.
Qed.

End StrengthInvariants.

(** ** Phases and recovery weeks *)

Lemma phaseEnd_bounds (totalWeeks a : Z) :
  15 * phaseEnd totalWeeks (inject_Z a / 15) - 15 < a * totalWeeks
  <= 15 * phaseEnd totalWeeks (inject_Z a / 15).
Proof.
  unfold phaseEnd, Qceiling, Qfloor, Qdiv, Qmult, Qinv, inject_Z, Qopp. simpl.
  rewrite !Z.mul_1_r. change (Z.pos (1 * (1 * 15))) with 15.
  pose proof (Z.div_mod (- (totalWeeks * a)) 15 ltac:(lia)).
  pose proof (Z.mod_pos_bound (- (totalWeeks * a)) 15 ltac:(lia)).
  lia.
Qed.

Lemma getPhaseForWeek_cases (weekNumber totalWeeks : Z) :
  exists baseEnd buildEnd peakEnd,
    (15 * baseEnd - 15 < 4 * totalWeeks <= 15 * baseEnd)
    /\ (15 * buildEnd - 15 < 10 * totalWeeks <= 15 * buildEnd)
    /\ (15 * peakEnd - 15 < 13 * totalWeeks <= 15 * peakEnd)
    /\ phaseEnd totalWeeks (4 / 15) = baseEnd
    /\ phaseEnd totalWeeks (10 / 15) = buildEnd
    /\ getPhaseForWeek weekNumber totalWeeks
       = if weekNumber =? totalWeeks then race
         else if weekNumber <=? baseEnd then base
         else if weekNumber <=? buildEnd then build
         else if weekNumber <=? peakEnd then peak
         else taper.
Proof.
  exists (phaseEnd totalWeeks (4 / 15)), (phaseEnd totalWeeks (10 / 15)),
    (phaseEnd totalWeeks (13 / 15)).
  repeat split; try apply (phaseEnd_bounds totalWeeks 4);
    try apply (phaseEnd_bounds totalWeeks 10); try apply (phaseEnd_bounds totalWeeks 13).
Qed.

Lemma getPhaseForWeek_race (week totalWeeks : Z) :
  getPhaseForWeek week totalWeeks = race <-> week = totalWeeks.
Proof.
  destruct (getPhaseForWeek_cases week totalWeeks)
    as (b & u & p & Hb & Hu & Hp & _ & _ & ->).
  leb_cases; split; intros; try discriminate; try reflexivity; lia.
Qed.

Lemma getPhaseForWeek_first (totalWeeks : Z) :
  8 <= totalWeeks <= 20 -> getPhaseForWeek 1 totalWeeks = base.
Proof.
  intros HT.
  destruct (getPhaseForWeek_cases 1 totalWeeks)
    as (b & u & p & Hb & Hu & Hp & _ & _ & ->).
  leb_cases; try reflexivity; lia.
Qed.

(** X8: in a plan of 8 to 20 weeks the phases follow one another in the order
    base, build, peak, taper, race as the week number grows; the last week,
    and no other, is the race week; the first week is a base week; and a plan
    has a taper week exactly when it has 15 weeks or more. *)
Theorem phases_in_order (totalWeeks : Z) :
  8 <= totalWeeks <= 20 ->
  (forall week week', week <= week' <= totalWeeks ->
     phase_rank (getPhaseForWeek week totalWeeks)
     <= phase_rank (getPhaseForWeek week' totalWeeks))
  /\ (forall week, getPhaseForWeek week totalWeeks = race <-> week = totalWeeks)
  /\ getPhaseForWeek 1 totalWeeks = base
  /\ ((exists week, 1 <= week <= totalWeeks
                    /\ getPhaseForWeek week totalWeeks = taper)
      <-> 15 <= totalWeeks).
Proof.
  intros HT. split; [|split; [|split]].
  - intros week week' Hweeks.
    destruct (getPhaseForWeek_cases week totalWeeks)
      as (b & u & p & Hb & Hu & Hp & _ & _ & ->).
    destruct (getPhaseForWeek_cases week' totalWeeks)
      as (b' & u' & p' & Hb' & Hu' & Hp' & _ & _ & ->).
    assert (b' = b) as -> by lia. assert (u' = u) as -> by lia.
    assert (p' = p) as -> by lia.
    leb_cases; cbn; lia.
  - intros week. apply getPhaseForWeek_race.
  - apply getPhaseForWeek_first, HT.
  - split.
    + intros (week & Hweek & Htaper). revert Htaper.
      destruct (getPhaseForWeek_cases week totalWeeks)
        as (b & u & p & Hb & Hu & Hp & _ & _ & ->).
      leb_cases; try discriminate. intros _. lia.
    + intros H15.
      destruct (getPhaseForWeek_cases (totalWeeks - 1) totalWeeks)
        as (b & u & p & Hb & Hu & Hp & _ & _ & Hphase).
      exists (totalWeeks - 1). split; [lia|]. rewrite Hphase.
      leb_cases; try reflexivity; lia.
Qed.

Lemma isRecoveryWeek_cases (weekNumber totalWeeks : Z) :
  exists baseEnd,
    (15 * baseEnd - 15 < 4 * totalWeeks <= 15 * baseEnd)
    /\ isRecoveryWeek weekNumber totalWeeks
       = if weekNumber =? 1 then false
         else
           let phase := getPhaseForWeek weekNumber totalWeeks in
           if bool_decide (phase = taper) || bool_decide (phase = race) then false
           else if totalWeeks =? 15 then
             (weekNumber =? 4) || (weekNumber =? 7) || (weekNumber =? 10)
           else if weekNumber =? baseEnd then true
           else if bool_decide (phase = build) then
             (0 <? weekNumber - (baseEnd + 1))
             && (Z.rem (weekNumber - (baseEnd + 1)) 3 =? 2)
           else false.
Proof.
  exists (phaseEnd totalWeeks (4 / 15)). split; [apply (phaseEnd_bounds totalWeeks 4)|].
  reflexivity.
Qed.

(** X9: in a plan of 8 to 20 weeks a recovery week is never the first week,
    lies in the base or the build phase, and is never followed by another
    recovery week. *)
Theorem recovery_weeks_apart (totalWeeks week : Z) :
  8 <= totalWeeks <= 20 ->
  isRecoveryWeek week totalWeeks = true ->
  week <> 1
  /\ (getPhaseForWeek week totalWeeks = base
      \/ getPhaseForWeek week totalWeeks = build)
  /\ isRecoveryWeek (week + 1) totalWeeks = false.
Proof.
  intros HT.
  destruct (isRecoveryWeek_cases week totalWeeks) as (b & Hb & ->).
  destruct (isRecoveryWeek_cases (week + 1) totalWeeks) as (b' & Hb' & ->).
  assert (b' = b) as -> by lia.
  destruct (getPhaseForWeek_cases week totalWeeks)
    as (b1 & u & p & Hb1 & Hu & Hp & _ & _ & ->).
  destruct (getPhaseForWeek_cases (week + 1) totalWeeks)
    as (b2 & u2 & p2 & Hb2 & Hu2 & Hp2 & _ & _ & ->).
  assert (b1 = b) as -> by lia. assert (b2 = b) as -> by lia.
  assert (u2 = u) as -> by lia. assert (p2 = p) as -> by lia.
  cbv zeta.
  destruct (week =? 1) eqn:H1; [discriminate|]. apply Z.eqb_neq in H1.
  destruct (week =? totalWeeks) eqn:Hrace; [discriminate|]. apply Z.eqb_neq in Hrace.
  destruct (week <=? b) eqn:Hbase;
    [apply Z.leb_le in Hbase | apply Z.leb_gt in Hbase;
     destruct (week <=? u) eqn:Hbuild;
     [apply Z.leb_le in Hbuild | apply Z.leb_gt in Hbuild;
      destruct (week <=? p) eqn:Hpeak;
      [apply Z.leb_le in Hpeak | apply Z.leb_gt in Hpeak]]];
    cbn [bool_decide decide_rel orb andb];
    try discriminate.
  all: rewrite ?bool_decide_eq_false_2 by discriminate;
       rewrite ?bool_decide_eq_true_2 by reflexivity; cbn [orb andb].
  all: try discriminate.
  all: intros Hrec; split; [assumption|]; split; [auto|].
  all: revert Hrec; leb_cases; cbn [orb andb]; intros;
       rewrite ?bool_decide_eq_false_2 by discriminate;
       rewrite ?bool_decide_eq_true_2 by reflexivity; cbn [orb andb];
       try reflexivity; try discriminate; try lia.
  all: leb_cases; cbn [orb andb]; try reflexivity; try discriminate;
       try (Z.to_euclidean_division_equations; lia).
Qed.

(** ** Weeks of the plan *)



Section PlanCalendarFacts.
Context (differenceInDays : Date -> Date -> Z) (startOfWeekMonday : Date -> Date).



End PlanCalendarFacts.

(** X11: a taper week or the race week gets no strength session: such a week
    is never a recovery week, and the target of the scheduler is zero. *)
Theorem taper_and_race_without_strength {num : Type} `{!JsNumber num}
    (week totalWeeks : Z) (ww : JsMap.t RunType) (prefs : StrengthPreferences) :
  getPhaseForWeek week totalWeeks = taper \/ getPhaseForWeek week totalWeeks = race ->
  isRecoveryWeek week totalWeeks = false
  /\ scheduleStrengthForWeek (num:=num) ww prefs (getPhaseForWeek week totalWeeks)
       (isRecoveryWeek week totalWeeks) = JsMap.empty.
Proof.
  intros Hphase.
  assert (Hrec : isRecoveryWeek week totalWeeks = false).
  { unfold isRecoveryWeek. destruct (week =? 1); [reflexivity|]. cbv zeta.
    destruct Hphase as [-> | ->]; reflexivity. }
  split; [assumption|]. rewrite Hrec.
  destruct Hphase as [-> | ->]; reflexivity.
Qed.

(** ** Dates of the week *)

(** X12: [getWeekDates] holds the seven weekdays in the order of the week,
    each with the date that [getDateForDay] gives, and the day that follows a
    weekday in the ring has the next date of the calendar, Monday after
    Sunday apart. *)
Theorem week_dates_by_day (weekStart : Date) (day : DayOfWeek) :
  JsMap.keys (getWeekDates weekStart) = DAYS_IN_ORDER
  /\ JsMap.get day (getWeekDates weekStart) = Some (getDateForDay weekStart day)
  /\ (day <> sunday ->
      getDateForDay weekStart (getNextDay day) = nextDate (getDateForDay weekStart day)).
Proof.
  split; [reflexivity|]. split.
  - unfold getWeekDates, getDateForDay.
    destruct day; cbn -[addDays]; reflexivity.
  - intros Hday. unfold getDateForDay.
    destruct day; try contradiction;
      change (getNextDay monday) with tuesday;
      change (getNextDay tuesday) with wednesday;
      change (getNextDay wednesday) with thursday;
      change (getNextDay thursday) with friday;
      change (getNextDay friday) with saturday;
      change (getNextDay saturday) with sunday;
      cbn [dayOffsets]; reflexivity.
Qed.

(** X13: on days of the calendar [isDateInRange] is the order of the
    calendar: the date lies in the range exactly when it is not before the
    first day and not after the last; it is the test that [isDateBlocked]
    applies to a range. *)
Theorem date_in_range_calendar (date first last : Date) (why : option string) :
  validDate date = true -> validDate first = true -> validDate last = true ->
  isDateInRange date (formatDateISO first) (formatDateISO last)
  = date_leb first date && date_leb date last
  /\ range_contains (range_between first last why) (formatDateISO date)
     = isDateInRange date (formatDateISO first) (formatDateISO last).
Proof.
  intros Hd Hf Hl. unfold isDateInRange, range_contains, range_between.
  cbn [range_start range_end].
  rewrite !str_le_formatDateISO by assumption. split; reflexivity.
Qed.

(** X14: with ranges between days of the calendar, a day of a valid week is
    blocked exactly when its date lies within one of the ranges, ends
    included. *)
Theorem day_blocked_iff_in_range (weekStart : Date) (day : DayOfWeek)
    (spans : list (Date * Date * option string)) :
  validWeekStart weekStart = true ->
  Forall (fun span => validDate span.1.1 = true /\ validDate span.1.2 = true) spans ->
  exists result,
    isDayBlocked day weekStart
      (map (fun span => range_between span.1.1 span.1.2 span.2) spans) = Some result
    /\ (blocked result = true
        <-> exists span, span ∈ spans
                         /\ date_leb span.1.1 (getDateForDay weekStart day) = true
                         /\ date_leb (getDateForDay weekStart day) span.1.2 = true).
Proof.
  intros Hvalid Hspans. rewrite isDayBlocked_valid by assumption.
  eexists. split; [reflexivity|]. unfold blockedOn.
  pose proof (getDateForDay_valid weekStart day Hvalid) as Hdate.
  set (date := getDateForDay weekStart day) in *.
  induction spans as [|span spans IH]; simpl.
  - split; [discriminate|]. intros (span & Hin & _). inversion Hin.
  - apply Forall_cons in Hspans as [[Hfirst Hlast] Hspans].
    unfold range_between at 1.
    rewrite range_contains_calendar by assumption.
    destruct (date_leb span.1.1 date && date_leb date span.1.2) eqn:Hin; simpl.
    + split; [|reflexivity]. intros _. exists span.
      apply andb_true_iff in Hin as [? ?]. split; [apply list_elem_of_here | auto].
    + rewrite (IH Hspans). split.
      * intros (s & Hs & Hle). exists s. split; [apply list_elem_of_further, Hs | exact Hle].
      * intros (s & Hs & Hle1 & Hle2). apply elem_of_cons in Hs as [->|Hs].
        -- rewrite Hle1, Hle2 in Hin. discriminate.
        -- exists s. auto.
Qed.

(** ** Workouts and the week *)

Section WorkoutsOfTheWeek.
Context {num : Type} `{!JsNumber num}.

(** X15: the type of the workout that [generateWorkout] returns is the type
    asked for, with three exceptions: a long run becomes a progression run in
    a build week that is not a recovery week; a progression run becomes a
    long run in the base phase; and a race_pace run becomes a long run
    outside the build and peak phases. *)
Theorem generateWorkout_run_type (params : WorkoutParams num) :
  run_type (generateWorkout params)
  = match param_type params with
    | long =>
        if bool_decide (param_phase params = build) && negb (param_isRecovery params)
        then progression else long
    | progression =>
        if bool_decide (param_phase params = base) then long else progression
    | race_pace =>
        if bool_decide (param_phase params = peak)
           || bool_decide (param_phase params = build)
        then race_pace else long
    | type => type
    end.
Proof.
  destruct params as [type distance phase isRecovery paceZones level].
  destruct type, phase, isRecovery; reflexivity.
Qed.

Lemma scan_ranges_unblocked (checkStr : string) (blockedDates : list BlockedDateRange) :
  blocked (scan_ranges checkStr blockedDates) = false ->
  scan_ranges checkStr blockedDates = {| blocked := false; reason := None |}.
Proof.
  induction blockedDates as [|r rs IH]; simpl; [reflexivity|].
  destruct (range_contains r checkStr); [discriminate | exact IH].
Qed.

Lemma workoutTypes_get (runningSchedule : JsMap.t (RunningWorkout num)) (day : DayOfWeek) :
  NoDup (JsMap.keys runningSchedule) ->
  JsMap.get day (workoutTypes runningSchedule)
  = option_map run_type (JsMap.get day runningSchedule).
Proof.
  unfold workoutTypes.
  assert (Hgen : forall types,
    NoDup (JsMap.keys runningSchedule) ->
    JsMap.get day
      (fold_left (fun types '(day, workout) => JsMap.set day (run_type workout) types)
         runningSchedule types)
    = match JsMap.get day runningSchedule with
      | Some workout => Some (run_type workout)
      | None => JsMap.get day types
      end).
  { induction runningSchedule as [|[k w] s IH]; intros types Hnd; [reflexivity|].
    cbn [fold_left]. change (NoDup (k :: JsMap.keys s)) in Hnd.
    apply list.NoDup_cons in Hnd as [Hnotin Hnd].
    rewrite (IH _ Hnd). cbn [JsMap.get].
    destruct (decide (day = k)) as [->|Hne].
    - apply get_None_keys in Hnotin. rewrite Hnotin. apply get_set_eq.
    - destruct (JsMap.get day s); [reflexivity|]. apply get_set_ne, Hne. }
  intros Hnd. rewrite (Hgen _ Hnd).
  destruct (JsMap.get day runningSchedule); reflexivity.
Qed.

Section GeneratedWeek.
Context (template : WeekTemplate num) (paceZones : PaceZones) (phase : Phase)
  (isRecovery : bool) (level : PlanLevel) (weekStart : Date).
Context (Hvalid : validWeekStart weekStart = true).

Local Abbreviation schedule_of blockedDates :=
  (generateRunningSchedule template paceZones phase isRecovery level blockedDates
     weekStart).
Local Abbreviation get_spec blockedDates :=
  (generateRunningSchedule_get template paceZones phase isRecovery level blockedDates
     weekStart Hvalid).

(** X16: blocked ranges touch the blocked days only: a day that no range
    covers holds the workout of the week without blocked dates, unless it is
    the weekend alternate that receives a moved long run. *)
Theorem unblocked_day_keeps_workout (blockedDates : list BlockedDateRange)
    (day : DayOfWeek) (result : BlockedResult) :
  isDayBlocked day weekStart blockedDates = Some result ->
  blocked result = false ->
  long_run_moved template weekStart blockedDates = false \/ day <> altDay template ->
  exists schedule plain,
    schedule_of blockedDates = Some schedule
    /\ schedule_of [] = Some plain
    /\ JsMap.get day schedule = JsMap.get day plain.
Proof.
  rewrite isDayBlocked_valid by assumption. intros [= <-] Hfree Hmoved.
  destruct (get_spec blockedDates) as (schedule & Hrun & _ & Hget).
  destruct (get_spec []) as (plain & Hplain & _ & Hget0).
  exists schedule, plain. split; [assumption|]. split; [assumption|].
  rewrite Hget, Hget0.
  assert (Hverdict : blockedOn weekStart blockedDates day = blockedOn weekStart [] day).
  { unfold blockedOn in *. rewrite (scan_ranges_unblocked _ _ Hfree). reflexivity. }
  rewrite Hverdict.
  destruct (last_quality day (qualityDays template)); [reflexivity|].
  enough (Hstep :
    JsMap.get day (long_run_step template paceZones phase isRecovery level
                     (adjustedTemplate template weekStart blockedDates)
                     (blockedOn weekStart blockedDates (longRunDay template))
                     JsMap.empty)
    = JsMap.get day (long_run_step template paceZones phase isRecovery level
                       (adjustedTemplate template weekStart [])
                       (blockedOn weekStart [] (longRunDay template))
                       JsMap.empty)) by (rewrite Hstep; reflexivity).
  clear Hget Hget0 Hrun Hplain. rewrite !long_step_get.
  unfold long_run_moved in Hmoved. unfold longRunSlot, adjustedTemplate.
  change (blocked (blockedOn weekStart [] (longRunDay template))) with false.
  cbv iota.
  destruct (blocked (blockedOn weekStart blockedDates (longRunDay template))) eqn:Hlong.
  - assert (Hday : day <> longRunDay template) by (intros ->; congruence).
    assert (Hnone : forall X : option (RunningWorkout num),
      (if decide (day = if num_gtb (longRunDistance template) (num_lit 0)
                        then longRunDay template else longRunDay template)
       then X else None) = None).
    { intros X. destruct (num_gtb _ _); destruct (decide (day = _)); congruence. }
    rewrite Hnone. clear Hnone.
    destruct (blocked (blockedOn weekStart blockedDates (altDay template)));
      cbn [negb andb longRunDay longRunDistance with_longRunDay with_longRunDistance]
        in *.
    + rewrite num_gtb_irrefl. cbv iota. destruct (decide (day = _)); congruence.
    + destruct (num_gtb (longRunDistance template) (num_lit 0)); cbv iota;
        destruct (decide (day = _)) as [Heq|]; try reflexivity; try contradiction.
      destruct Hmoved; [discriminate | contradiction].
  - apply (scan_ranges_unblocked _ blockedDates) in Hlong.
    unfold blockedOn. rewrite Hlong. reflexivity.
Qed.

(** X17: when the long-run day and its weekend alternate are both blocked,
    the week has no long run: the long-run day, if no quality session sits on
    it, holds the Rest with the reason of its range, and no day other than a
    quality day holds a run of type long or progression. *)
Theorem weekend_blocked_no_long_run (blockedDates : list BlockedDateRange)
    (onLong onAlt : BlockedResult) :
  isDayBlocked (longRunDay template) weekStart blockedDates = Some onLong ->
  blocked onLong = true ->
  isDayBlocked (altDay template) weekStart blockedDates = Some onAlt ->
  blocked onAlt = true ->
  exists schedule,
    schedule_of blockedDates = Some schedule
    /\ (longRunDay template ∉ map quality_day (qualityDays template) ->
        JsMap.get (longRunDay template) schedule
        = Some (createRestDay (reason onLong)))
    /\ (forall day workout,
          JsMap.get day schedule = Some workout ->
          isLongRun (run_type workout) = true ->
          day ∈ map quality_day (qualityDays template)).
Proof.
  rewrite !isDayBlocked_valid by assumption. intros [= <-] Hlong [= <-] Halt.
  destruct (get_spec blockedDates) as (schedule & Hrun & _ & Hget).
  exists schedule. split; [assumption|].
  assert (Hadj : adjustedTemplate template weekStart blockedDates
                 = with_longRunDistance template (num_lit 0)).
  { unfold adjustedTemplate. rewrite Hlong, Halt. reflexivity. }
  assert (Hstep : forall day,
    JsMap.get day (long_run_step template paceZones phase isRecovery level
                     (adjustedTemplate template weekStart blockedDates)
                     (blockedOn weekStart blockedDates (longRunDay template))
                     JsMap.empty)
    = if decide (day = longRunDay template)
      then Some (createRestDay
                   (reason (blockedOn weekStart blockedDates (longRunDay template))))
      else None).
  { intros day. rewrite long_step_get. unfold longRunSlot. rewrite Hadj.
    cbn [longRunDistance with_longRunDistance]. rewrite num_gtb_irrefl.
    reflexivity. }
  split.
  - intros Hquality. rewrite Hget.
    destruct (last_quality (longRunDay template) (qualityDays template)) eqn:Hq.
    { exfalso. apply Hquality, last_quality_Some. eauto. }
    rewrite Hstep. destruct (decide (longRunDay template = longRunDay template));
      [reflexivity | congruence].
  - intros day workout. rewrite Hget.
    destruct (last_quality day (qualityDays template)) eqn:Hq.
    { intros _ _. apply last_quality_Some. eauto. }
    rewrite Hstep. unfold easy_workout, cross_workout.
    intros Hworkout Hlongrun. exfalso.
    apply isLongRun_true in Hlongrun. revert Hworkout.
    destruct (decide (day = longRunDay template));
      [intros [= <-]; destruct Hlongrun as [Hl|Hl]; cbn in Hl; discriminate Hl|].
    destruct (decide (day ∈ easyRunDays template)).
    { destruct (blocked (blockedOn weekStart blockedDates day)); intros [= <-]; destruct Hlongrun as [Hl|Hl]; cbn in Hl; discriminate Hl. }
    destruct (decide (day ∈ restDays template));
      [intros [= <-]; destruct Hlongrun as [Hl|Hl]; cbn in Hl; discriminate Hl|].
    destruct (decide (crossTrainingDay template = Some day)); [|discriminate].
    destruct (blocked (blockedOn weekStart blockedDates day)); intros [= <-];
      destruct Hlongrun as [Hl|Hl]; cbn in Hl; discriminate Hl.
Qed.

(** X18: in the week that [generateWeek] puts together, the strength
    sessions respect the running schedule that was generated for it: a day
    with a session is never the eve of a long or progression run, and, in a
    recovery week or outside the peak phase, a lower_body session has no
    speed-type run on the day before or the day after. *)
Theorem week_strength_respects_runs (blockedDates : list BlockedDateRange)
    (preferences : StrengthPreferences) :
  exists schedule,
    schedule_of blockedDates = Some schedule
    /\ forall day session,
         weekStrengthSession schedule preferences phase isRecovery day = Some session ->
         scheduled session = true
         /\ (forall workout,
               JsMap.get (getNextDay day) schedule = Some workout ->
               isLongRun (run_type workout) = false)
         /\ (isRecovery = true \/ phase <> peak ->
             session_type session = Some lower_body ->
             forall workout,
               JsMap.get (getPreviousDay day) schedule = Some workout
               \/ JsMap.get (getNextDay day) schedule = Some workout ->
               isSpeedWorkout (run_type workout) = false).
Proof.
  destruct (get_spec blockedDates) as (schedule & Hrun & Hnd & _).
  exists schedule. split; [assumption|].
  intros day session. unfold weekStrengthSession, weekStrengthAllocations.
  destruct (JsMap.get day _) as [a|] eqn:Ha; [|discriminate].
  intros [= <-]. cbn [scheduled session_type].
  split; [reflexivity|]. split.
  - intros workout Hnext.
    assert (Hlift : canLiftOnDay day (workoutTypes schedule) = true).
    { apply availableDays_spec. rewrite <- sortedDays_Permutation.
      eapply scheduled_day_sorted. rewrite Ha. eauto. }
    unfold canLiftOnDay in Hlift.
    rewrite (workoutTypes_get schedule _ Hnd), Hnext in Hlift. cbn in Hlift.
    destruct (isLongRun (run_type workout)); [discriminate | reflexivity].
  - intros Hmode [= Hlower] workout Hnear.
    pose proof (lower_body_can_do_legs _ _ _ _ _ _ Hmode Ha Hlower) as Hlegs.
    apply canDoHeavyLegs_true in Hlegs as (Hprev & Hnext & _).
    destruct (isSpeedWorkout (run_type workout)) eqn:Hspeed; [|reflexivity].
    exfalso. destruct Hnear as [Hw|Hw]; [apply Hprev | apply Hnext];
      exists (run_type workout); (split; [|assumption]);
      rewrite (workoutTypes_get schedule _ Hnd), Hw; reflexivity.
Qed.

End GeneratedWeek.
End WorkoutsOfTheWeek.

(** ** Week templates *)

Lemma concat_singletons {A B} (P : B -> Prop) (g : A -> list B) (l : list A) :
  (forall x, x ∈ l -> exists y, g x = [y] /\ P y) ->
  length (concat (map g l)) = length l
  /\ forall y, y ∈ concat (map g l) -> P y.
Proof.
  induction l as [|x l IH]; intros Hall; simpl.
  - split; [reflexivity|]. intros y Hy. inversion Hy.
  - destruct (Hall x) as (y & -> & Hy); [apply list_elem_of_here|].
    destruct IH as [Hlen HP].
    { intros x' Hx'. apply Hall, list_elem_of_further, Hx'. }
    simpl. split; [rewrite Hlen; reflexivity|].
    intros y' Hy'. apply elem_of_cons in Hy' as [->|Hy']; auto.
Qed.

Section TemplateFacts.
Context {num : Type} `{!JsNumber num}.

Lemma week_template_whole_week focus (distance : num) quality qualityDistance
    restDays crossTrainingDay mileage :
  (restDays = [thursday] /\ crossTrainingDay = Some saturday)
  \/ (restDays = [thursday; saturday] /\ crossTrainingDay = None) ->
  names_whole_week
    (week_template focus distance quality qualityDistance restDays crossTrainingDay
       mileage).
Proof. unfold week_template. intros [[-> ->]|[-> ->]]; whole_week. Qed.

Lemma createRaceWeekTemplate_whole_week level :
  names_whole_week (createRaceWeekTemplate (num:=num) level).
Proof. unfold createRaceWeekTemplate. whole_week. Qed.

Lemma createWeekTemplate_whole_week phase level isRecovery weekNumber options :
  names_whole_week (createWeekTemplate (num:=num) phase level isRecovery weekNumber options).
Proof.
  unfold createWeekTemplate. cbv zeta.
  destruct (negb isRecovery && (bool_decide (phase = build) || bool_decide (phase = peak)));
    [destruct (options ≫= option_secondQuality)|]; whole_week.
Qed.

Lemma base_week_one numWeeks level i :
  0 <= i ->
  exists template, base_week (num:=num) numWeeks level i = [template]
                   /\ names_whole_week template.
Proof.
  intros Hi. unfold base_week. cbv zeta.
  destruct (i =? 0) eqn:H0;
    [|destruct (i =? 1) eqn:H1;
      [|destruct ((i =? 2) || (2 <? i) && negb ((i =? numWeeks - 1) && (4 <=? numWeeks)))
          eqn:H2;
        [|destruct ((i =? numWeeks - 1) && (4 <=? numWeeks)) eqn:Hrec]]];
    try (eexists; split; [reflexivity|]; apply week_template_whole_week; auto; fail).
  exfalso. apply Z.eqb_neq in H0, H1. rewrite andb_true_r in H2.
  apply orb_false_iff in H2 as [H2 H3]. apply Z.eqb_neq in H2.
  apply Z.ltb_ge in H3. lia.
Qed.

Lemma build_week_whole_week numWeeks level i :
  names_whole_week (build_week (num:=num) numWeeks level i).
Proof.
  unfold build_week. cbv zeta.
  repeat match goal with
         | |- names_whole_week (if ?c then _ else _) => destruct c
         end; apply week_template_whole_week; auto.
Qed.

Lemma peak_week_whole_week level i : names_whole_week (peak_week (num:=num) level i).
Proof.
  unfold peak_week. cbv zeta.
  repeat match goal with
         | |- names_whole_week (if ?c then _ else _) => destruct c
         end; apply week_template_whole_week; auto.
Qed.

Lemma taper_week_whole_week numWeeks level i :
  names_whole_week (taper_week (num:=num) numWeeks level i).
Proof.
  unfold taper_week. cbv zeta.
  destruct (i =? numWeeks - 1); [apply createRaceWeekTemplate_whole_week|].
  destruct (i =? 0); apply week_template_whole_week; auto.
Qed.

(** X19: each phase file returns one template per week, and every template
    of the phase files and of [createWeekTemplate] names the whole week: each
    weekday is the long-run day or in one of the lists of the template, and
    the long-run day is in none of them.  The last template of the taper
    phase is the race week, with the marathon on Saturday. *)
Theorem phase_templates_whole_week (numWeeks : Z) (level : PlanLevel) :
  length (generateBasePhase (num:=num) numWeeks level) = Z.to_nat numWeeks
  /\ length (generateBuildPhase (num:=num) numWeeks level) = Z.to_nat numWeeks
  /\ length (generatePeakPhase (num:=num) numWeeks level) = Z.to_nat numWeeks
  /\ length (generateTaperPhase (num:=num) numWeeks level) = Z.to_nat numWeeks
  /\ (forall template : WeekTemplate num,
        phase_template template -> names_whole_week template)
  /\ (forall template,
        last (generateTaperPhase (num:=num) numWeeks level) = Some template ->
        longRunDay template = saturday
        /\ longRunDistance template = num_lit 26.2).
Proof.
  split; [|split; [|split; [|split; [|split]]]].
  - unfold generateBasePhase.
    destruct (concat_singletons names_whole_week (base_week (num:=num) numWeeks level)
                (seqZ 0 numWeeks)) as [-> _]; [|apply length_seqZ].
    intros i Hi. apply elem_of_seqZ in Hi. apply base_week_one. lia.
  - unfold generateBuildPhase. rewrite length_fmap, length_seqZ. reflexivity.
  - unfold generatePeakPhase. rewrite length_fmap, length_seqZ. reflexivity.
  - unfold generateTaperPhase. rewrite length_fmap, length_seqZ. reflexivity.
  - intros template [(n & lvl & Hin)|(phase & lvl & rec & week & options & ->)];
      [|apply createWeekTemplate_whole_week].
    destruct Hin as [Hin|[Hin|[Hin|Hin]]].
    + unfold generateBasePhase in Hin.
      destruct (concat_singletons names_whole_week (base_week (num:=num) n lvl)
                  (seqZ 0 n)) as [_ Hall]; [|apply Hall, Hin].
      intros i Hi. apply elem_of_seqZ in Hi. apply base_week_one. lia.
    + apply list_elem_of_fmap in Hin as (i & -> & _). apply build_week_whole_week.
    + apply list_elem_of_fmap in Hin as (i & -> & _). apply peak_week_whole_week.
    + apply list_elem_of_fmap in Hin as (i & -> & _). apply taper_week_whole_week.
  - intros template. unfold generateTaperPhase. rewrite fmap_last.
    destruct (last (seqZ 0 numWeeks)) as [i|] eqn:Hlast; [|discriminate].
    intros [= <-]. rewrite last_lookup, length_seqZ in Hlast.
    apply lookup_seqZ in Hlast as [-> Hlt]. unfold taper_week.
    replace (0 + Z.of_nat (Nat.pred (Z.to_nat numWeeks)) =? numWeeks - 1) with true
      by (symmetry; apply Z.eqb_eq; lia).
    split; reflexivity.
Qed.

End TemplateFacts.

Section WholeWeek.
Context {num : Type} `{!JsNumber num}.
Context (template : WeekTemplate num) (paceZones : PaceZones) (phase : Phase)
  (isRecovery : bool) (level : PlanLevel) (blockedDates : list BlockedDateRange)
  (weekStart : Date).
Context (Hvalid : validWeekStart weekStart = true).

Lemma altDay_longRunDay : altDay template <> longRunDay template.
Proof. unfold altDay. destruct (decide (longRunDay template = sunday)); congruence. Qed.

Lemma longRunSlot_moved :
  longRunSlot template weekStart blockedDates
  = if long_run_moved template weekStart blockedDates
    then altDay template else longRunDay template.
Proof.
  unfold longRunSlot, adjustedTemplate, long_run_moved.
  destruct (blocked (blockedOn weekStart blockedDates (longRunDay template)));
    [destruct (blocked (blockedOn weekStart blockedDates (altDay template)))|];
    cbn [negb andb longRunDay longRunDistance with_longRunDay with_longRunDistance];
    try rewrite num_gtb_irrefl;
    destruct (num_gtb (longRunDistance template) (num_lit 0)); reflexivity.
Qed.

(** The days of the schedule: the listed days and the slot of the long
    run. *)
Lemma schedule_days schedule day :
  generateRunningSchedule template paceZones phase isRecovery level blockedDates
    weekStart = Some schedule ->
  is_Some (JsMap.get day schedule)
  <-> template_lists template day
      \/ day = longRunSlot template weekStart blockedDates.
Proof.
  destruct (generateRunningSchedule_get template paceZones phase isRecovery level
              blockedDates weekStart Hvalid) as (schedule' & -> & _ & Hget).
  intros [= <-]. rewrite Hget. unfold template_lists. rewrite <- last_quality_Some.
  destruct (last_quality day (qualityDays template)); [split; eauto|].
  rewrite long_step_get.
  destruct (decide (day = longRunSlot template weekStart blockedDates)).
  { destruct (num_gtb _ _); split; eauto. }
  destruct (decide (day ∈ easyRunDays template)); [split; eauto|].
  destruct (decide (day ∈ restDays template)); [split; eauto|].
  destruct (decide (crossTrainingDay template = Some day)); [split; eauto|].
  split; [intros [? ?]; discriminate|].
  intros [[[? ?]|[?|[?|?]]]|?]; try contradiction. discriminate.
Qed.

(** X20: for a template that names the whole week, the running schedule
    holds the seven weekdays, each once, unless the long run is moved to its
    weekend alternate; then the day the long run left has no entry, and the
    schedule holds the six other days. *)
Theorem whole_week_schedule :
  names_whole_week template ->
  exists schedule,
    generateRunningSchedule template paceZones phase isRecovery level blockedDates
      weekStart = Some schedule
    /\ (long_run_moved template weekStart blockedDates = false ->
        JsMap.keys schedule ≡ₚ DAYS_IN_ORDER)
    /\ (long_run_moved template weekStart blockedDates = true ->
        JsMap.get (longRunDay template) schedule = None
        /\ JsMap.keys schedule
           ≡ₚ filter (fun day => day <> longRunDay template) DAYS_IN_ORDER).
Proof.
  intros [Hall Hlong].
  destruct (generateRunningSchedule_get template paceZones phase isRecovery level
              blockedDates weekStart Hvalid) as (schedule & Hrun & Hnd & _).
  exists schedule. split; [assumption|].
  pose proof (fun day => schedule_days schedule day Hrun) as Hdays.
  rewrite longRunSlot_moved in Hdays.
  split; intros Hmoved; rewrite Hmoved in Hdays.
  - apply NoDup_Permutation; [assumption | apply NoDup_DAYS_IN_ORDER|].
    intros day. split; intros _; [apply elem_of_DAYS_IN_ORDER|].
    apply get_Some_keys, Hdays, Hall.
  - assert (Hnone : JsMap.get (longRunDay template) schedule = None).
    { destruct (JsMap.get (longRunDay template) schedule) eqn:Hget; [|reflexivity].
      exfalso. destruct (proj1 (Hdays (longRunDay template))) as [?|Heq]; [eauto|auto|].
      symmetry in Heq. apply altDay_longRunDay in Heq. exact Heq. }
    split; [assumption|].
    apply NoDup_Permutation;
      [assumption | apply list.NoDup_filter, NoDup_DAYS_IN_ORDER|].
    intros day. rewrite list_elem_of_filter, <- get_Some_keys. split.
    + intros Hsome. split; [|apply elem_of_DAYS_IN_ORDER].
      intros ->. rewrite Hnone in Hsome. destruct Hsome. discriminate.
    + intros [Hday _]. apply Hdays. destruct (Hall day); [auto | contradiction].
Qed.

End WholeWeek.

(** ** Dates of the blocked-date parser *)

Lemma string_of_Z_pad4 (n : Z) : 1000 <= n <= 9999 -> string_of_Z n = pad4 n.
Proof.
  intros Hn.
  assert (Hall : Forall (fun n => string_of_Z n = pad4 n) (seqZ 1000 9000))
    by (apply (bool_decide_unpack _); vm_compute; exact I).
  rewrite Forall_forall in Hall. apply Hall, elem_of_seqZ. lia.
Qed.

Lemma padStart2_pad2 (n : Z) : 0 <= n <= 99 -> padStart2 (string_of_Z n) = pad2 n.
Proof.
  intros Hn.
  assert (Hall : Forall (fun n => padStart2 (string_of_Z n) = pad2 n) (seqZ 0 100))
    by (apply (bool_decide_unpack _); vm_compute; exact I).
  rewrite Forall_forall in Hall. apply Hall, elem_of_seqZ. lia.
Qed.

(** X21: the blocked-date parser writes the dates that the week generator
    compares: for a day of the calendar with a year of four digits,
    [formatDate] gives the text of [formatDateISO]; and [determineYear]
    places a month in the twelve months that end with the month of the
    race. *)
Theorem formatDate_iso (date raceDay : Date) :
  validDate date = true -> 1000 <= year date ->
  formatDate (year date) (month date) (dayOfMonth date) = formatDateISO date
  /\ (1 <= month raceDay <= 12 ->
      12 * determineYear (month date) raceDay + month date
      <= 12 * year raceDay + month raceDay
      < 12 * determineYear (month date) raceDay + month date + 12).
Proof.
  intros Hvalid Hyear. apply validDate_spec in Hvalid as (Hy & Hm & Hd).
  pose proof (daysInMonth_bounds (year date) (month date)) as Hdim.
  split.
  - unfold formatDate, formatDateISO.
    rewrite string_of_Z_pad4, !padStart2_pad2 by lia. reflexivity.
  - intros Hrace. unfold determineYear.
    destruct (month raceDay <? month date) eqn:Hlt;
      [apply Z.ltb_lt in Hlt | apply Z.ltb_ge in Hlt]; lia.
Qed.

(** ** The further properties on concrete weeks *)

Lemma scheduled_sessions_pass_conflict_check_witness :
  conflict_reason (checkStrengthConflict tuesday lower_body base_week2_types)
  <> Some "Lifting scheduled day before long run"%string
  /\ (false = true \/ base <> peak ->
      checkStrengthConflict tuesday lower_body base_week2_types
      = {| conflict := false; conflict_reason := None |}).
Proof.
  apply (scheduled_sessions_pass_conflict_check (num:=Q) base_week2_types
           (tue_thu_sat 3) base false tuesday
           {| alloc_day := tuesday; alloc_type := lower_body;
              alloc_timing := "After run"; alloc_duration := 40%Q;
              alloc_notes := None |}).
  vm_compute. reflexivity.
Defined.

Lemma preferred_days_first_witness :
  is_Some (JsMap.get thursday
             (scheduleStrengthForWeek (num:=Q) base_week2_types (tue_thu_sat 3)
                base false)).
Proof.
  apply (preferred_days_first (num:=Q) base_week2_types (tue_thu_sat 3) base false
           thursday monday).
  - apply (bool_decide_unpack _). vm_compute. exact I.
  - reflexivity.
  - apply (bool_decide_unpack _). vm_compute. exact I.
  - vm_compute. eauto.
Defined.

Lemma allocation_well_formed_witness :
  tuesday = tuesday
  /\ 40%Q = getStrengthDuration lower_body base false
  /\ lower_body <> mobility.
Proof.
  apply (allocation_well_formed (num:=Q) base_week2_types (tue_thu_sat 3) base false
           tuesday
           {| alloc_day := tuesday; alloc_type := lower_body;
              alloc_timing := "After run"; alloc_duration := 40%Q;
              alloc_notes := None |}).
  vm_compute. reflexivity.
Defined.

Lemma recovery_week_light_full_body_witness :
  {| alloc_day := tuesday; alloc_type := full_body;
     alloc_timing := "Light session"; alloc_duration := 25%Q;
     alloc_notes := Some "Recovery week - lighter weight, fewer sets"%string |}
  = {| alloc_day := tuesday; alloc_type := full_body;
       alloc_timing := "Light session"; alloc_duration := num_lit 25;
       alloc_notes := Some "Recovery week - lighter weight, fewer sets"%string |}.
Proof.
  apply (recovery_week_light_full_body (num:=Q) base_week2_types (tue_thu_sat 3) build
           tuesday).
  vm_compute. reflexivity.
Defined.

Lemma strength_priority_witness :
  (canDoHeavyLegs monday base_week2_types = true ->
   exists day' a',
     JsMap.get day'
       (scheduleStrengthForWeek (num:=Q) base_week2_types (tue_thu_sat 3) base false)
     = Some a'
     /\ alloc_type a' = lower_body)
  /\ (core = core ->
      exists day' a',
        JsMap.get day'
          (scheduleStrengthForWeek (num:=Q) base_week2_types (tue_thu_sat 3) base false)
        = Some a'
        /\ alloc_type a' = upper_body)
  /\ "After run"%string = timing_of (JsMap.get monday base_week2_types).
Proof.
  apply (strength_priority (num:=Q) base_week2_types (tue_thu_sat 3) base monday
           {| alloc_day := monday; alloc_type := core;
              alloc_timing := "After run"; alloc_duration := 20%Q;
              alloc_notes := None |}).
  - discriminate.
  - vm_compute. reflexivity.
Defined.


Lemma phases_in_order_witness :
  (forall week week', week <= week' <= 15 ->
     phase_rank (getPhaseForWeek week 15) <= phase_rank (getPhaseForWeek week' 15))
  /\ (forall week, getPhaseForWeek week 15 = race <-> week = 15)
  /\ getPhaseForWeek 1 15 = base
  /\ ((exists week, 1 <= week <= 15 /\ getPhaseForWeek week 15 = taper) <-> 15 <= 15).
Proof. apply (phases_in_order 15). lia. Defined.

Lemma recovery_weeks_apart_witness :
  4 <> 1
  /\ (getPhaseForWeek 4 15 = base \/ getPhaseForWeek 4 15 = build)
  /\ isRecoveryWeek (4 + 1) 15 = false.
Proof. apply (recovery_weeks_apart 15 4); [lia | reflexivity]. Defined.

Lemma taper_and_race_without_strength_witness :
  isRecoveryWeek 14 15 = false
  /\ scheduleStrengthForWeek (num:=Q) base_week2_types (tue_thu_sat 3)
       (getPhaseForWeek 14 15) (isRecoveryWeek 14 15) = JsMap.empty.
Proof.
  apply (taper_and_race_without_strength (num:=Q) 14 15 base_week2_types (tue_thu_sat 3)).
  left. reflexivity.
Defined.

Lemma date_in_range_calendar_witness :
  isDateInRange {| year := 2026; month := 3; dayOfMonth := 7 |}
    "2026-02-27" "2026-03-08"
  = date_leb {| year := 2026; month := 2; dayOfMonth := 27 |}
      {| year := 2026; month := 3; dayOfMonth := 7 |}
    && date_leb {| year := 2026; month := 3; dayOfMonth := 7 |}
         {| year := 2026; month := 3; dayOfMonth := 8 |}
  /\ range_contains
       (range_between {| year := 2026; month := 2; dayOfMonth := 27 |}
          {| year := 2026; month := 3; dayOfMonth := 8 |} (Some "Skiing"%string))
       "2026-03-07"
     = isDateInRange {| year := 2026; month := 3; dayOfMonth := 7 |}
         "2026-02-27" "2026-03-08".
Proof.
  apply (date_in_range_calendar {| year := 2026; month := 3; dayOfMonth := 7 |}
           {| year := 2026; month := 2; dayOfMonth := 27 |}
           {| year := 2026; month := 3; dayOfMonth := 8 |} (Some "Skiing"%string));
    reflexivity.
Defined.

Lemma day_blocked_iff_in_range_witness :
  exists result,
    isDayBlocked saturday monday_2026_03_02 skiing_trip = Some result
    /\ (blocked result = true
        <-> exists span,
              span ∈ [({| year := 2026; month := 3; dayOfMonth := 7 |},
                       {| year := 2026; month := 3; dayOfMonth := 8 |},
                       Some "Skiing"%string)]
              /\ date_leb span.1.1 (getDateForDay monday_2026_03_02 saturday) = true
              /\ date_leb (getDateForDay monday_2026_03_02 saturday) span.1.2 = true).
Proof.
  apply (day_blocked_iff_in_range monday_2026_03_02 saturday
           [({| year := 2026; month := 3; dayOfMonth := 7 |},
             {| year := 2026; month := 3; dayOfMonth := 8 |},
             Some "Skiing"%string)]).
  - reflexivity.
  - repeat constructor.
Defined.

Lemma unblocked_day_keeps_workout_witness :
  exists schedule plain,
    generateRunningSchedule base_week2 paces base false moderate sunday_blocked
      monday_2026_03_02 = Some schedule
    /\ generateRunningSchedule base_week2 paces base false moderate []
         monday_2026_03_02 = Some plain
    /\ JsMap.get monday schedule = JsMap.get monday plain.
Proof.
  apply (unblocked_day_keeps_workout base_week2 paces base false moderate
           monday_2026_03_02 eq_refl sunday_blocked monday
           {| blocked := false; reason := None |}).
  - reflexivity.
  - reflexivity.
  - right. discriminate.
Defined.

Lemma weekend_blocked_no_long_run_witness :
  exists schedule,
    generateRunningSchedule base_week2 paces base false moderate skiing_trip
      monday_2026_03_02 = Some schedule
    /\ (longRunDay base_week2 ∉ map quality_day (qualityDays base_week2) ->
        JsMap.get (longRunDay base_week2) schedule
        = Some (createRestDay (Some "Skiing"%string)))
    /\ (forall day workout,
          JsMap.get day schedule = Some workout ->
          isLongRun (run_type workout) = true ->
          day ∈ map quality_day (qualityDays base_week2)).
Proof.
  apply (weekend_blocked_no_long_run base_week2 paces base false moderate
           monday_2026_03_02 eq_refl skiing_trip
           {| blocked := true; reason := Some "Skiing"%string |}
           {| blocked := true; reason := Some "Skiing"%string |});
    reflexivity.
Defined.

Lemma week_strength_respects_runs_witness :
  exists schedule,
    generateRunningSchedule base_week2 paces base false moderate sunday_blocked
      monday_2026_03_02 = Some schedule
    /\ forall day session,
         weekStrengthSession schedule (tue_thu_sat 3) base false day = Some session ->
         scheduled session = true
         /\ (forall workout,
               JsMap.get (getNextDay day) schedule = Some workout ->
               isLongRun (run_type workout) = false)
         /\ (false = true \/ base <> peak ->
             session_type session = Some lower_body ->
             forall workout,
               JsMap.get (getPreviousDay day) schedule = Some workout
               \/ JsMap.get (getNextDay day) schedule = Some workout ->
               isSpeedWorkout (run_type workout) = false).
Proof.
  apply (week_strength_respects_runs base_week2 paces base false moderate
           monday_2026_03_02 eq_refl sunday_blocked (tue_thu_sat 3)).
Defined.

Lemma whole_week_schedule_witness :
  exists schedule,
    generateRunningSchedule base_week2 paces base false moderate sunday_blocked
      monday_2026_03_02 = Some schedule
    /\ (long_run_moved base_week2 monday_2026_03_02 sunday_blocked = false ->
        JsMap.keys schedule ≡ₚ DAYS_IN_ORDER)
    /\ (long_run_moved base_week2 monday_2026_03_02 sunday_blocked = true ->
        JsMap.get (longRunDay base_week2) schedule = None
        /\ JsMap.keys schedule
           ≡ₚ filter (fun day => day <> longRunDay base_week2) DAYS_IN_ORDER).
Proof.
  apply (whole_week_schedule base_week2 paces base false moderate sunday_blocked
           monday_2026_03_02 eq_refl).
  split.
  - intros day. destruct day;
      first [right; reflexivity
            |left; apply (bool_decide_unpack _); vm_compute; exact I].
  - apply (bool_decide_unpack _). vm_compute. exact I.
Defined.

Lemma formatDate_iso_witness :
  formatDate 2026 3 7 = formatDateISO {| year := 2026; month := 3; dayOfMonth := 7 |}
  /\ (1 <= 4 <= 12 ->
      12 * determineYear 3 {| year := 2026; month := 4; dayOfMonth := 26 |} + 3
      <= 12 * 2026 + 4
      < 12 * determineYear 3 {| year := 2026; month := 4; dayOfMonth := 26 |} + 3 + 12).
Proof.
  apply (formatDate_iso {| year := 2026; month := 3; dayOfMonth := 7 |}
           {| year := 2026; month := 4; dayOfMonth := 26 |}).
  - reflexivity.
  - cbn. lia.
Defined.
